(** * HMPI index engine and classifier: a shallow embedding

    The Python sources modelled here are [backend/indices.py]
    ([_safe_get], [calculate_hmpi], [calculate_mci], [calculate_pi_table])
    and [backend/utils.py] ([validate_dataframe], [categorize_hmpi],
    [categorize_mci]).

    The parts of [app.py] that call them (the compute step, the
    dashboard counts, the map palette) are modelled as well.

    Python floats are IEEE-754 binary64 numbers; they are modelled by
    [spec_float] with the operations of [SpecFloat] at precision 53 and
    maximal exponent 1024, so every arithmetic step rounds exactly as
    the interpreter does.  Exceptions are modelled by the [result]
    monad; a pandas row is a finite map from column names to cell
    values, a [dict] is an insertion-ordered association list.  The
    index functions are given twice: on tables of scalars, and in
    [Wide] on tables whose cells may hold several values, where
    [_safe_get] raises. *)

From Stdlib Require Import ZArith Lia Floats.SpecFloat.
From stdpp Require Import base option list gmap strings.

Local Open Scope Z_scope.
Local Open Scope string_scope.
Local Open Scope list_scope.

(** ** Binary64 arithmetic *)

Module F64.

Definition prec : Z := 53.
Definition emax : Z := 1024.

Definition float : Type := spec_float.

Definition add : float -> float -> float := SFadd prec emax.
Definition mul : float -> float -> float := SFmul prec emax.
Definition div : float -> float -> float := SFdiv prec emax.
Definition eqb : float -> float -> bool := SFeqb.
Definition ltb : float -> float -> bool := SFltb.
Definition leb : float -> float -> bool := SFleb.

Definition nan : float := S754_nan.
Definition zero : float := S754_zero false.

(** Nearest binary64 number to an integer (ties to even); an integer
    beyond the binary64 range gives an infinity. *)
Definition of_Z (z : Z) : float := binary_normalize prec emax z 0 false.

Definition one : float := of_Z 1.
Definition hundred : float := of_Z 100.

Definition is_nan (f : float) : bool :=
  match f with S754_nan => true | _ => false end.

Definition is_inf (f : float) : bool :=
  match f with S754_infinity _ => true | _ => false end.

(** The floats the interpreter can hold: canonical mantissa and
    exponent in range. *)
Definition valid (f : float) : bool := valid_binary prec emax f.

(** A finite, strictly positive number. *)
Definition finite_pos (f : float) : bool :=
  match f with S754_finite false _ _ => true | _ => false end.

(** The value of a decimal literal [n / 10^k] with [n < 2^53] and
    [k <= 22]: both operands are exact, so the quotient is the
    correctly rounded literal. *)
Definition dec (n : Z) (k : nat) : float := div (of_Z n) (of_Z (10 ^ Z.of_nat k)).

(** Left-to-right accumulation [acc += x] starting from [0.0]. *)
Definition sum (l : list float) : float := foldl add zero l.

(** The smallest exponent of a binary64 number. *)
Definition emin : Z := -1074.

(** Numbers of sign [sx] that are neither zero nor NaN: an infinity,
    or a finite number whose exponent is not below [emin]. *)
Definition signed_ok (sx : bool) (f : float) : Prop :=
  match f with
  | S754_infinity s => s = sx
  | S754_finite s _ e => s = sx /\ emin <= e
  | _ => False
  end.

End F64.

Abbreviation float := F64.float.

(** ** Python values and exceptions *)

Inductive exn : Type :=
  | ZeroDivisionError
  | TypeError
  | ValueError
  | OverflowError
  | KeyError.

Inductive result (A : Type) : Type :=
  | Ok (a : A)
  | Raise (e : exn).
Arguments Ok {A} a.
Arguments Raise {A} e.

#[global] Instance result_ret : MRet result := fun A a => Ok a.
#[global] Instance result_bind : MBind result := fun A B f m =>
  match m with Ok a => f a | Raise e => Raise e end.

(** [for x in l: acc = step(acc, x)] where the body may raise. *)
Fixpoint for_each {A S : Type} (step : S -> A -> result S) (l : list A) (acc : S)
  : result S :=
  match l with
  | [] => Ok acc
  | x :: l' => acc' ← step acc x; for_each step l' acc'
  end.

(** The scalar values a table cell or a JSON limit can hold. *)
Inductive pyval : Type :=
  | VNone
  | VBool (b : bool)
  | VInt (z : Z)
  | VFloat (f : float)
  | VStr (s : string).

(** [pd.isna(val)] on a scalar: [None] and the float NaN. *)
Definition pd_isna (v : pyval) : bool :=
  match v with
  | VNone => true
  | VFloat f => F64.is_nan f
  | _ => false
  end.

(** [int -> float] conversion: correctly rounded, [OverflowError]
    when the integer is too large. *)
Definition int_to_float (z : Z) : result float :=
  let f := F64.of_Z z in
  if F64.is_inf f then Raise OverflowError else Ok f.

Definition bool_to_float (b : bool) : float :=
  if b then F64.one else F64.zero.

(** Python's float true division: [ZeroDivisionError] on a zero
    divisor, IEEE division otherwise. *)
Definition float_div (x y : float) : result float :=
  if F64.eqb y F64.zero then Raise ZeroDivisionError else Ok (F64.div x y).

(** [x / v] for a float [x] and an arbitrary right operand. *)
Definition float_truediv (x : float) (v : pyval) : result float :=
  match v with
  | VFloat y => float_div x y
  | VInt z => y ← int_to_float z; float_div x y
  | VBool b => float_div x (bool_to_float b)
  | VNone | VStr _ => Raise TypeError
  end.

(** [v == 0]. *)
Definition py_eq_zero (v : pyval) : bool :=
  match v with
  | VFloat y => F64.eqb y F64.zero
  | VInt z => Z.eqb z 0
  | VBool b => negb b
  | VNone | VStr _ => false
  end.

Definition is_None (v : pyval) : bool :=
  match v with VNone => true | _ => false end.

(** ** Dictionaries (insertion ordered) *)

Abbreviation dict V := (list (string * V)).

Definition dict_keys {V} (d : dict V) : list string := d.*1.

Fixpoint dict_lookup {V} (d : dict V) (k : string) : option V :=
  match d with
  | [] => None
  | (k', v) :: d' => if String.eqb k' k then Some v else dict_lookup d' k
  end.

(** [d[k]] *)
Definition dict_get {V} (d : dict V) (k : string) : result V :=
  match dict_lookup d k with Some v => Ok v | None => Raise KeyError end.

(** [d[k] = v]: replaces in place, or appends a new key. *)
Fixpoint dict_set {V} (d : dict V) (k : string) (v : V) : dict V :=
  match d with
  | [] => [(k, v)]
  | (k', v') :: d' =>
      if String.eqb k' k then (k, v) :: d' else (k', v') :: dict_set d' k v
  end.

(** Removal of a key. *)
Definition dict_del {V} (d : dict V) (k : string) : dict V :=
  filter (fun kv => kv.1 <> k) d.

(** ** Tables *)

Inductive dtype : Type := float64 | int64 | bool_ | object_.

Definition is_numeric_dtype (t : dtype) : bool :=
  match t with object_ => false | _ => true end.

Definition Label : Type := Z.

(** A row as yielded by [df.iterrows()], for a table with one scalar
    in each cell and no repeated column label: column name to cell.
    Cells that are not scalars are treated in [Wide], below. *)
Abbreviation Row := (gmap string pyval).

(** A table: its column labels in order, each with its dtype, and its
    rows in order, each with its label.  The column labels of a table
    of this type are meant to be distinct. *)
Record DataFrame : Type := mkDataFrame {
  df_columns : list (string * dtype);
  df_rows : list (Label * Row)
}.

Definition df_index (df : DataFrame) : list Label := (df_rows df).*1.

Record Series : Type := mkSeries {
  s_name : string;
  s_index : list Label;
  s_values : list float
}.

(** The frame returned by [calculate_pi_table]. *)
Record PiFrame : Type := mkPiFrame {
  pi_index : list Label;
  pi_columns : dict (list float)
}.

(** ** backend/indices.py, on scalar cells *)

Section Engine.

(** The builtin [float(s)] on a string: [None] stands for the
    [ValueError] raised on text that is not a number. *)
Variable str_to_float : string -> option float.

(** The builtin [float(val)]. *)
Definition py_float (v : pyval) : result float :=
  match v with
  | VNone => Raise TypeError
  | VBool b => Ok (bool_to_float b)
  | VInt z => int_to_float z
  | VFloat f => Ok f
  | VStr s =>
      match str_to_float s with
      | Some f => Ok f
      | None => Raise ValueError
      end
  end.

(** [_safe_get(row, col)]; the result [None] is Python's [None]. *)
Definition _safe_get (row : Row) (col : string) : option float :=
  let val := default VNone (row !! col) in
  if pd_isna val then None
  else match py_float val with
       | Ok f => Some f
       | Raise _ => None
       end.

(** The guard [Ci is None or Si is None or Si == 0] once [Ci] is known
    to be a float. *)
Definition skip_standard (Si : pyval) : bool := is_None Si || py_eq_zero Si.

(** Body of the inner loop of [calculate_hmpi]; the accumulator is
    [(Qi_sum, Wi_sum)]. *)
Definition hmpi_step (limits : dict pyval) (weight_scheme : string) (row : Row)
    (acc : float * float) (m : string) : result (float * float) :=
  let Ci := _safe_get row m in
  Si ← dict_get limits m;
  match Ci with
  | None => Ok acc
  | Some Ci =>
      if skip_standard Si then Ok acc
      else
        r ← float_truediv Ci Si;
        let Qi := F64.mul r F64.hundred in
        Wi ← (if String.eqb weight_scheme "1/Si"
              then float_truediv F64.one Si else Ok F64.one);
        Ok (F64.add acc.1 (F64.mul Qi Wi), F64.add acc.2 Wi)
  end.

(** One iteration of the outer loop of [calculate_hmpi]: the value
    appended to [hmpi_vals] for [row]. *)
Definition hmpi_row (limits : dict pyval) (weight_scheme : string) (row : Row)
  : result float :=
  let metals := dict_keys limits in
  '(Qi_sum, Wi_sum) ← for_each (hmpi_step limits weight_scheme row) metals
                        (F64.zero, F64.zero);
  if F64.ltb F64.zero Wi_sum then float_div Qi_sum Wi_sum else Ok F64.nan.

Definition calculate_hmpi (df : DataFrame) (limits : dict pyval)
    (weight_scheme : string) : result Series :=
  hmpi_vals ← mapM (fun ir : Label * Row => hmpi_row limits weight_scheme ir.2) (df_rows df);
  Ok (mkSeries "HMPI" (df_index df) hmpi_vals).

(** Body of the loop of [_row_mci]; the accumulator is [(s, any_val)]. *)
Definition mci_step (limits : dict pyval) (row : Row)
    (acc : float * bool) (m : string) : result (float * bool) :=
  let Ci := _safe_get row m in
  Si ← dict_get limits m;
  match Ci with
  | None => Ok acc
  | Some Ci =>
      if skip_standard Si then Ok acc
      else
        r ← float_truediv Ci Si;
        Ok (F64.add acc.1 r, true)
  end.

Definition _row_mci (limits : dict pyval) (row : Row) : result float :=
  let metals := dict_keys limits in
  '(s, any_val) ← for_each (mci_step limits row) metals (F64.zero, false);
  Ok (if (any_val : bool) then s else F64.nan).

Definition calculate_mci (df : DataFrame) (limits : dict pyval) : result Series :=
  vals ← mapM (fun ir : Label * Row => _row_mci limits ir.2) (df_rows df);
  Ok (mkSeries "MCI" (df_index df) vals).

(** One cell of the PI table. *)
Definition pi_cell (m : string) (Si : pyval) (row : Row) : result float :=
  match _safe_get row m with
  | None => Ok F64.nan
  | Some Ci => if skip_standard Si then Ok F64.nan else float_truediv Ci Si
  end.

(** Body of the loop over [limits.items()] in [calculate_pi_table]. *)
Definition pi_step (df : DataFrame) (pi : dict (list float))
    (item : string * pyval) : result (dict (list float)) :=
  let '(m, Si) := item in
  col ← mapM (fun ir : Label * Row => pi_cell m Si ir.2) (df_rows df);
  Ok (dict_set pi ("PI_" +:+ m) col).

Definition calculate_pi_table (df : DataFrame) (limits : dict pyval)
  : result PiFrame :=
  pi ← for_each (pi_step df) limits [];
  Ok (mkPiFrame (df_index df) pi).

End Engine.

(** ** backend/indices.py on cells that are not scalars *)

(** What [row.get(col, None)] hands to [_safe_get]: a scalar, or a
    value with several elements, that is a list or an array of two or
    more elements held in the cell, or the Series of the values of a
    column label that occurs more than once in the table (the
    [rename] of app.py can produce such labels). *)
Inductive cell : Type :=
  | Scalar (v : pyval)
  | ArrayLike.

Abbreviation WRow := (gmap string cell).

(** The three functions once more, on tables with such cells.  The
    definitions of the previous section are their restriction to
    scalar cells. *)
Module Wide.

(** A table: its rows in order, each with its label. *)
Definition Frame : Type := list (Label * WRow).

Section Engine.

Variable str_to_float : string -> option float.

(** [_safe_get(row, col)].  The test [if pd.isna(val)] stands outside
    the [try]: on a value with several elements [pd.isna] answers
    element by element, and taking the truth value of that answer is
    a [ValueError], which nothing catches. *)
Definition _safe_get (row : WRow) (col : string) : result (option float) :=
  match default (Scalar VNone) (row !! col) with
  | ArrayLike => Raise ValueError
  | Scalar val =>
      if pd_isna val then Ok None
      else match py_float str_to_float val with
           | Ok f => Ok (Some f)
           | Raise _ => Ok None
           end
  end.

Definition hmpi_step (limits : dict pyval) (weight_scheme : string) (row : WRow)
    (acc : float * float) (m : string) : result (float * float) :=
  Ci ← _safe_get row m;
  Si ← dict_get limits m;
  match Ci with
  | None => Ok acc
  | Some Ci =>
      if skip_standard Si then Ok acc
      else
        r ← float_truediv Ci Si;
        let Qi := F64.mul r F64.hundred in
        Wi ← (if String.eqb weight_scheme "1/Si"
              then float_truediv F64.one Si else Ok F64.one);
        Ok (F64.add acc.1 (F64.mul Qi Wi), F64.add acc.2 Wi)
  end.

Definition hmpi_row (limits : dict pyval) (weight_scheme : string) (row : WRow)
  : result float :=
  let metals := dict_keys limits in
  '(Qi_sum, Wi_sum) ← for_each (hmpi_step limits weight_scheme row) metals
                        (F64.zero, F64.zero);
  if F64.ltb F64.zero Wi_sum then float_div Qi_sum Wi_sum else Ok F64.nan.

Definition calculate_hmpi (df : Frame) (limits : dict pyval)
    (weight_scheme : string) : result Series :=
  hmpi_vals ← mapM (fun ir : Label * WRow => hmpi_row limits weight_scheme ir.2) df;
  Ok (mkSeries "HMPI" df.*1 hmpi_vals).

Definition mci_step (limits : dict pyval) (row : WRow)
    (acc : float * bool) (m : string) : result (float * bool) :=
  Ci ← _safe_get row m;
  Si ← dict_get limits m;
  match Ci with
  | None => Ok acc
  | Some Ci =>
      if skip_standard Si then Ok acc
      else
        r ← float_truediv Ci Si;
        Ok (F64.add acc.1 r, true)
  end.

Definition _row_mci (limits : dict pyval) (row : WRow) : result float :=
  let metals := dict_keys limits in
  '(s, any_val) ← for_each (mci_step limits row) metals (F64.zero, false);
  Ok (if (any_val : bool) then s else F64.nan).

Definition calculate_mci (df : Frame) (limits : dict pyval) : result Series :=
  vals ← mapM (fun ir : Label * WRow => _row_mci limits ir.2) df;
  Ok (mkSeries "MCI" df.*1 vals).

Definition pi_cell (m : string) (Si : pyval) (row : WRow) : result float :=
  Ci ← _safe_get row m;
  match Ci with
  | None => Ok F64.nan
  | Some Ci => if skip_standard Si then Ok F64.nan else float_truediv Ci Si
  end.

Definition pi_step (df : Frame) (pi : dict (list float))
    (item : string * pyval) : result (dict (list float)) :=
  let '(m, Si) := item in
  col ← mapM (fun ir : Label * WRow => pi_cell m Si ir.2) df;
  Ok (dict_set pi ("PI_" +:+ m) col).

Definition calculate_pi_table (df : Frame) (limits : dict pyval)
  : result PiFrame :=
  pi ← for_each (pi_step df) limits [];
  Ok (mkPiFrame df.*1 pi).

End Engine.

(** The scalar cells of a row, and a table of scalars as a table of
    cells. *)
Definition narrow (row : WRow) : gmap string pyval :=
  omap (fun c => match c with Scalar v => Some v | ArrayLike => None end) row.

Definition widen (df : DataFrame) : Frame :=
  (fun ir : Label * gmap string pyval => (ir.1, Scalar <$> ir.2)) <$> df_rows df.

(** The cell of [row] under [m] has several elements. *)
Definition array_at (row : WRow) (m : string) : bool :=
  match row !! m with Some ArrayLike => true | _ => false end.

End Wide.

(** ** backend/utils.py *)

(** *** Classifier *)

Definition categorize_hmpi (hmpi_value : float) : string :=
  if pd_isna (VFloat hmpi_value) then "Unknown"
  else if F64.ltb hmpi_value (F64.of_Z 50) then "Safe"
  else if F64.leb (F64.of_Z 50) hmpi_value && F64.ltb hmpi_value (F64.of_Z 100)
  then "Low Pollution"
  else if F64.leb (F64.of_Z 100) hmpi_value && F64.ltb hmpi_value (F64.of_Z 200)
  then "High Pollution"
  else "Very High Pollution".

Definition categorize_mci (mci_value : float) : string :=
  if pd_isna (VFloat mci_value) then "Unknown"
  else if F64.ltb mci_value (F64.of_Z 1) then "Safe"
  else if F64.leb (F64.of_Z 1) mci_value && F64.ltb mci_value (F64.of_Z 2)
  then "Alert"
  else if F64.leb (F64.of_Z 2) mci_value && F64.ltb mci_value (F64.of_Z 6)
  then "Moderately Affected"
  else "Seriously Affected".

(** *** Validation *)

Record Report : Type := mkReport {
  missing_columns : list string;
  non_numeric : list string;
  missing_coords : nat;
  rows : nat;
  median_magnitude : dict float
}.

Section Validation.

(** pandas' parser behind [pd.to_numeric] on a string cell: [None]
    when the text is not a number. *)
Variable str_to_numeric : string -> option pyval.

(** [float(s.abs().median())] on a non-empty numeric column without
    missing values (pandas' median is not part of this repository). *)
Variable abs_median : list pyval -> float.

(** The exception of [s.abs().median()] on a column that is still of
    [object] dtype after the first loop: such a column holds an
    integer that no float can hold, and pandas raises when it takes
    its magnitudes or converts them ([TypeError] or [OverflowError],
    by the cells). *)
Variable median_error : list pyval -> exn.

(** [col in df.columns] and the dtype of [df[col]]. *)
Definition column_dtype (df : DataFrame) (col : string) : option dtype :=
  dict_lookup (df_columns df) col.

(** The cells of [df[col]], in row order. *)
Definition df_column (df : DataFrame) (col : string) : list pyval :=
  (fun ir : Label * Row => default VNone (ir.2 !! col)) <$> df_rows df.

(** [df[col] = values], for a column of dtype [t]. *)
Definition df_set_column (df : DataFrame) (col : string) (t : dtype)
    (values : list pyval) : DataFrame :=
  mkDataFrame (dict_set (df_columns df) col t)
    (zip_with (fun (ir : Label * Row) v => (ir.1, <[col := v]> ir.2))
       (df_rows df) values).

(** One cell under [pd.to_numeric(..., errors="coerce")]: numbers are
    kept, numeric text is parsed, everything else becomes NaN. *)
Definition to_numeric_cell (v : pyval) : pyval :=
  match v with
  | VNone => VFloat F64.nan
  | VStr s =>
      match str_to_numeric s with
      | Some n => n
      | None => VFloat F64.nan
      end
  | VBool _ | VInt _ | VFloat _ => v
  end.

(** An integer cell that fits the [int64] dtype. *)
Definition is_integer_cell (v : pyval) : bool :=
  match v with
  | VInt z => (- 2 ^ 63 <=? z)%Z && (z <? 2 ^ 63)%Z
  | VBool _ => true
  | _ => false
  end.

Definition is_bool_cell (v : pyval) : bool :=
  match v with VBool _ => true | _ => false end.

(** An integer that no float can hold. *)
Definition overflows (v : pyval) : bool :=
  match v with
  | VInt z => F64.is_inf (F64.of_Z z)
  | _ => false
  end.

(** The dtype [pd.to_numeric] gives to the converted cells: [bool]
    for booleans only, [int64] for integers (and booleans) that fit,
    [float64] otherwise.  (Integers from [2^63] to [2^64 - 1] alone
    get [uint64], a numeric dtype as well, which is not told apart
    from [float64] here.) *)
Definition numeric_dtype_of (values : list pyval) : dtype :=
  if forallb is_integer_cell values then
    match values with
    | _ :: _ => if forallb is_bool_cell values then bool_ else int64
    | [] => int64
    end
  else float64.

(** [pd.to_numeric(series, errors="coerce")]: the resulting dtype and
    cells.  Text that is not a number and missing values are coerced
    to NaN; an integer too large for a float is not coerced, the call
    raises [OverflowError] whatever [errors] says.  The storage of
    integers as floats in a [float64] result is not modelled;
    [py_float] reads both alike. *)
Definition pd_to_numeric (cells : list pyval) : result (dtype * list pyval) :=
  if existsb overflows cells then Raise OverflowError
  else
    let values := to_numeric_cell <$> cells in
    Ok (numeric_dtype_of values, values).

(** Body of the first loop of [validate_dataframe]; the state is the
    table (mutated in place by the source) and the two report lists.
    The coercion is wrapped in [try]/[except Exception]: when it
    raises, the column is left as it is; the column name is appended
    to ["non_numeric"] on both paths. *)
Definition validate_step (st : DataFrame * (list string * list string))
    (col : string) : DataFrame * (list string * list string) :=
  let '(df, (missing, nonnum)) := st in
  match column_dtype df col with
  | None => (df, (missing ++ [col], nonnum))
  | Some t =>
      if is_numeric_dtype t then st
      else
        match pd_to_numeric (df_column df col) with
        | Ok (t', values) =>
            (df_set_column df col t' values, (missing, nonnum ++ [col]))
        | Raise _ => (df, (missing, nonnum ++ [col]))
        end
  end.

Definition count_na (cells : list pyval) : nat :=
  length (filter (fun v => pd_isna v = true) cells).

Definition coords_missing (df : DataFrame) : nat :=
  match column_dtype df "latitude", column_dtype df "longitude" with
  | Some _, Some _ =>
      (count_na (df_column df "latitude") + count_na (df_column df "longitude"))%nat
  | _, _ => 0%nat
  end.

(** Body of the second loop (the unit heuristic).  The median of a
    column that the first loop could not coerce raises, and nothing
    catches it. *)
Definition magnitude_step (df : DataFrame) (magnitude : dict float)
    (col : string) : result (dict float) :=
  match column_dtype df col with
  | None => Ok magnitude
  | Some t =>
      let s := filter (fun v => pd_isna v = false) (df_column df col) in
      match s with
      | [] => Ok (dict_set magnitude col F64.nan)
      | _ =>
          if is_numeric_dtype t then Ok (dict_set magnitude col (abs_median s))
          else Raise (median_error s)
      end
  end.

(** [validate_dataframe(df, required_metal_columns)]: the first
    component is the caller's table after the call, the second the
    returned pair [(valid, report)], or the exception raised. *)
Definition validate_dataframe (df : DataFrame) (required_metal_columns : list string)
  : DataFrame * result (bool * Report) :=
  let n := length (df_rows df) in
  let '(df', (missing, nonnum)) :=
    foldl validate_step (df, ([], [])) required_metal_columns in
  let coords := coords_missing df' in
  (df',
   magnitude ← for_each (magnitude_step df') required_metal_columns [];
   let report := mkReport missing nonnum coords n magnitude in
   Ok (bool_decide (length missing = 0%nat), report)).

End Validation.

(** ** Reading the standards and the contributing metals *)

(** The float a standard denotes when it is used as a divisor; [None]
    for values on which the division raises [TypeError] or
    [OverflowError]. *)
Definition std_float (v : pyval) : option float :=
  match v with
  | VFloat s => Some s
  | VInt z =>
      match int_to_float z with
      | Ok s => Some s
      | Raise _ => None
      end
  | VBool b => Some (bool_to_float b)
  | VNone | VStr _ => None
  end.

(** A standard that is a number or [None]. *)
Definition number_or_none (v : pyval) : bool :=
  is_None v || bool_decide (is_Some (std_float v)).

(** Limits without structural problems. *)
Definition limits_ok (limits : dict pyval) : Prop :=
  Forall (fun kv => number_or_none kv.2 = true) limits.

(** A positive real standard: a canonical, finite, strictly positive
    binary64 number. *)
Definition positive_float (s : float) : bool := F64.valid s && F64.finite_pos s.

(** A standard that is a positive real number. *)
Definition positive_standard (v : pyval) : bool :=
  match std_float v with
  | Some s => positive_float s
  | None => false
  end.

Section Contributions.

Variable str_to_float : string -> option float.

(** The pair [(Ci, Si)] of a metal that passes the guard
    [Ci is None or Si is None or Si == 0] in [row]. *)
Definition contribution (limits : dict pyval) (row : Row) (m : string)
  : option (float * float) :=
  Ci ← _safe_get str_to_float row m;
  v ← dict_lookup limits m;
  if skip_standard v then None else s ← std_float v; Some (Ci, s).

(** The contributing metals of [row], in the order of [limits]. *)
Definition contributions (limits : dict pyval) (row : Row) : list (float * float) :=
  omap (contribution limits row) (dict_keys limits).

(** One pass of an inner loop on metal [m]: the accumulator is
    updated by [g] when [m] contributes and left alone otherwise. *)
Definition opt_acc {S : Type} (limits : dict pyval) (row : Row)
    (g : S -> float * float -> S) (acc : S) (m : string) : S :=
  match contribution limits row m with Some c => g acc c | None => acc end.

(** [Wi] as the inner loop computes it from the scheme's name. *)
Definition weight_of (weight_scheme : string) (s : float) : float :=
  if String.eqb weight_scheme "1/Si" then F64.div F64.one s else F64.one.

(** The update of [(Qi_sum, Wi_sum)] for a contributing pair. *)
Definition hmpi_acc (weight_scheme : string) (acc : float * float)
    (c : float * float) : float * float :=
  (F64.add acc.1
     (F64.mul (F64.mul (F64.div c.1 c.2) F64.hundred) (weight_of weight_scheme c.2)),
   F64.add acc.2 (weight_of weight_scheme c.2)).

(** The update of [(s, any_val)] for a contributing pair. *)
Definition mci_acc (acc : float * bool) (c : float * float) : float * bool :=
  (F64.add acc.1 (F64.div c.1 c.2), true).

(** The value [calculate_hmpi] appends for contributing pairs [cs]. *)
Definition hmpi_value (weight_scheme : string) (cs : list (float * float)) : float :=
  let Qi_sum :=
    F64.sum ((fun c => F64.mul (F64.mul (F64.div c.1 c.2) F64.hundred)
                         (weight_of weight_scheme c.2)) <$> cs) in
  let Wi_sum := F64.sum ((fun c => weight_of weight_scheme c.2) <$> cs) in
  if F64.ltb F64.zero Wi_sum then F64.div Qi_sum Wi_sum else F64.nan.

(** The value [_row_mci] returns for contributing pairs [cs]. *)
Definition mci_value (cs : list (float * float)) : float :=
  match cs with
  | [] => F64.nan
  | _ => F64.sum ((fun c => F64.div c.1 c.2) <$> cs)
  end.

(** The cell of column [PI_m] for [row]. *)
Definition pi_value (m : string) (Si : pyval) (row : Row) : float :=
  match _safe_get str_to_float row m, std_float Si with
  | Some Ci, Some s => if skip_standard Si then F64.nan else F64.div Ci s
  | _, _ => F64.nan
  end.

(** The column [PI_m] over the rows of [df]. *)
Definition pi_column (df : DataFrame) (m : string) (Si : pyval) : list float :=
  (fun ir : Label * Row => pi_value m Si ir.2) <$> df_rows df.

(** The assignment [pi[f"PI_{m}"] = col]. *)
Definition pi_set (df : DataFrame) (pi : dict (list float))
    (item : string * pyval) : dict (list float) :=
  dict_set pi ("PI_" +:+ item.1) (pi_column df item.1 item.2).

(** The three index computations run on one table. *)
Definition index_engine (df : DataFrame) (limits : dict pyval)
    (weight_scheme : string) : result Series * result Series * result PiFrame :=
  (calculate_hmpi str_to_float df limits weight_scheme,
   calculate_mci str_to_float df limits,
   calculate_pi_table str_to_float df limits).

End Contributions.

(** ** The indices as the specification words them *)

Module Spec.

Inductive scheme : Type := inverse_standard | equal.

Definition scheme_name (sch : scheme) : string :=
  match sch with inverse_standard => "1/Si" | equal => "equal" end.

(** [Qi = (Ci / Si) * 100] *)
Definition Qi (Ci Si : float) : float := F64.mul (F64.div Ci Si) F64.hundred.

(** [Wi = 1/Si], or [Wi = 1] under equal weighting. *)
Definition Wi (sch : scheme) (Si : float) : float :=
  match sch with
  | inverse_standard => F64.div F64.one Si
  | equal => F64.one
  end.

(** [PI_m = Ci / Si] *)
Definition PI (Ci Si : float) : float := F64.div Ci Si.

(** [HMPI = sum(Qi * Wi) / sum(Wi)] over the pairs [(Ci, Si)]. *)
Definition HMPI (sch : scheme) (cs : list (float * float)) : float :=
  F64.div (F64.sum ((fun c => F64.mul (Qi c.1 c.2) (Wi sch c.2)) <$> cs))
          (F64.sum ((fun c => Wi sch c.2) <$> cs)).

(** [MCI = sum(Ci / Si)] over the pairs [(Ci, Si)]. *)
Definition MCI (cs : list (float * float)) : float :=
  F64.sum ((fun c => PI c.1 c.2) <$> cs).

(** A standard the specification calls valid: present and strictly
    positive. *)
Definition valid_standard (v : pyval) : bool :=
  match std_float v with
  | Some s => F64.ltb F64.zero s
  | None => false
  end.

(** The pairs [(Ci, Si)] of the metals of [row] with a numeric
    concentration and a valid standard, in the order of [limits]. *)
Definition valid_pair (str_to_float : string -> option float)
    (limits : dict pyval) (row : Row) (m : string) : option (float * float) :=
  Ci ← _safe_get str_to_float row m;
  v ← dict_lookup limits m;
  if valid_standard v then s ← std_float v; Some (Ci, s) else None.

Definition valid_pairs (str_to_float : string -> option float)
    (limits : dict pyval) (row : Row) : list (float * float) :=
  omap (valid_pair str_to_float limits row) (dict_keys limits).

(** A standard the specification calls invalid: missing, zero or
    negative. *)
Definition invalid_standard (v : pyval) : bool :=
  match std_float v with
  | Some s => F64.leb s F64.zero
  | None => is_None v
  end.

End Spec.

(** ** Sample data *)

Module Sample.

(** Limits [{"Pb": 0.01, "Cd": 0.003}] *)
Definition limits : dict pyval :=
  [("Pb", VFloat (F64.dec 1 2)); ("Cd", VFloat (F64.dec 3 3))].

(** Row [Pb=0.02, Cd=0.006] *)
Definition row : Row :=
  {[ "Pb" := VFloat (F64.dec 2 2); "Cd" := VFloat (F64.dec 6 3) ]}.

Definition df : DataFrame :=
  mkDataFrame [("Pb", float64); ("Cd", float64)] [(0, row)].

(** Row [Pb=0.02, Cd=0.003] *)
Definition row_mixed : Row :=
  {[ "Pb" := VFloat (F64.dec 2 2); "Cd" := VFloat (F64.dec 3 3) ]}.

Definition df_mixed : DataFrame :=
  mkDataFrame [("Pb", float64); ("Cd", float64)] [(0, row_mixed)].

(** Limits [{"Pb": 0.01}] and a row without a value for [Pb]. *)
Definition limits_pb : dict pyval := [("Pb", VFloat (F64.dec 1 2))].
Definition row_missing : Row := {[ "Pb" := VFloat F64.nan ]}.
Definition df_missing : DataFrame :=
  mkDataFrame [("Pb", float64)] [(0, row_missing)].

(** Limits with a negative standard, [{"Pb": -0.01}] and
    [{"Pb": 0.01, "Cd": -0.003}]. *)
Definition limits_neg : dict pyval := [("Pb", VFloat (SFopp (F64.dec 1 2)))].
Definition limits_mixed_neg : dict pyval :=
  [("Pb", VFloat (F64.dec 1 2)); ("Cd", VFloat (SFopp (F64.dec 3 3)))].

(** Limits whose standards are all invalid, [{"Pb": -0.01, "Cd": 0}]. *)
Definition limits_invalid : dict pyval :=
  [("Pb", VFloat (SFopp (F64.dec 1 2))); ("Cd", VInt 0)].

(** Limits with a zero standard, [{"Pb": 0.01, "Cd": 0}]. *)
Definition limits_zero : dict pyval :=
  [("Pb", VFloat (F64.dec 1 2)); ("Cd", VInt 0)].

(** A table whose [Pb] column holds text. *)
Definition df_text : DataFrame :=
  mkDataFrame [("Pb", object_); ("Cd", float64)]
    [(0, {[ "Pb" := VStr "0.02"; "Cd" := VFloat (F64.dec 6 3) ]});
     (1, {[ "Pb" := VStr "n/a"; "Cd" := VFloat (F64.dec 3 3) ]})].

(** A reader of decimal text for [df_text]: it reads ["0.02"] and
    rejects every other string. *)
Definition read_text (s : string) : option float :=
  if String.eqb s "0.02" then Some (F64.dec 2 2) else None.

Definition read_numeric (s : string) : option pyval := VFloat <$> read_text s.

Definition no_median (cells : list pyval) : float := F64.nan.

End Sample.

(** ** More of the application *)

(** *** Signs of binary64 numbers *)

(** Numbers that are not below zero: NaN, the zeros, the positive
    finite numbers and [+inf]; exactly the [v] with [v < 0] false. *)
Definition not_negative (f : float) : Prop :=
  match f with
  | S754_infinity true | S754_finite true _ _ => False
  | _ => True
  end.

(** *** app.py: the dashboard counts and the map palette *)

(** [palette(val)], the colour function of the map page. *)
Definition palette (val : float) : string :=
  if pd_isna (VFloat val) then "gray"
  else if F64.ltb val (F64.of_Z 50) then "green"
  else if F64.ltb val (F64.of_Z 100) then "orange"
  else if F64.ltb val (F64.of_Z 200) then "red"
  else "darkred".

(** [len(results_df[results_df['HMPI'] >= 100])], on the values of the
    [HMPI] column. *)
Definition polluted_count (hmpi : list float) : nat :=
  length (filter (fun v => F64.leb (F64.of_Z 100) v = true) hmpi).

(** [len(results_df) - polluted_count] *)
Definition safe_count (hmpi : list float) : nat :=
  (length hmpi - polluted_count hmpi)%nat.

(** The labels of [categorize_hmpi] and [categorize_mci] in the order
    of the thresholds they test; ["Unknown"] and any other text get 0. *)
Definition hmpi_level (label : string) : nat :=
  if String.eqb label "Low Pollution" then 1
  else if String.eqb label "High Pollution" then 2
  else if String.eqb label "Very High Pollution" then 3
  else 0.

Definition mci_level (label : string) : nat :=
  if String.eqb label "Alert" then 1
  else if String.eqb label "Moderately Affected" then 2
  else if String.eqb label "Seriously Affected" then 3
  else 0.

(** *** What the index functions read *)

(** Two rows that [_safe_get] cannot tell apart on the metals of
    [limits]. *)
Definition same_reads (str_to_float : string -> option float)
    (limits : dict pyval) (row row' : Row) : Prop :=
  forall m, m ∈ dict_keys limits ->
            _safe_get str_to_float row m = _safe_get str_to_float row' m.

(** *** More sample data *)

Module Sample2.

(** A reader of text that also accepts ["nan"], as [float] does. *)
Definition read_nan (s : string) : option float :=
  if String.eqb s "nan" then Some F64.nan else Sample.read_text s.

(** Row [Pb="nan", Cd=0.006] (the first cell is text). *)
Definition row_nan : Row :=
  {[ "Pb" := VStr "nan"; "Cd" := VFloat (F64.dec 6 3) ]}.

(** Limits with a text standard, [{"Pb": 0.01, "Cd": "0.003"}]. *)
Definition limits_text : dict pyval :=
  [("Pb", VFloat (F64.dec 1 2)); ("Cd", VStr "0.003")].

(** Limits with negative standards only, [{"Pb": -0.01, "Cd": -0.003}]. *)
Definition limits_all_neg : dict pyval :=
  [("Pb", VFloat (SFopp (F64.dec 1 2))); ("Cd", VFloat (SFopp (F64.dec 3 3)))].

(** Row [Pb=0.02, Cd=0.006] taken at longitude -75. *)
Definition row_located : Row :=
  <["longitude" := VFloat (SFopp (F64.of_Z 75))]> Sample.row.

Definition df_located : DataFrame :=
  mkDataFrame [("Pb", float64); ("Cd", float64); ("longitude", float64)]
    [(0, row_located)].

(** A table whose [Pb] column holds an integer that no float can
    hold, [10^400], and a text. *)
Definition huge : Z := 10 ^ 400.

Definition df_overflow : DataFrame :=
  mkDataFrame [("Pb", object_); ("Cd", float64)]
    [(0, {[ "Pb" := VInt huge; "Cd" := VFloat (F64.dec 6 3) ]});
     (1, {[ "Pb" := VStr "n/a"; "Cd" := VFloat (F64.dec 3 3) ]})].

Definition median_overflow (cells : list pyval) : exn := OverflowError.

(** The table [Sample.df] with a sample identifier column. *)
Definition df_with_id : DataFrame :=
  mkDataFrame [("SampleID", object_); ("Pb", float64); ("Cd", float64)]
    [(0, <["SampleID" := VStr "S1"]> Sample.row)].

End Sample2.

(** *** Validation as a whole *)

(** The builtin [float] and pandas' numeric parser agree on the text
    [s]: both reject it, or both read the same number, which is not
    NaN. *)
Definition parsers_agree_on (str_to_float : string -> option float)
    (str_to_numeric : string -> option pyval) (s : string) : Prop :=
  match str_to_float s with
  | Some f =>
      exists v, str_to_numeric s = Some v /\ pd_isna v = false
                /\ py_float str_to_float v = Ok f
  | None =>
      forall v, str_to_numeric s = Some v -> pd_isna v = true
  end.

(** [pd.to_numeric] returns on the column [col] of [df]: no cell is
    an integer that no float can hold. *)
Definition coercible (df : DataFrame) (col : string) : bool :=
  negb (existsb overflows (df_column df col)).

(** The column [col] is in the table with a dtype that is not
    numeric. *)
Definition is_object (df : DataFrame) (col : string) : bool :=
  match column_dtype df col with
  | Some t => negb (is_numeric_dtype t)
  | None => false
  end.

(** Every required column that needs a coercion can be coerced. *)
Definition all_coercible (df : DataFrame)
    (required_metal_columns : list string) : Prop :=
  forall c, c ∈ required_metal_columns -> is_object df c = true ->
            coercible df c = true.

Section LoopState.

Variable str_to_numeric : string -> option pyval.

(** The state of the first loop of [validate_dataframe] after the
    columns [l] have been visited, starting from the table [df0]:
    what has been kept, what has been recorded, and what each column
    holds. *)
Definition loop_inv (df0 : DataFrame) (l : list string)
    (st : DataFrame * (list string * list string)) : Prop :=
  df_index st.1 = df_index df0
  /\ dict_keys (df_columns st.1) = dict_keys (df_columns df0)
  /\ st.2.1 = filter (fun c => c ∉ dict_keys (df_columns df0)) l
  /\ (forall c, c ∈ st.2.2 <-> c ∈ l /\ is_object df0 c = true)
  /\ (forall c, c ∈ st.2.2 -> coercible df0 c = true ->
                df_column st.1 c = to_numeric_cell str_to_numeric <$> df_column df0 c
                /\ exists t, column_dtype st.1 c = Some t
                             /\ is_numeric_dtype t = true)
  /\ (forall c, c ∉ st.2.2 \/ coercible df0 c = false ->
                df_column st.1 c = df_column df0 c
                /\ column_dtype st.1 c = column_dtype df0 c)
  /\ (all_coercible df0 l -> NoDup st.2.2).

End LoopState.

(** *** Failures *)

(** The call returned, no exception was raised. *)
Definition succeeds {A} (r : result A) : Prop :=
  match r with Ok _ => True | Raise _ => False end.

(** A cell on which the division [Ci / Si] raises: the row holds a
    value for [m] and the standard [Si] is neither a number nor
    [None]. *)
Definition fails_on (str_to_float : string -> option float)
    (Si : pyval) (row : Row) (m : string) : bool :=
  match _safe_get str_to_float row m with
  | Some _ => negb (number_or_none Si)
  | None => false
  end.

(** The same for the metal [m] of [limits], with the standard the
    inner loops look up. *)
Definition row_fails (str_to_float : string -> option float)
    (limits : dict pyval) (row : Row) (m : string) : bool :=
  match dict_lookup limits m with
  | Some v => fails_on str_to_float v row m
  | None => false
  end.

(** The exceptions of a division by a standard. *)
Definition type_or_overflow (e : exn) : Prop :=
  e = TypeError \/ e = OverflowError.

(** A number that is not above zero: a zero, a negative number or NaN
    ([0 < f] is [False]). *)
Definition not_positive (f : float) : Prop :=
  match f with
  | S754_infinity false | S754_finite false _ _ => False
  | _ => True
  end.

(** *** app.py: the "Compute Indices" step *)

(** [df[name] = series] for a series of floats on the index of [df]. *)
Definition set_series (df : DataFrame) (name : string) (values : list float)
  : DataFrame :=
  df_set_column df name float64 (VFloat <$> values).

(** [df[name] = series] for a series of labels on the index of [df]. *)
Definition set_labels (df : DataFrame) (name : string) (labels : list string)
  : DataFrame :=
  df_set_column df name object_ (VStr <$> labels).

(** The body of the "Compute Indices" button up to the computation of
    [pi_df]; the final [pd.concat] of the two frames is not modelled,
    the pair [(results_df, pi_df)] is returned instead.  The series
    [results_df["HMPI"]] and [results_df["MCI"]] that [apply] reads
    hold the values just assigned. *)
Definition compute_indices (str_to_float : string -> option float)
    (mapped_df : DataFrame) (limits : dict pyval)
  : result (DataFrame * PiFrame) :=
  let results_df := mapped_df in
  hmpi ← calculate_hmpi str_to_float results_df limits "1/Si";
  let results_df := set_series results_df "HMPI" (s_values hmpi) in
  let results_df :=
    set_labels results_df "HMPI_Category" (categorize_hmpi <$> s_values hmpi) in
  mci ← calculate_mci str_to_float results_df limits;
  let results_df := set_series results_df "MCI" (s_values mci) in
  let results_df :=
    set_labels results_df "MCI_Category" (categorize_mci <$> s_values mci) in
  pi_df ← calculate_pi_table str_to_float results_df limits;
  Ok (results_df, pi_df).

(** The columns the step writes. *)
Definition result_columns : list string :=
  ["HMPI"; "HMPI_Category"; "MCI"; "MCI_Category"].

(** The entry of ["median_magnitude"] for a numeric column of [df]:
    NaN when the column has no value, and otherwise what the median
    call of pandas ([abs_median], a parameter) gives on its values. *)
Definition magnitude_of (abs_median : list pyval -> float)
    (df : DataFrame) (col : string) : float :=
  match filter (fun v => pd_isna v = false) (df_column df col) with
  | [] => F64.nan
  | s => abs_median s
  end.

(** The assignment of the second loop for a column of [df]. *)
Definition magnitude_set (abs_median : list pyval -> float)
    (df : DataFrame) (magnitude : dict float) (col : string) : dict float :=
  match column_dtype df col with
  | None => magnitude
  | Some _ => dict_set magnitude col (magnitude_of abs_median df col)
  end.

(** A column on which the second loop raises: its dtype is not
    numeric and it holds a value. *)
Definition median_fails (df : DataFrame) (col : string) : bool :=
  is_object df col
  && match filter (fun v => pd_isna v = false) (df_column df col) with
     | [] => false
     | _ => true
     end.

(** The exceptions that can leave the index functions. *)
Definition engine_error (e : exn) : Prop :=
  e = ValueError \/ e = TypeError \/ e = OverflowError.

(** A cell of a table of cells on which an inner loop raises: it has
    several elements, or it holds a value for a metal whose standard
    is neither a number nor [None]. *)
Definition wide_fails_on (str_to_float : string -> option float)
    (Si : pyval) (row : WRow) (m : string) : bool :=
  Wide.array_at row m || fails_on str_to_float Si (Wide.narrow row) m.

Definition wide_row_fails (str_to_float : string -> option float)
    (limits : dict pyval) (row : WRow) (m : string) : bool :=
  Wide.array_at row m || row_fails str_to_float limits (Wide.narrow row) m.

(** A table with a column label that occurs twice, or with a list in
    a cell: [Pb] has several elements, [Cd=0.006]. *)
Definition wide_sample : Wide.Frame :=
  [(0, {[ "Pb" := ArrayLike; "Cd" := Scalar (VFloat (F64.dec 6 3)) ]})].

(** ** Invocations *)

(** The objects an invocation of the index functions receives by
    reference and shares with its caller: the table and the limits. *)
Record Store : Type := mkStore {
  st_table : DataFrame;
  st_limits : dict pyval
}.

Section Invocations.

Variable str_to_float : string -> option float.

(** One invocation: what the call returns or raises, and the objects
    of the caller after the call.  The three functions assign to local
    names only ([metals], [hmpi_vals], [s], [any_val], [pi], [col]);
    neither argument is written, and no name outside the function is
    read. *)
Definition invoke_hmpi (weight_scheme : string) (s : Store)
  : result Series * Store :=
  (calculate_hmpi str_to_float (st_table s) (st_limits s) weight_scheme, s).

Definition invoke_mci (s : Store) : result Series * Store :=
  (calculate_mci str_to_float (st_table s) (st_limits s), s).

Definition invoke_pi_table (s : Store) : result PiFrame * Store :=
  (calculate_pi_table str_to_float (st_table s) (st_limits s), s).

End Invocations.

(** An invocation of [validate_dataframe]: this one assigns to columns
    of its argument, so the table of the caller after the call is the
    coerced one. *)
Definition invoke_validate (str_to_numeric : string -> option pyval)
    (abs_median : list pyval -> float) (median_error : list pyval -> exn)
    (required_metal_columns : list string) (s : Store)
  : result (bool * Report) * Store :=
  let out := validate_dataframe str_to_numeric abs_median median_error
               (st_table s) required_metal_columns in
  (out.2, mkStore out.1 (st_limits s)).

(** The table of [s] with its rows in another order. *)
Definition reorder (s : Store) (rows' : list (Label * Row)) : Store :=
  mkStore (mkDataFrame (df_columns (st_table s)) rows') (st_limits s).

(** Two rows, the second without a value for [Cd]. *)
Definition store_two_rows : Store :=
  mkStore
    (mkDataFrame [("Pb", float64); ("Cd", float64)]
       [(0, Sample.row); (1, {[ "Pb" := VFloat (F64.dec 2 2) ]})])
    Sample.limits.

(** The same three limits in two insertion orders, and one row whose
    first concentration is far larger than the other two. *)
Definition unit_limits : dict pyval :=
  [("As", VInt 1); ("Cd", VInt 1); ("Pb", VInt 1)].

Definition unit_limits_reordered : dict pyval :=
  [("Cd", VInt 1); ("Pb", VInt 1); ("As", VInt 1)].

Definition table_wide_range : DataFrame :=
  mkDataFrame [("As", int64); ("Cd", float64); ("Pb", float64)]
    [(0, {[ "As" := VInt (2 ^ 53);
            "Cd" := VFloat (F64.dec 75 2);
            "Pb" := VFloat (F64.dec 75 2) ]})].

(** * Properties *)

(** ** Rounding in binary64: results that cannot be zero *)

Module F64Facts.

Lemma digits2_bounds (m : positive) :
  2 ^ (Z.pos (digits2_pos m) - 1) <= Z.pos m < 2 ^ Z.pos (digits2_pos m).
Proof.
  induction m as [m IH|m IH|]; simpl digits2_pos.
  - rewrite Pos2Z.inj_succ.
    replace (Z.succ (Z.pos (digits2_pos m)) - 1) with (Z.succ (Z.pos (digits2_pos m) - 1)) by lia.
    rewrite !Z.pow_succ_r by lia. lia.
  - rewrite Pos2Z.inj_succ.
    replace (Z.succ (Z.pos (digits2_pos m)) - 1) with (Z.succ (Z.pos (digits2_pos m) - 1)) by lia.
    rewrite !Z.pow_succ_r by lia. lia.
  - simpl. lia.
Qed.

Lemma shr_1_m (mrs : shr_record) :
  0 <= shr_m mrs -> shr_m (shr_1 mrs) = shr_m mrs / 2.
Proof.
  destruct mrs as [m r s]; simpl. intros Hm.
  destruct m as [|p|p]; [reflexivity| |lia].
  destruct p as [p|p|]; simpl shr_m.
  - rewrite Pos2Z.inj_xI. apply Z.div_unique with 1; lia.
  - rewrite Pos2Z.inj_xO. apply Z.div_unique with 0; lia.
  - reflexivity.
Qed.

Lemma shr_iter_m (p : positive) : forall mrs : shr_record,
  0 <= shr_m mrs ->
  shr_m (SpecFloat.iter_pos shr_1 p mrs) = shr_m mrs / 2 ^ Z.pos p.
Proof.
  induction p as [p IH|p IH|]; intros mrs Hm; simpl SpecFloat.iter_pos.
  - assert (H1 : 0 <= shr_m (shr_1 mrs)).
    { rewrite shr_1_m by assumption. apply Z.div_pos; lia. }
    assert (H2 : 0 <= shr_m (SpecFloat.iter_pos shr_1 p (shr_1 mrs))).
    { rewrite IH by assumption. apply Z.div_pos; [assumption|]. apply Z.pow_pos_nonneg; lia. }
    rewrite IH, IH, shr_1_m by assumption.
    rewrite !Z.div_div by (try apply Z.pow_pos_nonneg; lia).
    f_equal.
    replace (Z.pos p~1) with (1 + Z.pos p + Z.pos p) by lia.
    rewrite !Z.pow_add_r by lia. rewrite Z.pow_1_r. lia.
  - assert (H2 : 0 <= shr_m (SpecFloat.iter_pos shr_1 p mrs)).
    { rewrite IH by assumption. apply Z.div_pos; [assumption|]. apply Z.pow_pos_nonneg; lia. }
    rewrite IH, IH by assumption.
    rewrite !Z.div_div by (try apply Z.pow_pos_nonneg; lia).
    f_equal.
    replace (Z.pos p~0) with (Z.pos p + Z.pos p) by lia.
    rewrite !Z.pow_add_r by lia. lia.
  - rewrite shr_1_m by assumption. reflexivity.
Qed.

Lemma shr_record_of_loc_m (m : Z) (l : location) :
  shr_m (shr_record_of_loc m l) = m.
Proof. destruct l as [|[]]; reflexivity. Qed.

(** Shifting a positive mantissa to its canonical exponent keeps it
    positive when the exponent is not below [emin]. *)
Lemma shr_fexp_pos (m : positive) (e : Z) (l : location) :
  F64.emin <= e ->
  0 < shr_m (shr_fexp F64.prec F64.emax (Z.pos m) e l).1
  /\ F64.emin <= (shr_fexp F64.prec F64.emax (Z.pos m) e l).2.
Proof.
  intros He. unfold shr_fexp, shr, fexp, SpecFloat.emin, F64.prec, F64.emax.
  simpl Zdigits2.
  pose proof (digits2_bounds m) as [Hlo Hhi].
  set (d := Z.pos (digits2_pos m)) in *.
  destruct (Z.max (d + e - 53) (3 - 1024 - 53) - e) as [|p|p] eqn:Hn; simpl;
    rewrite ?shr_record_of_loc_m; try (split; [lia | unfold F64.emin in *; lia]).
  rewrite shr_iter_m by (rewrite shr_record_of_loc_m; lia).
  rewrite shr_record_of_loc_m. unfold F64.emin in *.
  split; [|lia].
  assert (Hp : Z.pos p <= d - 1) by lia.
  assert (2 ^ Z.pos p <= 2 ^ (d - 1)) by (apply Z.pow_le_mono_r; lia).
  assert (0 < 2 ^ Z.pos p) by (apply Z.pow_pos_nonneg; lia).
  apply Z.div_str_pos. lia.
Qed.

Lemma round_nearest_even_pos (m : Z) (l : location) :
  0 < m -> 0 < round_nearest_even m l.
Proof.
  intros Hm. destruct l as [|[]]; simpl; try lia.
  destruct (Z.even m); lia.
Qed.

(** Rounding a positive mantissa never yields zero or NaN. *)
Lemma binary_round_aux_signed (sx : bool) (m : positive) (e : Z) (l : location) :
  F64.emin <= e ->
  F64.signed_ok sx (binary_round_aux F64.prec F64.emax sx (Z.pos m) e l).
Proof.
  intros He. unfold binary_round_aux.
  pose proof (shr_fexp_pos m e l He) as [H1 H2].
  destruct (shr_fexp F64.prec F64.emax (Z.pos m) e l) as [mrs' e'].
  simpl in H1, H2.
  pose proof (round_nearest_even_pos (shr_m mrs') (loc_of_shr_record mrs') H1) as H3.
  destruct (round_nearest_even (shr_m mrs') (loc_of_shr_record mrs')) as [|m2|m2]; try lia.
  pose proof (shr_fexp_pos m2 e' loc_Exact H2) as [H4 H5].
  destruct (shr_fexp F64.prec F64.emax (Z.pos m2) e' loc_Exact) as [mrs'' e''].
  simpl in H4, H5.
  destruct (shr_m mrs'') as [|m3|m3]; try lia.
  destruct (Z.leb e'' (F64.emax - F64.prec)); simpl; auto.
Qed.

Lemma binary_round_signed (sx : bool) (m : positive) (e : Z) :
  F64.emin <= e ->
  F64.signed_ok sx (binary_round F64.prec F64.emax sx m e).
Proof.
  intros He. unfold binary_round.
  destruct (shl_align m e (fexp F64.prec F64.emax (Z.pos (digits2_pos m) + e)))
    as [mz ez] eqn:Hsh.
  apply binary_round_aux_signed.
  unfold shl_align in Hsh.
  assert (Hf : F64.emin <= fexp F64.prec F64.emax (Z.pos (digits2_pos m) + e)).
  { unfold fexp, SpecFloat.emin, F64.prec, F64.emax, F64.emin. lia. }
  destruct (fexp F64.prec F64.emax (Z.pos (digits2_pos m) + e) - e);
    inversion Hsh; subst; assumption.
Qed.

Lemma of_Z_signed (z : Z) :
  z <> 0 -> F64.signed_ok (Z.ltb z 0) (F64.of_Z z).
Proof.
  intros Hz. unfold F64.of_Z, binary_normalize.
  destruct z as [|p|p]; [congruence| |];
    apply binary_round_signed; unfold F64.emin; lia.
Qed.

Lemma nonzero_of_signed (sx : bool) (f : float) :
  F64.signed_ok sx f -> F64.eqb f F64.zero = false.
Proof. destruct f as [?|[]| |[] ? ?]; simpl; intros H; try done. Qed.

Lemma pos_ok_gt_zero (f : float) :
  F64.signed_ok false f -> F64.ltb F64.zero f = true.
Proof. destruct f as [?|[]| |[] ? ?]; simpl; intros H; try done; by destruct H. Qed.

Lemma one_pos_ok : F64.signed_ok false F64.one.
Proof. vm_compute. split; [reflexivity | discriminate]. Qed.

(** Adding two positive numbers gives a positive number. *)
Lemma add_pos_ok (x y : float) :
  F64.signed_ok false x -> F64.signed_ok false y -> F64.signed_ok false (F64.add x y).
Proof.
  destruct x as [?|[]| |[] mx ex], y as [?|[]| |[] my ey]; simpl;
    try done; try (intros [? ?] [? ?]; done); try (intros ? [? ?]; done).
  intros [_ Hx] [_ Hy].
  change (Z.pos ?a + Z.pos ?b) with (Z.pos (a + b)).
  apply binary_round_signed. lia.
Qed.

Lemma add_zero_l (y : float) :
  F64.signed_ok false y -> F64.add F64.zero y = y.
Proof. destruct y as [?|[]| |[] ? ?]; simpl; try done. Qed.

Lemma valid_finite_bounds (s : bool) (m : positive) (e : Z) :
  F64.valid (S754_finite s m e) = true ->
  Z.pos (digits2_pos m) <= 53 /\ F64.emin <= e <= 971.
Proof.
  unfold F64.valid, valid_binary, bounded, canonical_mantissa, fexp,
    SpecFloat.emin, F64.prec, F64.emax, F64.emin.
  intros H. apply andb_true_iff in H as [H1 H2].
  apply Z.eqb_eq in H1. apply Z.leb_le in H2. lia.
Qed.

(** [1.0 / s] is strictly positive for every positive binary64 [s]:
    the quotient neither underflows to zero nor is NaN. *)
Lemma div_one_pos_ok (s : float) :
  positive_float s = true -> F64.signed_ok false (F64.div F64.one s).
Proof.
  unfold positive_float. intros H. apply andb_true_iff in H as [Hv Hp].
  destruct s as [?|?| |[] m e]; try discriminate.
  apply valid_finite_bounds in Hv as [Hd [He1 He2]].
  change F64.one with (S754_finite false 4503599627370496 (-52)).
  unfold F64.div, SFdiv, SFdiv_core_binary.
  change (Zdigits2 (Z.pos 4503599627370496)) with 53.
  simpl Zdigits2.
  pose proof (digits2_bounds m) as [Hlo Hhi].
  set (d := Z.pos (digits2_pos m)) in *.
  assert (Hd1 : 1 <= d) by (unfold d; lia).
  set (e' := Z.min (fexp F64.prec F64.emax (53 + -52 - (d + e))) (-52 - e)).
  assert (He' : F64.emin <= e' /\ d <= - e - e' /\ e' < -52 - e).
  { unfold e', fexp, SpecFloat.emin, F64.prec, F64.emax, F64.emin in *. lia. }
  destruct He' as (Hemin & Hs & Hs0).
  destruct (-52 - e - e') as [|p|p] eqn:Hp'; [lia| |lia].
  rewrite Z.shiftl_mul_pow2 by lia.
  pose proof (Z_div_mod (4503599627370496 * 2 ^ Z.pos p) (Z.pos m) eq_refl) as Hdm.
  destruct (Z.div_eucl (4503599627370496 * 2 ^ Z.pos p) (Z.pos m)) as [q r].
  destruct Hdm as [Heq Hr].
  assert (Hq : 0 < q).
  { assert (Hpow : 2 ^ d <= 4503599627370496 * 2 ^ Z.pos p).
    { change 4503599627370496 with (2 ^ 52). rewrite <- Z.pow_add_r by lia.
      apply Z.pow_le_mono_r; lia. }
    nia. }
  destruct q as [|q|q]; try lia.
  apply binary_round_aux_signed. assumption.
Qed.

End F64Facts.

(** ** Dictionaries *)

Section DictFacts.
Context {V : Type}.
Implicit Types (d : dict V) (k : string) (v : V).

Lemma dict_lookup_elem d k v : dict_lookup d k = Some v -> (k, v) ∈ d.
Proof.
  induction d as [|[k' v'] d IH]; simpl; [done|].
  destruct (String.eqb_spec k' k) as [->|Hne].
  - intros [= ->]. left.
  - intros H. right. auto.
Qed.

Lemma dict_lookup_keys d k : k ∈ dict_keys d -> is_Some (dict_lookup d k).
Proof.
  unfold dict_keys. induction d as [|[k' v'] d IH]; simpl.
  - intros H. by apply elem_of_nil in H.
  - intros H. destruct (String.eqb_spec k' k) as [->|Hne]; [by eexists|].
    apply elem_of_cons in H as [->|H]; [done|auto].
Qed.

Lemma dict_lookup_Forall (P : string * V -> Prop) d k v :
  Forall P d -> dict_lookup d k = Some v -> P (k, v).
Proof.
  intros HP Hl. apply dict_lookup_elem in Hl.
  rewrite Forall_forall in HP. auto.
Qed.

Lemma dict_lookup_del_ne d k k' :
  k' <> k -> dict_lookup (dict_del d k) k' = dict_lookup d k'.
Proof.
  intros Hne. unfold dict_del.
  induction d as [|[k0 v0] d IH]; [done|].
  rewrite filter_cons. cbn [fst].
  destruct (decide (k0 <> k)) as [H0|H0]; cbn [dict_lookup].
  - by rewrite IH.
  - apply dec_stable in H0. subst k0. rewrite IH.
    destruct (String.eqb_spec k k'); [congruence|done].
Qed.

Lemma dict_keys_del d k :
  dict_keys (dict_del d k) = filter (fun k' => k' <> k) (dict_keys d).
Proof.
  unfold dict_del, dict_keys.
  induction d as [|[k0 v0] d IH]; [done|].
  rewrite fmap_cons, !filter_cons. cbn [fst].
  destruct (decide (k0 <> k)); rewrite ?fmap_cons, IH; done.
Qed.

Lemma dict_lookup_set d k v k' :
  dict_lookup (dict_set d k v) k' =
  if String.eqb k k' then Some v else dict_lookup d k'.
Proof.
  induction d as [|[k0 v0] d IH]; simpl.
  - done.
  - destruct (String.eqb_spec k0 k) as [->|Hne]; simpl.
    + by destruct (String.eqb k k').
    + rewrite IH. destruct (String.eqb_spec k0 k') as [->|Hne'].
      * destruct (String.eqb_spec k k'); [congruence|done].
      * done.
Qed.

End DictFacts.

(** ** Loops in the [result] monad *)

Lemma mapM_ok {A B} (f : A -> result B) (g : A -> B) (l : list A) :
  Forall (fun x => f x = Ok (g x)) l -> mapM f l = Ok (g <$> l).
Proof.
  induction 1 as [|x l Hx _ IH]; simpl; [done|].
  rewrite Hx. simpl. rewrite IH. done.
Qed.

Lemma for_each_ok {A S} (step : S -> A -> result S) (g : S -> A -> S)
    (l : list A) (acc : S) :
  Forall (fun x => forall a, step a x = Ok (g a x)) l ->
  for_each step l acc = Ok (foldl g acc l).
Proof.
  intros H. revert acc. induction H as [|x l Hx _ IH]; intros acc; simpl; [done|].
  rewrite Hx. simpl. apply IH.
Qed.

(** ** Standards as divisors *)

Lemma std_float_nonzero (v : pyval) (s : float) :
  skip_standard v = false -> std_float v = Some s -> F64.eqb s F64.zero = false.
Proof.
  unfold skip_standard. intros Hskip Hs.
  apply orb_false_iff in Hskip as [_ Hz].
  destruct v as [|b|z|f|t]; simpl in *; try discriminate.
  - destruct b; [|discriminate]. by injection Hs as <-.
  - unfold int_to_float in Hs.
    destruct (F64.is_inf (F64.of_Z z)); [discriminate|]. injection Hs as <-.
    apply Z.eqb_neq in Hz.
    eapply F64Facts.nonzero_of_signed, F64Facts.of_Z_signed, Hz.
  - by injection Hs as <-.
Qed.

Lemma float_truediv_std (x : float) (v : pyval) (s : float) :
  skip_standard v = false -> std_float v = Some s ->
  float_truediv x v = Ok (F64.div x s).
Proof.
  intros Hskip Hs. pose proof (std_float_nonzero v s Hskip Hs) as Hnz.
  destruct v as [|b|z|f|t]; simpl in *; try discriminate.
  - injection Hs as ->. unfold float_div. by rewrite Hnz.
  - destruct (int_to_float z) as [y|]; [|discriminate]. injection Hs as ->.
    simpl. unfold float_div. by rewrite Hnz.
  - injection Hs as ->. unfold float_div. by rewrite Hnz.
Qed.

Lemma number_or_none_std (v : pyval) :
  number_or_none v = true -> skip_standard v = false -> is_Some (std_float v).
Proof.
  unfold number_or_none, skip_standard. intros H Hs.
  apply orb_false_iff in Hs as [Hn _]. rewrite Hn in H. simpl in H.
  by apply bool_decide_eq_true in H.
Qed.

Lemma positive_standard_not_skipped (v : pyval) :
  positive_standard v = true -> skip_standard v = false.
Proof.
  unfold positive_standard, positive_float, skip_standard.
  destruct v as [|b|z|f|t]; simpl; try discriminate.
  - destruct b; vm_compute; [done|discriminate].
  - unfold int_to_float. destruct (Z.eqb_spec z 0) as [->|]; [|done].
    vm_compute. discriminate.
  - destruct f as [?|?| |[] ? ?]; simpl; rewrite ?andb_false_r; done.
Qed.

Lemma positive_standard_number (v : pyval) :
  positive_standard v = true -> number_or_none v = true.
Proof.
  unfold positive_standard, number_or_none. intros H.
  destruct (std_float v) eqn:E; [|discriminate].
  apply orb_true_iff. right. apply bool_decide_eq_true. by eexists.
Qed.

(** ** The inner loops *)

Section RowFacts.

Variable str_to_float : string -> option float.
Variable limits : dict pyval.
Variable row : Row.

Abbreviation contribution' := (contribution str_to_float limits row).
Abbreviation opt_acc' := (opt_acc str_to_float limits row).

Lemma foldl_opt_acc {S : Type} (g : S -> float * float -> S) (l : list string) :
  forall acc, foldl (opt_acc' g) acc l = foldl g acc (omap contribution' l).
Proof.
  induction l as [|m l IH]; intros acc; simpl; [done|].
  unfold opt_acc at 2. destruct (contribution' m); simpl; apply IH.
Qed.

Lemma hmpi_step_ok (ws : string) (acc : float * float) (m : string) (v : pyval) :
  dict_lookup limits m = Some v -> number_or_none v = true ->
  hmpi_step str_to_float limits ws row acc m = Ok (opt_acc' (hmpi_acc ws) acc m).
Proof.
  intros Hl Hn. unfold hmpi_step, opt_acc, contribution, dict_get.
  rewrite Hl. simpl.
  destruct (_safe_get str_to_float row m) as [Ci|]; simpl; [|done].
  destruct (skip_standard v) eqn:Hskip; [done|].
  destruct (number_or_none_std v Hn Hskip) as [s Hs]. rewrite Hs. simpl.
  rewrite (float_truediv_std Ci v s Hskip Hs). simpl.
  unfold hmpi_acc, weight_of. simpl.
  destruct (String.eqb ws "1/Si"); [|done].
  by rewrite (float_truediv_std F64.one v s Hskip Hs).
Qed.

Lemma mci_step_ok (acc : float * bool) (m : string) (v : pyval) :
  dict_lookup limits m = Some v -> number_or_none v = true ->
  mci_step str_to_float limits row acc m = Ok (opt_acc' mci_acc acc m).
Proof.
  intros Hl Hn. unfold mci_step, opt_acc, contribution, dict_get.
  rewrite Hl. simpl.
  destruct (_safe_get str_to_float row m) as [Ci|]; simpl; [|done].
  destruct (skip_standard v) eqn:Hskip; [done|].
  destruct (number_or_none_std v Hn Hskip) as [s Hs]. rewrite Hs. simpl.
  by rewrite (float_truediv_std Ci v s Hskip Hs).
Qed.

Lemma keys_lookup_ok :
  limits_ok limits ->
  Forall (fun m => exists v, dict_lookup limits m = Some v /\ number_or_none v = true)
    (dict_keys limits).
Proof.
  intros Hok. apply Forall_forall. intros m Hm.
  destruct (dict_lookup_keys limits m Hm) as [v Hv]. exists v. split; [done|].
  apply (dict_lookup_Forall (fun kv => number_or_none kv.2 = true) limits m v Hok Hv).
Qed.

Lemma foldl_hmpi_acc (ws : string) (cs : list (float * float)) :
  forall acc,
  foldl (hmpi_acc ws) acc cs =
  (foldl F64.add acc.1
     ((fun c => F64.mul (F64.mul (F64.div c.1 c.2) F64.hundred) (weight_of ws c.2)) <$> cs),
   foldl F64.add acc.2 ((fun c => weight_of ws c.2) <$> cs)).
Proof.
  induction cs as [|c cs IH]; intros [q w]; simpl; [done|]. by rewrite IH.
Qed.

Lemma foldl_mci_acc (cs : list (float * float)) :
  forall acc,
  foldl mci_acc acc cs =
  (foldl F64.add acc.1 ((fun c => F64.div c.1 c.2) <$> cs),
   match cs with [] => acc.2 | _ => true end).
Proof.
  induction cs as [|c cs IH]; intros [s b]; simpl; [done|].
  rewrite IH. simpl. by destruct cs.
Qed.

Lemma gt_zero_nonzero (w : float) :
  F64.ltb F64.zero w = true -> F64.eqb w F64.zero = false.
Proof. by destruct w as [?|[]| |[] ? ?]. Qed.

(** The value appended for one row, when the limits are numbers. *)
Lemma hmpi_row_ok (ws : string) :
  limits_ok limits ->
  hmpi_row str_to_float limits ws row
  = Ok (hmpi_value ws (contributions str_to_float limits row)).
Proof.
  intros Hok. unfold hmpi_row.
  rewrite (for_each_ok _ (opt_acc' (hmpi_acc ws))).
  2:{ eapply Forall_impl; [apply keys_lookup_ok, Hok|].
      intros m (v & Hv & Hn) acc. by eapply hmpi_step_ok. }
  rewrite foldl_opt_acc, foldl_hmpi_acc. simpl.
  unfold hmpi_value, contributions, F64.sum.
  destruct (F64.ltb F64.zero _) eqn:Hw; [|done].
  unfold float_div. by rewrite (gt_zero_nonzero _ Hw).
Qed.

Lemma row_mci_ok :
  limits_ok limits ->
  _row_mci str_to_float limits row
  = Ok (mci_value (contributions str_to_float limits row)).
Proof.
  intros Hok. unfold _row_mci.
  rewrite (for_each_ok _ (opt_acc' mci_acc)).
  2:{ eapply Forall_impl; [apply keys_lookup_ok, Hok|].
      intros m (v & Hv & Hn) acc. by eapply mci_step_ok. }
  rewrite foldl_opt_acc, foldl_mci_acc. simpl.
  unfold mci_value, contributions, F64.sum.
  by destruct (omap _ _).
Qed.

Lemma pi_cell_ok (m : string) (Si : pyval) :
  number_or_none Si = true ->
  pi_cell str_to_float m Si row = Ok (pi_value str_to_float m Si row).
Proof.
  intros Hn. unfold pi_cell, pi_value.
  destruct (_safe_get str_to_float row m) as [Ci|]; [|done].
  destruct (skip_standard Si) eqn:Hskip.
  - by destruct (std_float Si).
  - destruct (number_or_none_std Si Hn Hskip) as [s Hs]. rewrite Hs.
    by apply float_truediv_std.
Qed.

End RowFacts.

(** ** The three computations on a whole table *)

Section TableFacts.

Variable str_to_float : string -> option float.

Lemma calculate_hmpi_ok (df : DataFrame) (limits : dict pyval) (ws : string) :
  limits_ok limits ->
  calculate_hmpi str_to_float df limits ws
  = Ok (mkSeries "HMPI" (df_index df)
          ((fun ir : Label * Row =>
              hmpi_value ws (contributions str_to_float limits ir.2)) <$> df_rows df)).
Proof.
  intros Hok. unfold calculate_hmpi.
  rewrite (mapM_ok _ (fun ir : Label * Row =>
             hmpi_value ws (contributions str_to_float limits ir.2))); [done|].
  apply Forall_forall. intros ir _. by apply hmpi_row_ok.
Qed.

Lemma calculate_mci_ok (df : DataFrame) (limits : dict pyval) :
  limits_ok limits ->
  calculate_mci str_to_float df limits
  = Ok (mkSeries "MCI" (df_index df)
          ((fun ir : Label * Row =>
              mci_value (contributions str_to_float limits ir.2)) <$> df_rows df)).
Proof.
  intros Hok. unfold calculate_mci.
  rewrite (mapM_ok _ (fun ir : Label * Row =>
             mci_value (contributions str_to_float limits ir.2))); [done|].
  apply Forall_forall. intros ir _. by apply row_mci_ok.
Qed.

Lemma calculate_pi_table_ok (df : DataFrame) (limits : dict pyval) :
  limits_ok limits ->
  calculate_pi_table str_to_float df limits
  = Ok (mkPiFrame (df_index df) (foldl (pi_set str_to_float df) [] limits)).
Proof.
  intros Hok. unfold calculate_pi_table.
  rewrite (for_each_ok _ (pi_set str_to_float df)); [done|].
  eapply Forall_impl; [exact Hok|]. intros [m Si] Hn pi. simpl in Hn.
  unfold pi_step, pi_set, pi_column. simpl.
  rewrite (mapM_ok _ (fun ir : Label * Row => pi_value str_to_float m Si ir.2)); [done|].
  apply Forall_forall. intros ir _. by apply pi_cell_ok.
Qed.

Lemma PI_name_inj (m m' : string) : "PI_" +:+ m = "PI_" +:+ m' -> m = m'.
Proof. intros H. vm_compute in H. by injection H. Qed.

(** Every column of the PI frame was written for some item of the
    limits. *)
Lemma pi_fold_lookup (df : DataFrame) (limits : dict pyval) :
  forall (acc : dict (list float)) (name : string) (col : list float),
  dict_lookup (foldl (pi_set str_to_float df) acc limits) name = Some col ->
  dict_lookup acc name = Some col
  \/ exists m Si, (m, Si) ∈ limits /\ name = "PI_" +:+ m
                  /\ col = pi_column str_to_float df m Si.
Proof.
  induction limits as [|[m Si] limits IH]; intros acc name col; simpl; [auto|].
  intros H. apply IH in H as [H|(m' & Si' & Hin & -> & ->)].
  - unfold pi_set in H. rewrite dict_lookup_set in H. cbn [fst snd] in H.
    destruct (String.eqb_spec ("PI_" +:+ m) name) as [<-|Hne]; [|by left].
    injection H as <-. right. exists m, Si. split; [left|done].
  - right. exists m', Si'. split; [by right|done].
Qed.

(** Every metal of the limits has a column. *)
Lemma pi_fold_has (df : DataFrame) (limits : dict pyval) (m : string) :
  forall acc : dict (list float),
  m ∈ dict_keys limits \/ is_Some (dict_lookup acc ("PI_" +:+ m)) ->
  is_Some (dict_lookup (foldl (pi_set str_to_float df) acc limits) ("PI_" +:+ m)).
Proof.
  unfold dict_keys.
  induction limits as [|[m' Si] limits IH]; intros acc; simpl.
  - intros [H|H]; [by apply elem_of_nil in H|done].
  - intros H. apply IH.
    destruct (decide (m' = m)) as [->|Hne].
    + right. unfold pi_set. rewrite dict_lookup_set. cbn [fst snd].
      rewrite String.eqb_refl. by eexists.
    + destruct H as [H|H].
      * apply elem_of_cons in H as [H|H]; [congruence|by left].
      * right. unfold pi_set. rewrite dict_lookup_set.
        destruct (String.eqb _ _); [by eexists|done].
Qed.

Lemma dict_lookup_nodup {V} (d : dict V) (k : string) (v : V) :
  NoDup (dict_keys d) -> (k, v) ∈ d -> dict_lookup d k = Some v.
Proof.
  unfold dict_keys.
  induction d as [|[k' v'] d IH]; simpl; intros Hnd Hin.
  - by apply elem_of_nil in Hin.
  - apply NoDup_cons in Hnd as [Hk Hnd].
    apply elem_of_cons in Hin as [[= -> ->]|Hin].
    + by rewrite String.eqb_refl.
    + destruct (String.eqb_spec k' k) as [->|Hne]; [|auto].
      exfalso. apply Hk. apply list_elem_of_fmap. by exists (k, v).
Qed.

(** With distinct keys the column of a metal is the one computed from
    its standard. *)
Lemma pi_fold_nodup (df : DataFrame) (limits : dict pyval) (m : string) (Si : pyval) :
  NoDup (dict_keys limits) -> dict_lookup limits m = Some Si ->
  dict_lookup (foldl (pi_set str_to_float df) [] limits) ("PI_" +:+ m)
  = Some (pi_column str_to_float df m Si).
Proof.
  intros Hnd Hl.
  assert (Hm : m ∈ dict_keys limits).
  { apply dict_lookup_elem in Hl. unfold dict_keys. apply list_elem_of_fmap.
    by exists (m, Si). }
  destruct (pi_fold_has df limits m [] (or_introl Hm)) as [col Hcol].
  rewrite Hcol.
  apply pi_fold_lookup in Hcol as [H|(m' & Si' & Hin & Hname & ->)]; [done|].
  apply PI_name_inj in Hname as <-.
  apply (dict_lookup_nodup _ _ _ Hnd) in Hin. congruence.
Qed.

End TableFacts.

(** ** Contributing metals *)

Section ContributionFacts.

Variable str_to_float : string -> option float.

Lemma contribution_Some (limits : dict pyval) (row : Row) (m : string)
    (c : float * float) :
  contribution str_to_float limits row m = Some c <->
  _safe_get str_to_float row m = Some c.1
  /\ exists v, dict_lookup limits m = Some v /\ skip_standard v = false
               /\ std_float v = Some c.2.
Proof.
  unfold contribution. destruct c as [Ci s]. simpl. split.
  - destruct (_safe_get str_to_float row m) as [Ci'|]; simpl; [|done].
    destruct (dict_lookup limits m) as [v|]; simpl; [|done].
    destruct (skip_standard v) eqn:Hskip; [done|].
    destruct (std_float v) as [s'|] eqn:Hs; simpl; [|done].
    intros [= -> ->]. split; [done|]. by exists v.
  - intros [H1 (v & H2 & H3 & H4)].
    rewrite H1. simpl. rewrite H2. simpl. rewrite H3, H4. done.
Qed.

Lemma contribution_None (limits : dict pyval) (row : Row) (m : string) :
  (_safe_get str_to_float row m = None
   \/ forall v, (m, v) ∈ limits -> skip_standard v = true) ->
  contribution str_to_float limits row m = None.
Proof.
  unfold contribution. intros [->|H]; [done|].
  destruct (_safe_get str_to_float row m); simpl; [|done].
  destruct (dict_lookup limits m) as [v|] eqn:Hl; simpl; [|done].
  by rewrite (H v (dict_lookup_elem _ _ _ Hl)).
Qed.

(** When every metal of [l] contributes, the contributions list one
    pair per metal, in order. *)
Lemma omap_contribution_all (limits : dict pyval) (row : Row) (l : list string) :
  Forall (fun m => is_Some (contribution str_to_float limits row m)) l ->
  Forall2 (fun m c => contribution str_to_float limits row m = Some c)
    l (omap (contribution str_to_float limits row) l).
Proof.
  induction 1 as [|m l [c Hc] _ IH]; simpl; [constructor|].
  rewrite Hc. by constructor.
Qed.

Lemma positive_contribution (limits : dict pyval) (row : Row) (m : string) :
  Forall (fun kv => positive_standard kv.2 = true) limits ->
  m ∈ dict_keys limits ->
  is_Some (_safe_get str_to_float row m) ->
  exists c, contribution str_to_float limits row m = Some c
            /\ positive_float c.2 = true.
Proof.
  intros Hpos Hm [Ci HCi].
  destruct (dict_lookup_keys limits m Hm) as [v Hv].
  pose proof (dict_lookup_Forall (fun kv => positive_standard kv.2 = true)
                limits m v Hpos Hv) as Hp. simpl in Hp.
  pose proof (positive_standard_not_skipped v Hp) as Hskip.
  unfold positive_standard in Hp.
  destruct (std_float v) as [s|] eqn:Hs; [|discriminate].
  exists (Ci, s). split; [|done].
  apply contribution_Some. simpl. split; [done|]. by exists v.
Qed.

End ContributionFacts.

(** ** Positive weights *)

Lemma weight_of_scheme (sch : Spec.scheme) :
  weight_of (Spec.scheme_name sch) = Spec.Wi sch.
Proof. by destruct sch. Qed.

Lemma weight_pos (ws : string) (s : float) :
  positive_float s = true -> F64.signed_ok false (weight_of ws s).
Proof.
  intros Hs. unfold weight_of. destruct (String.eqb ws "1/Si").
  - by apply F64Facts.div_one_pos_ok.
  - apply F64Facts.one_pos_ok.
Qed.

Lemma foldl_add_pos (l : list float) :
  Forall (F64.signed_ok false) l ->
  forall acc, F64.signed_ok false acc -> F64.signed_ok false (foldl F64.add acc l).
Proof.
  induction 1 as [|x l Hx _ IH]; intros acc Hacc; simpl; [done|].
  apply IH. by apply F64Facts.add_pos_ok.
Qed.

Lemma sum_pos (l : list float) :
  l <> [] -> Forall (F64.signed_ok false) l -> F64.signed_ok false (F64.sum l).
Proof.
  intros Hne Hl. destruct l as [|x l]; [done|].
  apply Forall_cons in Hl as [Hx Hl].
  unfold F64.sum. cbn [foldl]. rewrite F64Facts.add_zero_l by done.
  by apply foldl_add_pos.
Qed.

(** With positive standards the guard [Wi_sum > 0] never discards a
    non-empty aggregation, so the appended value is the quotient of
    the two sums. *)
Lemma hmpi_value_formula (sch : Spec.scheme) (cs : list (float * float)) :
  Forall (fun c => positive_float c.2 = true) cs ->
  hmpi_value (Spec.scheme_name sch) cs = Spec.HMPI sch cs.
Proof.
  intros Hcs. unfold hmpi_value, Spec.HMPI, Spec.Qi.
  rewrite !weight_of_scheme.
  destruct cs as [|c cs]; [done|].
  assert (Hw : F64.signed_ok false (F64.sum ((fun c => Spec.Wi sch c.2) <$> c :: cs))).
  { apply sum_pos; [done|]. apply Forall_fmap.
    eapply Forall_impl; [exact Hcs|]. intros c' Hc'. simpl.
    rewrite <- weight_of_scheme. by apply weight_pos. }
  by rewrite (F64Facts.pos_ok_gt_zero _ Hw).
Qed.

Lemma contributions_positive (str_to_float : string -> option float)
    (limits : dict pyval) (row : Row) :
  Forall (fun kv => positive_standard kv.2 = true) limits ->
  Forall (fun m => is_Some (_safe_get str_to_float row m)) (dict_keys limits) ->
  Forall2 (fun m c => contribution str_to_float limits row m = Some c
                      /\ positive_float c.2 = true)
    (dict_keys limits) (contributions str_to_float limits row).
Proof.
  intros Hpos Hrow. unfold contributions.
  assert (H : Forall (fun m => exists c,
                contribution str_to_float limits row m = Some c
                /\ positive_float c.2 = true) (dict_keys limits)).
  { apply Forall_forall. intros m Hm. apply positive_contribution; [done..|].
    rewrite Forall_forall in Hrow. auto. }
  clear Hrow. induction H as [|m l (c & Hc & Hp) _ IH]; simpl; [constructor|].
  rewrite Hc. constructor; [split; assumption | exact IH].
Qed.

(** C1. For every row in which every tracked metal has a numeric
    concentration [Ci] and a positive standard [Si], [calculate_hmpi]
    returns exactly [sum(Qi * Wi) / sum(Wi)] over all the tracked
    metals, with [Qi = (Ci / Si) * 100] and [Wi = 1 / Si] under the
    scheme ["1/Si"] or [Wi = 1] under ["equal"]; for the limits
    [{"Pb": 0.01, "Cd": 0.003}] and the row [Pb=0.02, Cd=0.006] the
    value is [200.0]. *)
Theorem C1_hmpi_weighted_formula
    (str_to_float : string -> option float) (df : DataFrame)
    (limits : dict pyval) (sch : Spec.scheme)
    (i : nat) (lbl : Label) (row : Row) :
  Forall (fun kv => positive_standard kv.2 = true) limits ->
  df_rows df !! i = Some (lbl, row) ->
  Forall (fun m => is_Some (_safe_get str_to_float row m)) (dict_keys limits) ->
  exists hmpi : Series,
    calculate_hmpi str_to_float df limits (Spec.scheme_name sch) = Ok hmpi
    /\ s_values hmpi !! i
       = Some (Spec.HMPI sch (contributions str_to_float limits row))
    /\ Forall2 (fun m c =>
                  _safe_get str_to_float row m = Some c.1
                  /\ exists v, dict_lookup limits m = Some v
                               /\ std_float v = Some c.2)
         (dict_keys limits) (contributions str_to_float limits row)
    /\ calculate_hmpi str_to_float Sample.df Sample.limits "1/Si"
       = Ok (mkSeries "HMPI" [0] [F64.of_Z 200]).
Proof.
  intros Hpos Hrow Hcells.
  assert (Hok : limits_ok limits).
  { eapply Forall_impl; [exact Hpos|]. intros kv. apply positive_standard_number. }
  pose proof (contributions_positive str_to_float limits row Hpos Hcells) as Hcs.
  eexists. split; [by apply calculate_hmpi_ok|]. simpl.
  split; [|split].
  - rewrite list_lookup_fmap, Hrow. simpl. f_equal.
    apply hmpi_value_formula.
    clear -Hcs. induction Hcs as [|m c l cs [_ Hp] _ IH]; by constructor.
  - eapply Forall2_impl; [exact Hcs|]. intros m c [Hc _].
    apply contribution_Some in Hc as [H1 (v & H2 & _ & H3)]. split; [done|].
    by exists v.
  - vm_compute. reflexivity.
Qed.

Lemma C1_hmpi_weighted_formula_witness :
  exists hmpi : Series,
    calculate_hmpi Sample.read_text Sample.df Sample.limits "1/Si" = Ok hmpi
    /\ s_values hmpi !! 0%nat
       = Some (Spec.HMPI Spec.inverse_standard
                 (contributions Sample.read_text Sample.limits Sample.row))
    /\ Forall2 (fun m c =>
                  _safe_get Sample.read_text Sample.row m = Some c.1
                  /\ exists v, dict_lookup Sample.limits m = Some v
                               /\ std_float v = Some c.2)
         (dict_keys Sample.limits)
         (contributions Sample.read_text Sample.limits Sample.row)
    /\ calculate_hmpi Sample.read_text Sample.df Sample.limits "1/Si"
       = Ok (mkSeries "HMPI" [0] [F64.of_Z 200]).
Proof.
  apply (C1_hmpi_weighted_formula Sample.read_text Sample.df Sample.limits
           Spec.inverse_standard 0%nat 0 Sample.row).
  - repeat constructor.
  - reflexivity.
  - repeat constructor; vm_compute; eexists; reflexivity.
Defined.

(** ** Comparisons with the classifier thresholds *)

Lemma ltb_finite_pos (m M : positive) (e E : Z) :
  F64.ltb (S754_finite false m e) (S754_finite false M E)
  = ((e <? E)%Z || ((e =? E)%Z && (Z.pos m <? Z.pos M)%Z)).
Proof.
  unfold F64.ltb, SFltb, SFcompare.
  change (IntDef.Z.compare e E) with (e ?= E)%Z.
  change (PosDef.Pos.compare_cont Eq m M) with (m ?= M)%positive.
  destruct (Z.compare_spec e E) as [->|H|H].
  - rewrite Z.ltb_irrefl, Z.eqb_refl. simpl. unfold Z.ltb. simpl.
    by destruct (m ?= M)%positive.
  - by apply Z.ltb_lt in H as ->.
  - rewrite (proj2 (Z.ltb_ge e E)) by lia.
    by rewrite (proj2 (Z.eqb_neq e E)) by lia.
Qed.

Lemma leb_finite_pos (m M : positive) (e E : Z) :
  F64.leb (S754_finite false M E) (S754_finite false m e)
  = ((E <? e)%Z || ((E =? e)%Z && (Z.pos M <=? Z.pos m)%Z)).
Proof.
  unfold F64.leb, SFleb, SFcompare.
  change (IntDef.Z.compare E e) with (E ?= e)%Z.
  change (PosDef.Pos.compare_cont Eq M m) with (M ?= m)%positive.
  destruct (Z.compare_spec E e) as [->|H|H].
  - rewrite Z.ltb_irrefl, Z.eqb_refl. simpl. unfold Z.leb. simpl.
    by destruct (M ?= m)%positive.
  - by apply Z.ltb_lt in H as ->.
  - rewrite (proj2 (Z.ltb_ge E e)) by lia.
    by rewrite (proj2 (Z.eqb_neq E e)) by lia.
Qed.

Lemma of_Z_thresholds :
  F64.of_Z 50 = S754_finite false 7036874417766400 (-47)
  /\ F64.of_Z 100 = S754_finite false 7036874417766400 (-46)
  /\ F64.of_Z 200 = S754_finite false 7036874417766400 (-45)
  /\ F64.of_Z 1 = S754_finite false 4503599627370496 (-52)
  /\ F64.of_Z 2 = S754_finite false 4503599627370496 (-51)
  /\ F64.of_Z 6 = S754_finite false 6755399441055744 (-50).
Proof. vm_compute. repeat split. Qed.

Ltac decide_orders :=
  repeat match goal with
    | |- context [Z.ltb ?a ?b] => destruct (Z.ltb_spec a b); try lia
    | |- context [Z.eqb ?a ?b] => destruct (Z.eqb_spec a b); try lia
    | |- context [Z.leb ?a ?b] => destruct (Z.leb_spec a b); try lia
    end.

Lemma categorize_hmpi_table (v : float) :
  (categorize_hmpi v = "Unknown" <-> F64.is_nan v = true)
  /\ (categorize_hmpi v = "Safe" <-> F64.ltb v (F64.of_Z 50) = true)
  /\ (categorize_hmpi v = "Low Pollution"
      <-> F64.leb (F64.of_Z 50) v = true /\ F64.ltb v (F64.of_Z 100) = true)
  /\ (categorize_hmpi v = "High Pollution"
      <-> F64.leb (F64.of_Z 100) v = true /\ F64.ltb v (F64.of_Z 200) = true)
  /\ (categorize_hmpi v = "Very High Pollution"
      <-> F64.leb (F64.of_Z 200) v = true).
Proof.
  unfold categorize_hmpi.
  destruct of_Z_thresholds as (-> & -> & -> & _).
  destruct v as [[]|[]| |[] m e].
  1-5: vm_compute; intuition congruence.
  - cbn. intuition congruence.
  - simpl pd_isna. cbv iota.
    rewrite !ltb_finite_pos, !leb_finite_pos.
    decide_orders; cbn; intuition congruence.
Qed.

Lemma categorize_mci_table (v : float) :
  (categorize_mci v = "Unknown" <-> F64.is_nan v = true)
  /\ (categorize_mci v = "Safe" <-> F64.ltb v (F64.of_Z 1) = true)
  /\ (categorize_mci v = "Alert"
      <-> F64.leb (F64.of_Z 1) v = true /\ F64.ltb v (F64.of_Z 2) = true)
  /\ (categorize_mci v = "Moderately Affected"
      <-> F64.leb (F64.of_Z 2) v = true /\ F64.ltb v (F64.of_Z 6) = true)
  /\ (categorize_mci v = "Seriously Affected"
      <-> F64.leb (F64.of_Z 6) v = true).
Proof.
  unfold categorize_mci.
  destruct of_Z_thresholds as (_ & _ & _ & -> & -> & ->).
  destruct v as [[]|[]| |[] m e].
  1-5: vm_compute; intuition congruence.
  - cbn. intuition congruence.
  - simpl pd_isna. cbv iota.
    rewrite !ltb_finite_pos, !leb_finite_pos.
    decide_orders; cbn; intuition congruence.
Qed.

(** C3. [categorize_hmpi] and [categorize_mci] are total, with
    half-open intervals closed on the left: NaN gives ["Unknown"];
    HMPI below 50 is ["Safe"], [50, 100) ["Low Pollution"], [100, 200)
    ["High Pollution"], 200 and above ["Very High Pollution"]; MCI
    below 1 is ["Safe"], [1, 2) ["Alert"], [2, 6) ["Moderately
    Affected"], 6 and above ["Seriously Affected"].  Each label is
    returned exactly on its range, and the boundary values 50, 100,
    200 and 1, 2, 6 fall into the upper category. *)
Theorem C3_classifier_table (v : float) :
  ((categorize_hmpi v = "Unknown" <-> F64.is_nan v = true)
   /\ (categorize_hmpi v = "Safe" <-> F64.ltb v (F64.of_Z 50) = true)
   /\ (categorize_hmpi v = "Low Pollution"
       <-> F64.leb (F64.of_Z 50) v = true /\ F64.ltb v (F64.of_Z 100) = true)
   /\ (categorize_hmpi v = "High Pollution"
       <-> F64.leb (F64.of_Z 100) v = true /\ F64.ltb v (F64.of_Z 200) = true)
   /\ (categorize_hmpi v = "Very High Pollution"
       <-> F64.leb (F64.of_Z 200) v = true))
  /\ ((categorize_mci v = "Unknown" <-> F64.is_nan v = true)
      /\ (categorize_mci v = "Safe" <-> F64.ltb v (F64.of_Z 1) = true)
      /\ (categorize_mci v = "Alert"
          <-> F64.leb (F64.of_Z 1) v = true /\ F64.ltb v (F64.of_Z 2) = true)
      /\ (categorize_mci v = "Moderately Affected"
          <-> F64.leb (F64.of_Z 2) v = true /\ F64.ltb v (F64.of_Z 6) = true)
      /\ (categorize_mci v = "Seriously Affected"
          <-> F64.leb (F64.of_Z 6) v = true))
  /\ categorize_hmpi v ∈ ["Unknown"; "Safe"; "Low Pollution"; "High Pollution";
                          "Very High Pollution"]
  /\ categorize_mci v ∈ ["Unknown"; "Safe"; "Alert"; "Moderately Affected";
                         "Seriously Affected"]
  /\ categorize_hmpi (F64.of_Z 50) = "Low Pollution"
  /\ categorize_hmpi (F64.of_Z 100) = "High Pollution"
  /\ categorize_hmpi (F64.of_Z 200) = "Very High Pollution"
  /\ categorize_mci (F64.of_Z 1) = "Alert"
  /\ categorize_mci (F64.of_Z 2) = "Moderately Affected"
  /\ categorize_mci (F64.of_Z 6) = "Seriously Affected".
Proof.
  split; [apply categorize_hmpi_table|].
  split; [apply categorize_mci_table|].
  split.
  { unfold categorize_hmpi. repeat case_match; set_solver. }
  split.
  { unfold categorize_mci. repeat case_match; set_solver. }
  vm_compute. repeat split.
Qed.

(** ** Metals that do not contribute *)

Section Exclusion.

Variable str_to_float : string -> option float.

Lemma limits_ok_del (limits : dict pyval) (m : string) :
  limits_ok limits -> limits_ok (dict_del limits m).
Proof.
  unfold limits_ok, dict_del. rewrite !Forall_forall. intros H kv Hkv.
  apply list_elem_of_filter in Hkv as [_ Hkv]. auto.
Qed.

Lemma contribution_del_ne (limits : dict pyval) (row : Row) (m k : string) :
  k <> m ->
  contribution str_to_float (dict_del limits m) row k
  = contribution str_to_float limits row k.
Proof. intros Hne. unfold contribution. by rewrite dict_lookup_del_ne. Qed.

(** Dropping a metal whose standard is zero or [None] leaves the
    contributions of every row unchanged. *)
Lemma contributions_del (limits : dict pyval) (row : Row) (m : string) :
  (forall v, (m, v) ∈ limits -> skip_standard v = true) ->
  contributions str_to_float (dict_del limits m) row
  = contributions str_to_float limits row.
Proof.
  intros Hm. unfold contributions. rewrite dict_keys_del.
  induction (dict_keys limits) as [|k l IH]; [done|].
  rewrite filter_cons. destruct (decide (k <> m)) as [Hne|Heq].
  - cbn [omap list_omap]. rewrite contribution_del_ne by done.
    fold (omap (contribution str_to_float (dict_del limits m) row)
            (filter (fun k' => k' <> m) l)).
    fold (omap (contribution str_to_float limits row) l).
    by rewrite IH.
  - apply dec_stable in Heq. subst k. cbn [omap list_omap].
    rewrite (contribution_None str_to_float limits row m) by auto.
    exact IH.
Qed.

Lemma contributions_nil (limits : dict pyval) (row : Row) :
  Forall (fun kv => _safe_get str_to_float row kv.1 = None
                    \/ skip_standard kv.2 = true) limits ->
  contributions str_to_float limits row = [].
Proof.
  intros H. unfold contributions.
  assert (Hk : Forall (fun m => contribution str_to_float limits row m = None)
                 (dict_keys limits)).
  { apply Forall_forall. intros m Hm.
    destruct (dict_lookup_keys limits m Hm) as [v Hv].
    pose proof (dict_lookup_Forall _ limits m v H Hv) as Hmv. simpl in Hmv.
    unfold contribution. rewrite Hv.
    destruct Hmv as [->|Hs]; [done|].
    destruct (_safe_get str_to_float row m); simpl; [|done]. by rewrite Hs. }
  induction Hk as [|m l Hm _ IH]; [done|]. simpl. by rewrite Hm.
Qed.

Lemma pi_value_nan (m : string) (Si : pyval) (row : Row) :
  _safe_get str_to_float row m = None \/ skip_standard Si = true ->
  pi_value str_to_float m Si row = F64.nan.
Proof.
  unfold pi_value. intros [-> | ->]; [done|].
  destruct (_safe_get str_to_float row m); [|done]. by destruct (std_float Si).
Qed.

Lemma pi_column_length (df : DataFrame) (m : string) (Si : pyval) :
  length (pi_column str_to_float df m Si) = length (df_rows df).
Proof. unfold pi_column. by rewrite length_fmap. Qed.

Lemma pi_column_lookup (df : DataFrame) (m : string) (Si : pyval)
    (i : nat) (lbl : Label) (row : Row) :
  df_rows df !! i = Some (lbl, row) ->
  pi_column str_to_float df m Si !! i = Some (pi_value str_to_float m Si row).
Proof. intros H. unfold pi_column. by rewrite list_lookup_fmap, H. Qed.

End Exclusion.

(** C2 (as stated, refuted): a metal with a negative standard is not
    skipped.  With the limits [{"Pb": -0.01}] and the row [Pb=0.02]
    the metal enters MCI and HMPI (the results differ from those
    without the metal) and its PI cell is [-2.0], not NaN. *)
Lemma C2_negative_standard_counterexample :
  dict_lookup Sample.limits_neg "Pb" = Some (VFloat (SFopp (F64.dec 1 2)))
  /\ F64.ltb (SFopp (F64.dec 1 2)) F64.zero = true
  /\ calculate_mci Sample.read_text Sample.df Sample.limits_neg
     = Ok (mkSeries "MCI" [0] [SFopp (F64.of_Z 2)])
  /\ calculate_mci Sample.read_text Sample.df (dict_del Sample.limits_neg "Pb")
     = Ok (mkSeries "MCI" [0] [F64.nan])
  /\ calculate_hmpi Sample.read_text Sample.df Sample.limits_neg "equal"
     = Ok (mkSeries "HMPI" [0] [SFopp (F64.of_Z 200)])
  /\ calculate_hmpi Sample.read_text Sample.df (dict_del Sample.limits_neg "Pb") "equal"
     = Ok (mkSeries "HMPI" [0] [F64.nan])
  /\ calculate_pi_table Sample.read_text Sample.df Sample.limits_neg
     = Ok (mkPiFrame [0] [("PI_Pb", [SFopp (F64.of_Z 2)])])
  /\ F64.is_nan (SFopp (F64.of_Z 2)) = false.
Proof. vm_compute. repeat split. Qed.

(** C2 (amended). For every metal whose standard is zero or [None],
    that metal contributes nothing to any row's HMPI or MCI
    aggregation: the outputs of [calculate_hmpi] and [calculate_mci]
    are those obtained without the metal; and the column [PI_<metal>]
    produced by [calculate_pi_table] is NaN in every row. *)
Theorem C2_zero_standard_excluded
    (str_to_float : string -> option float) (df : DataFrame)
    (limits : dict pyval) (m : string) (weight_scheme : string) :
  limits_ok limits ->
  m ∈ dict_keys limits ->
  (forall v, (m, v) ∈ limits -> skip_standard v = true) ->
  calculate_hmpi str_to_float df (dict_del limits m) weight_scheme
  = calculate_hmpi str_to_float df limits weight_scheme
  /\ calculate_mci str_to_float df (dict_del limits m)
     = calculate_mci str_to_float df limits
  /\ (forall row, contribution str_to_float limits row m = None)
  /\ exists frame col,
       calculate_pi_table str_to_float df limits = Ok frame
       /\ dict_lookup (pi_columns frame) ("PI_" +:+ m) = Some col
       /\ length col = length (df_rows df)
       /\ Forall (fun x => F64.is_nan x = true) col.
Proof.
  intros Hok Hm Hskip.
  pose proof (limits_ok_del limits m Hok) as Hok'.
  rewrite !calculate_hmpi_ok, !calculate_mci_ok by done.
  split; [|split; [|split]].
  - f_equal. f_equal. apply list_fmap_ext. intros j [lbl row] _. simpl.
    by rewrite contributions_del.
  - f_equal. f_equal. apply list_fmap_ext. intros j [lbl row] _. simpl.
    by rewrite contributions_del.
  - intros row. apply contribution_None. by right.
  - rewrite calculate_pi_table_ok by done.
    destruct (pi_fold_has str_to_float df limits m [] (or_introl Hm)) as [col Hcol].
    eexists _, col. split; [done|]. split; [exact Hcol|].
    apply pi_fold_lookup in Hcol as [H|(m' & Si & Hin & Hname & ->)]; [done|].
    apply PI_name_inj in Hname as <-.
    split; [apply pi_column_length|].
    unfold pi_column. apply Forall_fmap, Forall_forall. intros [lbl row] _. simpl.
    rewrite pi_value_nan; [done|]. right. auto.
Qed.

Lemma C2_zero_standard_excluded_witness :
  calculate_hmpi Sample.read_text Sample.df (dict_del Sample.limits_zero "Cd") "1/Si"
  = calculate_hmpi Sample.read_text Sample.df Sample.limits_zero "1/Si"
  /\ calculate_mci Sample.read_text Sample.df (dict_del Sample.limits_zero "Cd")
     = calculate_mci Sample.read_text Sample.df Sample.limits_zero
  /\ (forall row, contribution Sample.read_text Sample.limits_zero row "Cd" = None)
  /\ exists frame col,
       calculate_pi_table Sample.read_text Sample.df Sample.limits_zero = Ok frame
       /\ dict_lookup (pi_columns frame) ("PI_" +:+ "Cd") = Some col
       /\ length col = length (df_rows Sample.df)
       /\ Forall (fun x => F64.is_nan x = true) col.
Proof.
  apply (C2_zero_standard_excluded Sample.read_text Sample.df Sample.limits_zero
           "Cd" "1/Si").
  - repeat constructor.
  - set_solver.
  - intros v Hv. unfold Sample.limits_zero in Hv.
    apply elem_of_cons in Hv as [Hv|Hv]; [discriminate Hv|].
    apply elem_of_cons in Hv as [Hv|Hv]; [by injection Hv as ->|].
    by apply elem_of_nil in Hv.
Defined.

(** C4 (as stated, refuted): a metal with a negative standard enters
    the sum.  With the limits [{"Pb": 0.01, "Cd": -0.003}] and the row
    [Pb=0.02, Cd=0.006], [calculate_mci] returns [2.0 + (-2.0) = 0.0],
    while the sum over the metals with a valid standard is [2.0].
    Moreover, for a row without any such metal (limits [{"Pb": 0.01}],
    [Pb] missing) the result is NaN and not the empty sum [0.0]. *)
Lemma C4_negative_standard_counterexample :
  calculate_mci Sample.read_text Sample.df Sample.limits_mixed_neg
  = Ok (mkSeries "MCI" [0] [F64.zero])
  /\ Spec.valid_standard (VFloat (SFopp (F64.dec 3 3))) = false
  /\ Spec.valid_pairs Sample.read_text Sample.limits_mixed_neg Sample.row
     = [(F64.dec 2 2, F64.dec 1 2)]
  /\ Spec.MCI (Spec.valid_pairs Sample.read_text Sample.limits_mixed_neg Sample.row)
     = F64.of_Z 2
  /\ F64.eqb F64.zero (F64.of_Z 2) = false
  /\ calculate_mci Sample.read_text Sample.df_missing Sample.limits_pb
     = Ok (mkSeries "MCI" [0] [F64.nan])
  /\ Spec.MCI (Spec.valid_pairs Sample.read_text Sample.limits_pb Sample.row_missing)
     = F64.zero.
Proof. vm_compute. repeat split. Qed.

(** C4 (amended). A metal contributes to a row when its concentration
    is numeric and its standard is present and non-zero (negative
    standards included).  For every row [calculate_mci] returns the
    sum of [Ci / Si] over exactly the contributing metals, that is the
    sum of their [PI_m] values, and NaN when there is none;
    [calculate_pi_table] returns [PI_m = Ci / Si] for each such metal;
    neither takes a weighting scheme.  For the limits
    [{"Pb": 0.01, "Cd": 0.003}] and the row [Pb=0.02, Cd=0.006] this
    gives [PI_Pb = 2.0], [PI_Cd = 2.0] and [MCI = 4.0]. *)
Theorem C4_mci_and_pi
    (str_to_float : string -> option float) (df : DataFrame)
    (limits : dict pyval) (i : nat) (lbl : Label) (row : Row) :
  limits_ok limits ->
  NoDup (dict_keys limits) ->
  df_rows df !! i = Some (lbl, row) ->
  exists mci frame,
    calculate_mci str_to_float df limits = Ok mci
    /\ calculate_pi_table str_to_float df limits = Ok frame
    /\ s_values mci !! i
       = Some (match contributions str_to_float limits row with
               | [] => F64.nan
               | cs => Spec.MCI cs
               end)
    /\ (forall m c,
          contribution str_to_float limits row m = Some c <->
          _safe_get str_to_float row m = Some c.1
          /\ exists v, dict_lookup limits m = Some v /\ skip_standard v = false
                       /\ std_float v = Some c.2)
    /\ (forall m c,
          contribution str_to_float limits row m = Some c ->
          exists col, dict_lookup (pi_columns frame) ("PI_" +:+ m) = Some col
                      /\ col !! i = Some (Spec.PI c.1 c.2))
    /\ calculate_mci str_to_float Sample.df Sample.limits
       = Ok (mkSeries "MCI" [0] [F64.of_Z 4])
    /\ calculate_pi_table str_to_float Sample.df Sample.limits
       = Ok (mkPiFrame [0] [("PI_Pb", [F64.of_Z 2]); ("PI_Cd", [F64.of_Z 2])]).
Proof.
  intros Hok Hnd Hrow.
  eexists _, _.
  split; [by apply calculate_mci_ok|].
  split; [by apply calculate_pi_table_ok|]. simpl.
  split; [|split; [|split; [|split]]].
  - rewrite list_lookup_fmap, Hrow. simpl. unfold mci_value.
    by destruct (contributions str_to_float limits row).
  - intros m c. apply contribution_Some.
  - intros m c Hc.
    apply contribution_Some in Hc as [HCi (v & Hv & Hskip & Hs)].
    exists (pi_column str_to_float df m v).
    split; [by apply pi_fold_nodup|].
    rewrite (pi_column_lookup str_to_float df m v i lbl row Hrow).
    unfold pi_value, Spec.PI. by rewrite HCi, Hs, Hskip.
  - vm_compute. reflexivity.
  - vm_compute. reflexivity.
Qed.

Lemma C4_mci_and_pi_witness :
  exists mci frame,
    calculate_mci Sample.read_text Sample.df Sample.limits_mixed_neg = Ok mci
    /\ calculate_pi_table Sample.read_text Sample.df Sample.limits_mixed_neg = Ok frame
    /\ s_values mci !! 0%nat
       = Some (match contributions Sample.read_text Sample.limits_mixed_neg Sample.row with
               | [] => F64.nan
               | cs => Spec.MCI cs
               end)
    /\ (forall m c,
          contribution Sample.read_text Sample.limits_mixed_neg Sample.row m = Some c <->
          _safe_get Sample.read_text Sample.row m = Some c.1
          /\ exists v, dict_lookup Sample.limits_mixed_neg m = Some v
                       /\ skip_standard v = false /\ std_float v = Some c.2)
    /\ (forall m c,
          contribution Sample.read_text Sample.limits_mixed_neg Sample.row m = Some c ->
          exists col, dict_lookup (pi_columns frame) ("PI_" +:+ m) = Some col
                      /\ col !! 0%nat = Some (Spec.PI c.1 c.2))
    /\ calculate_mci Sample.read_text Sample.df Sample.limits
       = Ok (mkSeries "MCI" [0] [F64.of_Z 4])
    /\ calculate_pi_table Sample.read_text Sample.df Sample.limits
       = Ok (mkPiFrame [0] [("PI_Pb", [F64.of_Z 2]); ("PI_Cd", [F64.of_Z 2])]).
Proof.
  apply (C4_mci_and_pi Sample.read_text Sample.df Sample.limits_mixed_neg
           0%nat 0 Sample.row).
  - repeat constructor.
  - apply (bool_decide_unpack _). vm_compute. exact I.
  - reflexivity.
Defined.

(** C5 (as stated, refuted): with the limits [{"Pb": -0.01, "Cd": 0}]
    every standard is invalid (negative or zero), yet for the row
    [Pb=0.02, Cd=0.006] MCI is [-2.0], [PI_Pb] is [-2.0] and HMPI
    under equal weights is [-200.0]; the categories are ["Safe"], not
    ["Unknown"]. *)
Lemma C5_invalid_standard_counterexample :
  Forall (fun kv => Spec.invalid_standard kv.2 = true) Sample.limits_invalid
  /\ calculate_mci Sample.read_text Sample.df Sample.limits_invalid
     = Ok (mkSeries "MCI" [0] [SFopp (F64.of_Z 2)])
  /\ calculate_hmpi Sample.read_text Sample.df Sample.limits_invalid "equal"
     = Ok (mkSeries "HMPI" [0] [SFopp (F64.of_Z 200)])
  /\ calculate_pi_table Sample.read_text Sample.df Sample.limits_invalid
     = Ok (mkPiFrame [0] [("PI_Pb", [SFopp (F64.of_Z 2)]); ("PI_Cd", [F64.nan])])
  /\ F64.is_nan (SFopp (F64.of_Z 2)) = false
  /\ categorize_mci (SFopp (F64.of_Z 2)) = "Safe"
  /\ categorize_hmpi (SFopp (F64.of_Z 200)) = "Safe".
Proof.
  split; [repeat constructor|]. vm_compute. repeat split.
Qed.

(** C5 (amended). For every row in which no metal contributes (every
    tracked metal's concentration is missing or non-coercible, or its
    standard is [None] or zero), [calculate_hmpi], [calculate_mci] and
    every column of [calculate_pi_table] hold NaN for that row; the
    row is kept (no output is shorter than the table) and both
    categories are ["Unknown"]. *)
Theorem C5_no_contribution_undefined
    (str_to_float : string -> option float) (df : DataFrame)
    (limits : dict pyval) (weight_scheme : string)
    (i : nat) (lbl : Label) (row : Row) :
  limits_ok limits ->
  df_rows df !! i = Some (lbl, row) ->
  Forall (fun kv => _safe_get str_to_float row kv.1 = None
                    \/ skip_standard kv.2 = true) limits ->
  exists hmpi mci frame,
    calculate_hmpi str_to_float df limits weight_scheme = Ok hmpi
    /\ calculate_mci str_to_float df limits = Ok mci
    /\ calculate_pi_table str_to_float df limits = Ok frame
    /\ s_values hmpi !! i = Some F64.nan
    /\ s_values mci !! i = Some F64.nan
    /\ (forall name col,
          dict_lookup (pi_columns frame) name = Some col ->
          col !! i = Some F64.nan)
    /\ length (s_values hmpi) = length (df_rows df)
    /\ length (s_values mci) = length (df_rows df)
    /\ (forall name col,
          dict_lookup (pi_columns frame) name = Some col ->
          length col = length (df_rows df))
    /\ categorize_hmpi F64.nan = "Unknown"
    /\ categorize_mci F64.nan = "Unknown".
Proof.
  intros Hok Hrow Hnone.
  pose proof (contributions_nil str_to_float limits row Hnone) as Hcs.
  eexists _, _, _.
  split; [by apply calculate_hmpi_ok|].
  split; [by apply calculate_mci_ok|].
  split; [by apply calculate_pi_table_ok|]. simpl.
  repeat split.
  - by rewrite list_lookup_fmap, Hrow; simpl; rewrite Hcs.
  - by rewrite list_lookup_fmap, Hrow; simpl; rewrite Hcs.
  - intros name col Hcol.
    apply pi_fold_lookup in Hcol as [H|(m & Si & Hin & _ & ->)]; [done|].
    rewrite (pi_column_lookup str_to_float df m Si i lbl row Hrow).
    f_equal. apply pi_value_nan.
    rewrite Forall_forall in Hnone. apply (Hnone (m, Si) Hin).
  - by rewrite length_fmap.
  - by rewrite length_fmap.
  - intros name col Hcol.
    apply pi_fold_lookup in Hcol as [H|(m & Si & Hin & _ & ->)]; [done|].
    apply pi_column_length.
Qed.

Lemma C5_no_contribution_undefined_witness :
  exists hmpi mci frame,
    calculate_hmpi Sample.read_text Sample.df_missing Sample.limits_pb "1/Si" = Ok hmpi
    /\ calculate_mci Sample.read_text Sample.df_missing Sample.limits_pb = Ok mci
    /\ calculate_pi_table Sample.read_text Sample.df_missing Sample.limits_pb = Ok frame
    /\ s_values hmpi !! 0%nat = Some F64.nan
    /\ s_values mci !! 0%nat = Some F64.nan
    /\ (forall name col,
          dict_lookup (pi_columns frame) name = Some col ->
          col !! 0%nat = Some F64.nan)
    /\ length (s_values hmpi) = length (df_rows Sample.df_missing)
    /\ length (s_values mci) = length (df_rows Sample.df_missing)
    /\ (forall name col,
          dict_lookup (pi_columns frame) name = Some col ->
          length col = length (df_rows Sample.df_missing))
    /\ categorize_hmpi F64.nan = "Unknown"
    /\ categorize_mci F64.nan = "Unknown".
Proof.
  apply (C5_no_contribution_undefined Sample.read_text Sample.df_missing
           Sample.limits_pb "1/Si" 0%nat 0 Sample.row_missing).
  - repeat constructor.
  - reflexivity.
  - repeat constructor.
Defined.

(** C6 (as stated, refuted): with the limits [{"Pb": 0.01, "Cd": 0.003}]
    the standards of the two contributing metals differ, yet for the
    row [Pb=0.02, Cd=0.006] both sub-indices are [200] and HMPI is
    [200.0] under either scheme. *)
Lemma C6_same_hmpi_counterexample :
  contributions Sample.read_text Sample.limits Sample.row
  = [(F64.dec 2 2, F64.dec 1 2); (F64.dec 6 3, F64.dec 3 3)]
  /\ F64.eqb (F64.dec 1 2) (F64.dec 3 3) = false
  /\ calculate_hmpi Sample.read_text Sample.df Sample.limits "1/Si"
     = Ok (mkSeries "HMPI" [0] [F64.of_Z 200])
  /\ calculate_hmpi Sample.read_text Sample.df Sample.limits "equal"
     = Ok (mkSeries "HMPI" [0] [F64.of_Z 200]).
Proof. vm_compute. repeat split. Qed.

(** C6 (amended). Changing the weighting scheme of [calculate_hmpi]
    from ["1/Si"] to ["equal"] never changes the output of
    [calculate_mci] or [calculate_pi_table]; it changes the HMPI value
    of some rows whose contributing metals have differing standards,
    not of all of them: for the limits [{"Pb": 0.01, "Cd": 0.003}]
    and the row [Pb=0.02, Cd=0.003] HMPI is about [123.08] under
    ["1/Si"] and [150.0] under ["equal"]. *)
Theorem C6_scheme_changes_only_hmpi
    (str_to_float : string -> option float) (df : DataFrame)
    (limits : dict pyval) :
  (index_engine str_to_float df limits "1/Si").1.2
  = (index_engine str_to_float df limits "equal").1.2
  /\ (index_engine str_to_float df limits "1/Si").2
     = (index_engine str_to_float df limits "equal").2
  /\ (index_engine str_to_float Sample.df_mixed Sample.limits "1/Si").1.1
     = Ok (mkSeries "HMPI" [0] [S754_finite false 8660768514174030 (-46)])
  /\ (index_engine str_to_float Sample.df_mixed Sample.limits "equal").1.1
     = Ok (mkSeries "HMPI" [0] [F64.of_Z 150])
  /\ F64.ltb (S754_finite false 8660768514174030 (-46)) (F64.of_Z 150) = true.
Proof.
  split; [reflexivity|]. split; [reflexivity|].
  vm_compute. repeat split.
Qed.

(** ** Totality and row alignment *)

Lemma zip_fmap_same {A B C} (f : A -> B) (g : A -> C) (l : list A) :
  zip (f <$> l) (g <$> l) = (fun x => (f x, g x)) <$> l.
Proof. induction l as [|x l IH]; simpl; [done|]. by f_equal. Qed.

(** C8. The outputs of [calculate_hmpi], [calculate_mci] and
    [calculate_pi_table] carry the index of the input table, have one
    value per input row, and the value at position [i] is the one
    computed from input row [i] alone.  The three functions only read
    the table: they return new columns, named [HMPI], [MCI] and
    [PI_<metal>], and the table itself is an argument that is never
    written. *)
Theorem C8_rows_preserved
    (str_to_float : string -> option float) (df : DataFrame)
    (limits : dict pyval) (weight_scheme : string) :
  limits_ok limits ->
  exists hmpi mci frame,
    calculate_hmpi str_to_float df limits weight_scheme = Ok hmpi
    /\ calculate_mci str_to_float df limits = Ok mci
    /\ calculate_pi_table str_to_float df limits = Ok frame
    /\ s_name hmpi = "HMPI"
    /\ s_name mci = "MCI"
    /\ s_index hmpi = df_index df
    /\ s_index mci = df_index df
    /\ pi_index frame = df_index df
    /\ length (s_values hmpi) = length (df_rows df)
    /\ length (s_values mci) = length (df_rows df)
    /\ (forall i lbl row,
          df_rows df !! i = Some (lbl, row) ->
          (exists x, hmpi_row str_to_float limits weight_scheme row = Ok x
                     /\ s_values hmpi !! i = Some x)
          /\ (exists x, _row_mci str_to_float limits row = Ok x
                        /\ s_values mci !! i = Some x))
    /\ (forall name col,
          dict_lookup (pi_columns frame) name = Some col ->
          length col = length (df_rows df)
          /\ exists m Si,
               (m, Si) ∈ limits /\ name = "PI_" +:+ m
               /\ forall i lbl row,
                    df_rows df !! i = Some (lbl, row) ->
                    exists x, pi_cell str_to_float m Si row = Ok x
                              /\ col !! i = Some x).
Proof.
  intros Hok. eexists _, _, _.
  split; [by apply calculate_hmpi_ok|].
  split; [by apply calculate_mci_ok|].
  split; [by apply calculate_pi_table_ok|]. simpl.
  do 5 (split; [done|]).
  do 2 (split; [by rewrite length_fmap|]).
  split.
  - intros i lbl row Hrow. split; eexists.
    + split; [by apply hmpi_row_ok|]. by rewrite list_lookup_fmap, Hrow.
    + split; [by apply row_mci_ok|]. by rewrite list_lookup_fmap, Hrow.
  - intros name col Hcol.
    apply pi_fold_lookup in Hcol as [H|(m & Si & Hin & -> & ->)]; [done|].
    split; [apply pi_column_length|].
    exists m, Si. do 2 (split; [done|]).
    intros i lbl row Hrow. eexists. split.
    + apply pi_cell_ok. unfold limits_ok in Hok. rewrite Forall_forall in Hok.
      apply (Hok (m, Si) Hin).
    + by eapply pi_column_lookup.
Qed.

Lemma C8_rows_preserved_witness :
  exists hmpi mci frame,
    calculate_hmpi Sample.read_text Sample.df_text Sample.limits "1/Si" = Ok hmpi
    /\ calculate_mci Sample.read_text Sample.df_text Sample.limits = Ok mci
    /\ calculate_pi_table Sample.read_text Sample.df_text Sample.limits = Ok frame
    /\ s_name hmpi = "HMPI"
    /\ s_name mci = "MCI"
    /\ s_index hmpi = df_index Sample.df_text
    /\ s_index mci = df_index Sample.df_text
    /\ pi_index frame = df_index Sample.df_text
    /\ length (s_values hmpi) = length (df_rows Sample.df_text)
    /\ length (s_values mci) = length (df_rows Sample.df_text)
    /\ (forall i lbl row,
          df_rows Sample.df_text !! i = Some (lbl, row) ->
          (exists x, hmpi_row Sample.read_text Sample.limits "1/Si" row = Ok x
                     /\ s_values hmpi !! i = Some x)
          /\ (exists x, _row_mci Sample.read_text Sample.limits row = Ok x
                        /\ s_values mci !! i = Some x))
    /\ (forall name col,
          dict_lookup (pi_columns frame) name = Some col ->
          length col = length (df_rows Sample.df_text)
          /\ exists m Si,
               (m, Si) ∈ Sample.limits /\ name = "PI_" +:+ m
               /\ forall i lbl row,
                    df_rows Sample.df_text !! i = Some (lbl, row) ->
                    exists x, pi_cell Sample.read_text m Si row = Ok x
                              /\ col !! i = Some x).
Proof.
  apply (C8_rows_preserved Sample.read_text Sample.df_text Sample.limits "1/Si").
  repeat constructor.
Defined.

(** ** Repeated invocations and the order of the rows *)

Section Repeat.

Variable str_to_float : string -> option float.

Lemma dict_keys_set {V} (d : dict V) (k : string) (v v' : V) :
  dict_keys (dict_set d k v) = dict_keys (dict_set d k v').
Proof.
  unfold dict_keys. induction d as [|[k' w] d IH]; [done|].
  cbn [dict_set]. destruct (String.eqb k' k); [done|].
  rewrite !fmap_cons. by f_equal.
Qed.

Lemma pi_fold_keys (df df' : DataFrame) (limits : dict pyval) :
  forall acc acc' : dict (list float),
  dict_keys acc = dict_keys acc' ->
  dict_keys (foldl (pi_set str_to_float df) acc limits)
  = dict_keys (foldl (pi_set str_to_float df') acc' limits).
Proof.
  induction limits as [|[m Si] limits IH]; intros acc acc' Hk; [done|].
  cbn [foldl]. apply IH. unfold pi_set. cbn [fst snd].
  rewrite (dict_keys_set acc _ _ (pi_column str_to_float df' m Si)).
  revert Hk. generalize (pi_column str_to_float df' m Si), ("PI_" +:+ m).
  intros v k. unfold dict_keys. revert acc'.
  induction acc as [|[k1 v1] acc IHa]; intros [|[k2 v2] acc'] Hk;
    try discriminate; [done|].
  rewrite !fmap_cons in Hk. injection Hk as Hk1 Hk. cbn [fst] in Hk1. subst k2.
  cbn [dict_set]. destruct (String.eqb k1 k).
  - rewrite !fmap_cons. cbn [fst]. by f_equal.
  - rewrite !fmap_cons. cbn [fst]. f_equal. by apply IHa.
Qed.

(** The same item of the limits writes a column of a given name in
    the two frames. *)
Lemma pi_fold_lookup2 (df df' : DataFrame) (limits : dict pyval) :
  forall (acc acc' : dict (list float)) (name : string) (col col' : list float),
  dict_lookup (foldl (pi_set str_to_float df) acc limits) name = Some col ->
  dict_lookup (foldl (pi_set str_to_float df') acc' limits) name = Some col' ->
  (dict_lookup acc name = Some col /\ dict_lookup acc' name = Some col')
  \/ exists m Si, (m, Si) ∈ limits /\ name = "PI_" +:+ m
                  /\ col = pi_column str_to_float df m Si
                  /\ col' = pi_column str_to_float df' m Si.
Proof.
  induction limits as [|[m Si] limits IH]; intros acc acc' name col col';
    cbn [foldl]; [by left|].
  intros H H'. destruct (IH _ _ _ _ _ H H') as [[H1 H1']|(m' & Si' & Hin & Hn & Hc)].
  - unfold pi_set in H1, H1'. rewrite dict_lookup_set in H1, H1'.
    cbn [fst snd] in H1, H1'.
    destruct (String.eqb_spec ("PI_" +:+ m) name) as [<-|Hne]; [|by left].
    injection H1 as <-. injection H1' as <-.
    right. exists m, Si. split; [by left|done].
  - right. exists m', Si'. split; [by right|done].
Qed.

Lemma zip_index_perm {B} (g : Row -> B) (rows rows' : list (Label * Row)) :
  rows' ≡ₚ rows ->
  zip rows'.*1 ((fun ir : Label * Row => g ir.2) <$> rows')
  ≡ₚ zip rows.*1 ((fun ir : Label * Row => g ir.2) <$> rows).
Proof. intros H. rewrite !zip_fmap_same. by apply fmap_Permutation. Qed.

End Repeat.


(** Not every invocation leaves the objects alone: the validation
    rewrites the table it is given. *)
Example invoke_validate_writes :
  let s := mkStore Sample.df_text Sample.limits in
  let s' := (invoke_validate Sample.read_numeric Sample.no_median
               Sample2.median_overflow ["Pb"; "Cd"] s).2 in
  df_column (st_table s) "Pb" = [VStr "0.02"; VStr "n/a"]
  /\ df_column (st_table s') "Pb" = [VFloat (F64.dec 2 2); VFloat F64.nan]
  /\ s' <> s.
Proof.
  vm_compute. split; [done|]. split; [done|]. intros H. discriminate H.
Qed.


(** The order of the entries of the limits is part of the input: the
    sums run over the metals in that order and are rounded after each
    addition, so the same limits inserted in another order are another
    input, and can give another value. *)
Example limits_order_is_input :
  exists a b a' b',
    (invoke_mci Sample.read_text (mkStore table_wide_range unit_limits)).1
    = Ok (mkSeries "MCI" [0] [a])
    /\ (invoke_mci Sample.read_text
          (mkStore table_wide_range unit_limits_reordered)).1
       = Ok (mkSeries "MCI" [0] [b])
    /\ a = F64.of_Z (2 ^ 53) /\ b = F64.of_Z (2 ^ 53 + 2)
    /\ (invoke_hmpi Sample.read_text "equal"
          (mkStore table_wide_range unit_limits)).1
       = Ok (mkSeries "HMPI" [0] [a'])
    /\ (invoke_hmpi Sample.read_text "equal"
          (mkStore table_wide_range unit_limits_reordered)).1
       = Ok (mkSeries "HMPI" [0] [b'])
    /\ F64.eqb a' b' = false.
Proof.
  eexists _, _, _, _.
  split; [vm_compute; reflexivity|]. split; [vm_compute; reflexivity|].
  split; [vm_compute; reflexivity|]. split; [vm_compute; reflexivity|].
  split; [vm_compute; reflexivity|]. split; [vm_compute; reflexivity|].
  vm_compute. reflexivity.
Qed.

(** ** Validation: the coercion of a column *)

Section ValidationFacts.

Variable str_to_numeric : string -> option pyval.
Variable abs_median : list pyval -> float.

Lemma df_set_column_dtype (df : DataFrame) (col col' : string) (t : dtype)
    (values : list pyval) :
  column_dtype (df_set_column df col t values) col'
  = if String.eqb col col' then Some t else column_dtype df col'.
Proof. unfold column_dtype, df_set_column. simpl. apply dict_lookup_set. Qed.

Lemma set_column_cells (rows : list (Label * Row)) (col col' : string) :
  forall values : list pyval,
  length values = length rows ->
  (fun ir : Label * Row => default VNone (ir.2 !! col'))
    <$> zip_with (fun (ir : Label * Row) v => (ir.1, <[col := v]> ir.2)) rows values
  = if decide (col = col') then values
    else (fun ir : Label * Row => default VNone (ir.2 !! col')) <$> rows.
Proof.
  induction rows as [|[lbl row] rows IH]; intros [|v values] Hlen;
    simpl in Hlen; try discriminate.
  - by destruct (decide (col = col')).
  - injection Hlen as Hlen. specialize (IH values Hlen).
    cbn [zip_with]. rewrite !fmap_cons, IH. cbn [fst snd].
    destruct (decide (col = col')) as [->|Hne].
    + by rewrite lookup_insert_eq.
    + by rewrite lookup_insert_ne.
Qed.

Lemma df_set_column_cells (df : DataFrame) (col col' : string) (t : dtype)
    (values : list pyval) :
  length values = length (df_rows df) ->
  df_column (df_set_column df col t values) col'
  = if decide (col = col') then values else df_column df col'.
Proof. intros Hlen. unfold df_column, df_set_column. simpl. by apply set_column_cells. Qed.

Lemma df_set_column_rows (df : DataFrame) (col : string) (t : dtype)
    (values : list pyval) :
  length values = length (df_rows df) ->
  length (df_rows (df_set_column df col t values)) = length (df_rows df).
Proof. intros Hlen. unfold df_set_column. simpl. rewrite length_zip_with. lia. Qed.

Lemma df_column_length (df : DataFrame) (col : string) :
  length (df_column df col) = length (df_rows df).
Proof. unfold df_column. by rewrite length_fmap. Qed.

End ValidationFacts.

(** ** Signs of sums, products and quotients *)

Module F64Signs.

Lemma not_negative_ltb (f : float) : not_negative f <-> F64.ltb f F64.zero = false.
Proof. destruct f as [[]|[]| |[] m e]; cbv; intuition congruence. Qed.

Lemma shr_fexp_nonneg (m e : Z) (l : location) :
  0 <= m -> 0 <= shr_m (shr_fexp F64.prec F64.emax m e l).1.
Proof.
  intros Hm. unfold shr_fexp, shr.
  destruct (fexp F64.prec F64.emax (Zdigits2 m + e) - e) as [|p|p]; simpl;
    rewrite ?F64Facts.shr_record_of_loc_m; try done.
  rewrite F64Facts.shr_iter_m by (by rewrite F64Facts.shr_record_of_loc_m).
  rewrite F64Facts.shr_record_of_loc_m.
  apply Z.div_pos; [done|]. apply Z.pow_pos_nonneg; lia.
Qed.

Lemma round_nearest_even_nonneg (m : Z) (l : location) :
  0 <= m -> 0 <= round_nearest_even m l.
Proof.
  intros Hm. destruct l as [|[]]; simpl; try lia. destruct (Z.even m); lia.
Qed.

(** Rounding a non-negative mantissa gives a zero, a finite number
    or an infinity of the requested sign, never NaN. *)
Lemma binary_round_aux_sign (sx : bool) (m e : Z) (l : location) :
  0 <= m ->
  match binary_round_aux F64.prec F64.emax sx m e l with
  | S754_zero s | S754_infinity s | S754_finite s _ _ => s = sx
  | S754_nan => False
  end.
Proof.
  intros Hm. unfold binary_round_aux.
  pose proof (shr_fexp_nonneg m e l Hm) as H1.
  destruct (shr_fexp F64.prec F64.emax m e l) as [mrs' e']. simpl in H1.
  pose proof (round_nearest_even_nonneg _ (loc_of_shr_record mrs') H1) as H2.
  pose proof (shr_fexp_nonneg _ e' loc_Exact H2) as H3.
  destruct (shr_fexp F64.prec F64.emax _ e' loc_Exact) as [mrs'' e''].
  simpl in H3.
  destruct (shr_m mrs'') as [|m3|m3]; [done| |lia].
  by destruct (Z.leb e'' (F64.emax - F64.prec)).
Qed.

Lemma binary_round_aux_not_negative (m e : Z) (l : location) :
  0 <= m -> not_negative (binary_round_aux F64.prec F64.emax false m e l).
Proof.
  intros Hm. pose proof (binary_round_aux_sign false m e l Hm) as H.
  destruct (binary_round_aux F64.prec F64.emax false m e l) as [?|?| |? ? ?];
    simpl in *; by subst.
Qed.

Lemma mul_not_negative (x y : float) :
  not_negative x -> not_negative y -> not_negative (F64.mul x y).
Proof.
  destruct x as [[]|[]| |[] mx ex], y as [[]|[]| |[] my ey]; simpl; try done.
  intros _ _. by apply binary_round_aux_not_negative.
Qed.

Lemma add_not_negative (x y : float) :
  not_negative x -> not_negative y -> not_negative (F64.add x y).
Proof.
  destruct x as [[]|[]| |[] mx ex], y as [[]|[]| |[] my ey]; simpl; try done.
  intros _ _.
  change (Z.pos ?a + Z.pos ?b) with (Z.pos (a + b)).
  unfold binary_normalize, binary_round.
  destruct (shl_align _ _ _) as [mz ez].
  by apply binary_round_aux_not_negative.
Qed.

Lemma div_eucl_nonneg (a b : Z) : 0 <= a -> 0 < b -> 0 <= (Z.div_eucl a b).1.
Proof.
  intros Ha Hb. pose proof (Z_div_mod a b ltac:(lia)) as H.
  destruct (Z.div_eucl a b) as [q r]. simpl. nia.
Qed.

(** A quotient by a number above zero is not negative. *)
Lemma div_not_negative (x y : float) :
  not_negative x -> F64.ltb F64.zero y = true -> not_negative (F64.div x y).
Proof.
  destruct x as [[]|[]| |[] mx ex], y as [[]|[]| |[] my ey]; simpl; try done.
  intros _ _. unfold SFdiv_core_binary.
  set (s := ex - ey - _).
  set (m' := match s with Z.pos _ => _ | Z0 => _ | Z.neg _ => _ end).
  assert (Hm' : 0 <= m').
  { unfold m'. destruct s; try lia. apply Z.shiftl_nonneg. lia. }
  pose proof (div_eucl_nonneg m' (Z.pos my) Hm' ltac:(lia)) as Hq.
  destruct (Z.div_eucl m' (Z.pos my)) as [q r]. simpl in Hq.
  by apply binary_round_aux_not_negative.
Qed.

Lemma foldl_add_not_negative (l : list float) :
  Forall not_negative l ->
  forall acc, not_negative acc -> not_negative (foldl F64.add acc l).
Proof.
  induction 1 as [|x l Hx _ IH]; intros acc Hacc; simpl; [done|].
  apply IH. by apply add_not_negative.
Qed.

Lemma sum_not_negative (l : list float) :
  Forall not_negative l -> not_negative (F64.sum l).
Proof. intros H. by apply foldl_add_not_negative. Qed.

End F64Signs.

(** ** Indices of non-negative samples *)

Section NotNegative.

Variable str_to_float : string -> option float.

Lemma contributions_elem (limits : dict pyval) (row : Row) (c : float * float) :
  c ∈ contributions str_to_float limits row ->
  exists m, m ∈ dict_keys limits
            /\ contribution str_to_float limits row m = Some c.
Proof.
  unfold contributions. intros H.
  apply list_elem_of_omap in H as (m & Hm & Hc). by exists m.
Qed.

Lemma valid_standard_number (v : pyval) :
  Spec.valid_standard v = true -> number_or_none v = true.
Proof.
  unfold Spec.valid_standard, number_or_none. intros H.
  destruct (std_float v) eqn:E; [|discriminate].
  apply orb_true_iff. right. apply bool_decide_eq_true. by eexists.
Qed.

Lemma weight_not_negative (ws : string) (s : float) :
  F64.ltb F64.zero s = true -> not_negative (weight_of ws s).
Proof.
  intros Hs. unfold weight_of. destruct (String.eqb ws "1/Si"); [|done].
  by apply F64Signs.div_not_negative.
Qed.

Lemma hmpi_value_not_negative (ws : string) (cs : list (float * float)) :
  Forall (fun c => not_negative c.1 /\ F64.ltb F64.zero c.2 = true) cs ->
  not_negative (hmpi_value ws cs).
Proof.
  intros Hcs. unfold hmpi_value.
  destruct (F64.ltb F64.zero _) eqn:HW; [|done].
  apply F64Signs.div_not_negative; [|done].
  apply F64Signs.sum_not_negative, Forall_fmap.
  eapply Forall_impl; [exact Hcs|]. intros c [H1 H2]. simpl.
  apply F64Signs.mul_not_negative; [|by apply weight_not_negative].
  apply F64Signs.mul_not_negative; [|done].
  by apply F64Signs.div_not_negative.
Qed.

Lemma mci_value_not_negative (cs : list (float * float)) :
  Forall (fun c => not_negative c.1 /\ F64.ltb F64.zero c.2 = true) cs ->
  not_negative (mci_value cs).
Proof.
  intros Hcs. unfold mci_value. destruct cs as [|c cs]; [done|].
  apply F64Signs.sum_not_negative, Forall_fmap.
  eapply Forall_impl; [exact Hcs|]. intros c' [H1 H2]. simpl.
  by apply F64Signs.div_not_negative.
Qed.

(** X1. With standards above zero, a row whose numeric concentrations
    are not negative never gets a negative index: the row's HMPI, its
    MCI and each of its PI cells satisfy [v < 0 = False].  Only the
    metal columns matter: the other cells of the row (a longitude,
    say) may hold any value. *)
Theorem X1_indices_not_negative
    (df : DataFrame) (limits : dict pyval) (weight_scheme : string)
    (i : nat) (lbl : Label) (row : Row) :
  Forall (fun kv => Spec.valid_standard kv.2 = true) limits ->
  df_rows df !! i = Some (lbl, row) ->
  (forall m c, m ∈ dict_keys limits ->
               _safe_get str_to_float row m = Some c ->
               F64.ltb c F64.zero = false) ->
  exists hmpi mci frame,
    calculate_hmpi str_to_float df limits weight_scheme = Ok hmpi
    /\ calculate_mci str_to_float df limits = Ok mci
    /\ calculate_pi_table str_to_float df limits = Ok frame
    /\ (exists v, s_values hmpi !! i = Some v /\ F64.ltb v F64.zero = false)
    /\ (exists v, s_values mci !! i = Some v /\ F64.ltb v F64.zero = false)
    /\ (forall name col,
          dict_lookup (pi_columns frame) name = Some col ->
          exists v, col !! i = Some v /\ F64.ltb v F64.zero = false).
Proof.
  intros Hval Hrow Hconc.
  assert (Hok : limits_ok limits).
  { eapply Forall_impl; [exact Hval|]. intros kv. apply valid_standard_number. }
  assert (Hcs : Forall (fun c => not_negative c.1 /\ F64.ltb F64.zero c.2 = true)
                  (contributions str_to_float limits row)).
  { apply Forall_forall. intros c Hc.
    apply contributions_elem in Hc as (m & Hm & Hc).
    apply contribution_Some in Hc as [HCi (v & Hv & _ & Hs)].
    split; [by apply F64Signs.not_negative_ltb, (Hconc m _ Hm)|].
    pose proof (dict_lookup_Forall _ limits m v Hval Hv) as Hp. simpl in Hp.
    unfold Spec.valid_standard in Hp. by rewrite Hs in Hp. }
  eexists _, _, _.
  split; [by apply calculate_hmpi_ok|].
  split; [by apply calculate_mci_ok|].
  split; [by apply calculate_pi_table_ok|]. simpl.
  split; [|split].
  - eexists. rewrite list_lookup_fmap, Hrow. split; [done|]. simpl.
    by apply F64Signs.not_negative_ltb, hmpi_value_not_negative.
  - eexists. rewrite list_lookup_fmap, Hrow. split; [done|]. simpl.
    by apply F64Signs.not_negative_ltb, mci_value_not_negative.
  - intros name col Hcol.
    apply pi_fold_lookup in Hcol as [H|(m & Si & Hin & _ & ->)]; [done|].
    eexists. split; [by eapply pi_column_lookup|].
    apply F64Signs.not_negative_ltb. unfold pi_value.
    destruct (_safe_get str_to_float row m) as [Ci|] eqn:HCi; [|done].
    destruct (std_float Si) as [s|] eqn:Hs; [|done].
    destruct (skip_standard Si); [done|].
    apply F64Signs.div_not_negative.
    + apply F64Signs.not_negative_ltb, (Hconc m _); [|done].
      by apply (list_elem_of_fmap_2 fst) in Hin.
    + rewrite Forall_forall in Hval. specialize (Hval (m, Si) Hin). simpl in Hval.
      unfold Spec.valid_standard in Hval. by rewrite Hs in Hval.
Qed.

End NotNegative.

Lemma X1_indices_not_negative_witness :
  exists hmpi mci frame,
    calculate_hmpi Sample.read_text Sample2.df_located Sample.limits "1/Si" = Ok hmpi
    /\ calculate_mci Sample.read_text Sample2.df_located Sample.limits = Ok mci
    /\ calculate_pi_table Sample.read_text Sample2.df_located Sample.limits = Ok frame
    /\ (exists v, s_values hmpi !! 0%nat = Some v /\ F64.ltb v F64.zero = false)
    /\ (exists v, s_values mci !! 0%nat = Some v /\ F64.ltb v F64.zero = false)
    /\ (forall name col,
          dict_lookup (pi_columns frame) name = Some col ->
          exists v, col !! 0%nat = Some v /\ F64.ltb v F64.zero = false).
Proof.
  apply (X1_indices_not_negative Sample.read_text Sample2.df_located Sample.limits
           "1/Si" 0%nat 0 Sample2.row_located).
  - repeat constructor.
  - reflexivity.
  - intros m c Hm. unfold dict_keys in Hm. cbn in Hm.
    apply elem_of_cons in Hm as [->|Hm]; [by intros [= <-]|].
    apply elem_of_cons in Hm as [->|Hm]; [by intros [= <-]|].
    by apply elem_of_nil in Hm.
Defined.

(** ** What the index functions read from a table *)

Lemma for_each_ext {A S} (step step' : S -> A -> result S) (l : list A) :
  Forall (fun x => forall a, step a x = step' a x) l ->
  forall acc, for_each step l acc = for_each step' l acc.
Proof.
  induction 1 as [|x l Hx _ IH]; intros acc; simpl; [done|].
  rewrite Hx. destruct (step' acc x); simpl; [apply IH|done].
Qed.

Lemma mapM_ext2 {A A' B} (f : A -> result B) (g : A' -> result B)
    (l : list A) (k : list A') :
  Forall2 (fun x y => f x = g y) l k -> mapM f l = mapM g k.
Proof.
  induction 1 as [|x y l k Hxy _ IH]; simpl; [done|]. by rewrite Hxy, IH.
Qed.

Section Reads.

Variable str_to_float : string -> option float.

Lemma hmpi_row_reads (limits : dict pyval) (ws : string) (row row' : Row) :
  same_reads str_to_float limits row row' ->
  hmpi_row str_to_float limits ws row = hmpi_row str_to_float limits ws row'.
Proof.
  intros H. unfold hmpi_row.
  rewrite (for_each_ext _ (hmpi_step str_to_float limits ws row')); [done|].
  apply Forall_forall. intros m Hm acc. unfold hmpi_step. by rewrite (H m Hm).
Qed.

Lemma row_mci_reads (limits : dict pyval) (row row' : Row) :
  same_reads str_to_float limits row row' ->
  _row_mci str_to_float limits row = _row_mci str_to_float limits row'.
Proof.
  intros H. unfold _row_mci.
  rewrite (for_each_ext _ (mci_step str_to_float limits row')); [done|].
  apply Forall_forall. intros m Hm acc. unfold mci_step. by rewrite (H m Hm).
Qed.

Lemma calculate_reads (df df' : DataFrame) (limits : dict pyval) (ws : string) :
  Forall2 (fun r r' : Label * Row => r.1 = r'.1 /\ same_reads str_to_float limits r.2 r'.2)
    (df_rows df) (df_rows df') ->
  calculate_hmpi str_to_float df limits ws = calculate_hmpi str_to_float df' limits ws
  /\ calculate_mci str_to_float df limits = calculate_mci str_to_float df' limits
  /\ calculate_pi_table str_to_float df limits
     = calculate_pi_table str_to_float df' limits.
Proof.
  intros H.
  assert (Hidx : df_index df = df_index df').
  { unfold df_index. induction H as [|r r' l l' [Hr _] _ IH]; [done|].
    rewrite !fmap_cons. by rewrite Hr, IH. }
  unfold calculate_hmpi, calculate_mci, calculate_pi_table. rewrite Hidx.
  split; [|split].
  - rewrite (mapM_ext2 _ (fun ir : Label * Row =>
                            hmpi_row str_to_float limits ws ir.2) _ (df_rows df'));
      [done|].
    eapply Forall2_impl; [exact H|]. intros r r' [_ Hr]. by apply hmpi_row_reads.
  - rewrite (mapM_ext2 _ (fun ir : Label * Row =>
                            _row_mci str_to_float limits ir.2) _ (df_rows df'));
      [done|].
    eapply Forall2_impl; [exact H|]. intros r r' [_ Hr]. by apply row_mci_reads.
  - rewrite (for_each_ext _ (pi_step str_to_float df')); [done|].
    apply Forall_forall. intros [m Si] Hin pi. unfold pi_step.
    rewrite (mapM_ext2 _ (fun ir : Label * Row =>
                            pi_cell str_to_float m Si ir.2) _ (df_rows df'));
      [done|].
    eapply Forall2_impl; [exact H|]. intros r r' [_ Hr]. unfold pi_cell.
    rewrite (Hr m); [done|]. unfold dict_keys. apply list_elem_of_fmap.
    by exists (m, Si).
Qed.

End Reads.

(** X2. The three index functions read a table only through its index
    and the cells of the metal columns: two tables with the same row
    labels whose rows agree on every metal of the limits give the same
    HMPI series, MCI series and PI frame, whatever their other columns
    hold. *)
Theorem X2_only_metal_cells_are_read
    (str_to_float : string -> option float) (df df' : DataFrame)
    (limits : dict pyval) (weight_scheme : string) :
  Forall2 (fun r r' : Label * Row =>
             r.1 = r'.1 /\ forall m, m ∈ dict_keys limits -> r.2 !! m = r'.2 !! m)
    (df_rows df) (df_rows df') ->
  calculate_hmpi str_to_float df limits weight_scheme
  = calculate_hmpi str_to_float df' limits weight_scheme
  /\ calculate_mci str_to_float df limits = calculate_mci str_to_float df' limits
  /\ calculate_pi_table str_to_float df limits
     = calculate_pi_table str_to_float df' limits.
Proof.
  intros H. apply calculate_reads.
  eapply Forall2_impl; [exact H|]. intros r r' [Hl Hc]. split; [done|].
  intros m Hm. unfold _safe_get. by rewrite (Hc m Hm).
Qed.

Lemma X2_only_metal_cells_are_read_witness :
  calculate_hmpi Sample.read_text Sample.df Sample.limits "1/Si"
  = calculate_hmpi Sample.read_text Sample2.df_with_id Sample.limits "1/Si"
  /\ calculate_mci Sample.read_text Sample.df Sample.limits
     = calculate_mci Sample.read_text Sample2.df_with_id Sample.limits
  /\ calculate_pi_table Sample.read_text Sample.df Sample.limits
     = calculate_pi_table Sample.read_text Sample2.df_with_id Sample.limits.
Proof.
  apply (X2_only_metal_cells_are_read Sample.read_text Sample.df
           Sample2.df_with_id Sample.limits "1/Si").
  repeat constructor. simpl. intros m Hm.
  rewrite lookup_insert_ne; [done|].
  intros <-. unfold dict_keys in Hm. simpl in Hm. set_solver.
Defined.

(** ** The validation loop as a whole *)

Section DictMore.
Context {V : Type}.
Implicit Types (d : dict V) (k : string) (v : V).

Lemma dict_lookup_None d k : dict_lookup d k = None <-> k ∉ dict_keys d.
Proof.
  unfold dict_keys. induction d as [|[k' v'] d IH]; simpl.
  - split; [intros _; apply not_elem_of_nil|done].
  - rewrite not_elem_of_cons. destruct (String.eqb_spec k' k) as [->|Hne].
    + split; [done|]. by intros [? _].
    + rewrite IH. split; [by split|]. by intros [_ ?].
Qed.

Lemma dict_keys_set_present d k v :
  k ∈ dict_keys d -> dict_keys (dict_set d k v) = dict_keys d.
Proof.
  unfold dict_keys. induction d as [|[k' v'] d IH]; simpl; intros Hk.
  - by apply elem_of_nil in Hk.
  - destruct (String.eqb_spec k' k) as [->|Hne]; [done|].
    rewrite fmap_cons. simpl. f_equal. apply IH.
    apply elem_of_cons in Hk as [->|Hk]; done.
Qed.

End DictMore.

Section ValidationLoop.

Variable str_to_numeric : string -> option pyval.
Variable abs_median : list pyval -> float.

Lemma df_set_column_index (df : DataFrame) (col : string) (t : dtype)
    (values : list pyval) :
  length values = length (df_rows df) ->
  df_index (df_set_column df col t values) = df_index df.
Proof.
  unfold df_index, df_set_column. simpl. generalize (df_rows df) as rows.
  intros rows. revert values.
  induction rows as [|[lbl row] rows IH]; intros [|v values] Hlen;
    simpl in Hlen; try discriminate; [done|].
  injection Hlen as Hlen. cbn [zip_with]. rewrite !fmap_cons. simpl.
  f_equal. by apply IH.
Qed.

Lemma column_dtype_None (df : DataFrame) (c : string) :
  column_dtype df c = None <-> c ∉ dict_keys (df_columns df).
Proof. apply dict_lookup_None. Qed.

Lemma filter_nil_Forall {A} (P : A -> Prop) `{!forall x, Decision (P x)}
    (l : list A) :
  filter P l = [] <-> Forall (fun x => ~ P x) l.
Proof.
  induction l as [|x l IH]; [by split; [constructor|]|].
  destruct (decide (P x)) as [HP|HP].
  - rewrite filter_cons_True by done. split; [done|].
    intros HF. apply Forall_cons in HF as [HF _]. done.
  - rewrite filter_cons_False by done. rewrite IH, Forall_cons.
    split; [by split|by intros [_ ?]].
Qed.

End ValidationLoop.

Lemma existsb_false {A} (f : A -> bool) (l : list A) :
  existsb f l = false <-> forall x, x ∈ l -> f x = false.
Proof.
  induction l as [|x l IH]; cbn [existsb].
  - split; [|done]. intros _ x Hx. by apply elem_of_nil in Hx.
  - rewrite orb_false_iff, IH. split.
    + intros [Hx Hl] y [->|Hy]%elem_of_cons; [done|by apply Hl].
    + intros H. split; [apply H; by left|]. intros y Hy. apply H. by right.
Qed.

(** ** The validation loops *)

Section ValidationLoops.

Variable str_to_numeric : string -> option pyval.
Variable abs_median : list pyval -> float.
Variable median_error : list pyval -> exn.

Lemma numeric_dtype_of_numeric (values : list pyval) :
  is_numeric_dtype (numeric_dtype_of values) = true.
Proof.
  unfold numeric_dtype_of. destruct (forallb is_integer_cell values); [|done].
  destruct values as [|v values]; [done|].
  by destruct (forallb is_bool_cell (v :: values)).
Qed.

Lemma pd_to_numeric_coercible (df : DataFrame) (c : string) :
  coercible df c = true ->
  pd_to_numeric str_to_numeric (df_column df c)
  = Ok (numeric_dtype_of (to_numeric_cell str_to_numeric <$> df_column df c),
        to_numeric_cell str_to_numeric <$> df_column df c).
Proof.
  unfold coercible, pd_to_numeric. by destruct (existsb overflows _).
Qed.

Lemma pd_to_numeric_raises (df : DataFrame) (c : string) :
  coercible df c = false ->
  pd_to_numeric str_to_numeric (df_column df c) = Raise OverflowError.
Proof.
  unfold coercible, pd_to_numeric. by destruct (existsb overflows _).
Qed.

Lemma is_object_dtype (df : DataFrame) (c : string) :
  is_object df c = true
  <-> exists t, column_dtype df c = Some t /\ is_numeric_dtype t = false.
Proof.
  unfold is_object. destruct (column_dtype df c) as [t|].
  - rewrite negb_true_iff. split; [by exists t|]. by intros (t' & [= <-] & H).
  - split; [done|]. by intros (t' & H & _).
Qed.

Lemma is_object_same (df df' : DataFrame) (c : string) :
  column_dtype df' c = column_dtype df c -> is_object df' c = is_object df c.
Proof. unfold is_object. by intros ->. Qed.

Lemma coercible_same (df df' : DataFrame) (c : string) :
  df_column df' c = df_column df c -> coercible df' c = coercible df c.
Proof. unfold coercible. by intros ->. Qed.

Lemma loop_inv_start (df : DataFrame) :
  loop_inv str_to_numeric df [] (df, ([], [])).
Proof.
  unfold loop_inv. cbn [fst snd].
  split; [done|]. split; [done|]. split; [done|]. split.
  { intros c. split.
    - intros Hc. by apply elem_of_nil in Hc.
    - intros [Hc _]. by apply elem_of_nil in Hc. }
  split; [intros c Hc; by apply elem_of_nil in Hc|].
  split; [done|]. intros _. constructor.
Qed.

Lemma loop_inv_step (df0 : DataFrame) (l : list string) (x : string)
    (st : DataFrame * (list string * list string)) :
  loop_inv str_to_numeric df0 l st ->
  loop_inv str_to_numeric df0 (l ++ [x]) (validate_step str_to_numeric st x).
Proof.
  destruct st as [df [missing nonnum]].
  intros (Hidx & Hkeys & Hmiss & Hmem & Hco & Hun & Hnd). cbn [fst snd] in *.
  assert (Hcoerc : all_coercible df0 (l ++ [x]) -> all_coercible df0 l).
  { intros H c Hc. apply H, elem_of_app. by left. }
  unfold validate_step.
  destruct (column_dtype df x) as [t|] eqn:Ht.
  2:{ (* the column is absent *)
    assert (Hx : x ∉ dict_keys (df_columns df0)).
    { rewrite <- Hkeys. by apply column_dtype_None. }
    assert (Hx0 : is_object df0 x = false).
    { unfold is_object. by rewrite (proj2 (column_dtype_None df0 x) Hx). }
    unfold loop_inv. cbn [fst snd].
    split; [done|]. split; [done|]. split.
    { rewrite filter_app, Hmiss. f_equal. by rewrite filter_cons_True by done. }
    split.
    { intros c. rewrite Hmem, elem_of_app, list_elem_of_singleton.
      split; [intros [? ?]; split; [by left|done]|].
      intros [[?| ->] Hobj]; [done|congruence]. }
    split; [done|]. split; [done|]. intros H. by apply Hnd, Hcoerc. }
  assert (Hx : x ∈ dict_keys (df_columns df0)).
  { rewrite <- Hkeys. destruct (decide (x ∈ dict_keys (df_columns df))) as [|Hn]; [done|].
    apply column_dtype_None in Hn. congruence. }
  assert (Hfilt : filter (fun c => c ∉ dict_keys (df_columns df0)) (l ++ [x])
                  = filter (fun c => c ∉ dict_keys (df_columns df0)) l).
  { rewrite filter_app, filter_cons_False by (intros H; by apply H).
    by rewrite filter_nil, app_nil_r. }
  destruct (is_numeric_dtype t) eqn:Hnum.
  - (* the column is numeric already *)
    unfold loop_inv. cbn [fst snd].
    split; [done|]. split; [done|]. split; [by rewrite Hfilt|]. split.
    { intros c. rewrite Hmem, elem_of_app, list_elem_of_singleton.
      split; [intros [? ?]; split; [by left|done]|].
      intros [[?| ->] Hobj]; [done|].
      destruct (decide (x ∈ nonnum)) as [Hin|Hout]; [by apply Hmem in Hin|].
      destruct (Hun x (or_introl Hout)) as [_ Hd].
      unfold is_object in Hobj. rewrite <- Hd, Ht, Hnum in Hobj. done. }
    split; [done|]. split; [done|]. intros H. by apply Hnd, Hcoerc.
  - (* the column is not numeric: the coercion is tried *)
    assert (Hsame : df_column df x = df_column df0 x
                    /\ column_dtype df x = column_dtype df0 x).
    { apply Hun. destruct (decide (x ∈ nonnum)) as [Hin|Hout]; [|by left].
      right. destruct (coercible df0 x) eqn:Hc; [|done].
      destruct (Hco x Hin Hc) as [_ (t' & Hd & Hn)]. congruence. }
    destruct Hsame as [Hcells Hd].
    assert (Hobj : is_object df0 x = true).
    { unfold is_object. by rewrite <- Hd, Ht, Hnum. }
    assert (Hmem' : forall c, c ∈ nonnum ++ [x]
                              <-> c ∈ l ++ [x] /\ is_object df0 c = true).
    { intros c. rewrite !elem_of_app, !list_elem_of_singleton, Hmem. split.
      - intros [[? ?]| ->]; [split; [by left|done]|]. split; [by right|done].
      - intros [[?| ->] ?]; [left; by split|by right]. }
    destruct (coercible df0 x) eqn:Hc.
    + (* it succeeds *)
      rewrite <- (coercible_same df0 df x Hcells) in Hc.
      rewrite (pd_to_numeric_coercible df x Hc).
      rewrite (coercible_same df0 df x Hcells) in Hc.
      assert (Hout : x ∉ nonnum).
      { intros Hin. destruct (Hco x Hin Hc) as [_ (t' & Hd' & Hn)]. congruence. }
      assert (Hlen : length (to_numeric_cell str_to_numeric <$> df_column df x)
                     = length (df_rows df)).
      { by rewrite length_fmap, df_column_length. }
      unfold loop_inv. cbn [fst snd].
      split; [by rewrite df_set_column_index|]. split.
      { unfold df_set_column. cbn [df_columns].
        rewrite dict_keys_set_present; [done|]. by rewrite Hkeys. }
      split; [by rewrite Hfilt|]. split; [done|]. split.
      { intros c [Hin| ->%list_elem_of_singleton]%elem_of_app Hcc.
        - assert (x <> c) by congruence.
          rewrite df_set_column_cells, df_set_column_dtype by done.
          rewrite decide_False by done.
          destruct (String.eqb_spec x c); [done|]. by apply Hco.
        - rewrite df_set_column_cells, df_set_column_dtype by done.
          rewrite decide_True by done. rewrite String.eqb_refl, Hcells.
          split; [done|]. eexists. split; [done|].
          apply numeric_dtype_of_numeric. }
      split.
      { intros c Hcase.
        assert (Hne : x <> c).
        { intros <-. destruct Hcase as [Hcase|Hcase]; [|congruence].
          apply Hcase, elem_of_app. right. by apply list_elem_of_singleton. }
        rewrite df_set_column_cells, df_set_column_dtype by done.
        rewrite decide_False by done.
        destruct (String.eqb_spec x c); [done|]. apply Hun.
        destruct Hcase as [Hcase|Hcase]; [left|by right].
        intros Hin. apply Hcase, elem_of_app. by left. }
      intros H. apply NoDup_app. split; [by apply Hnd, Hcoerc|].
      split; [|apply NoDup_singleton].
      intros c Hin ->%list_elem_of_singleton. done.
    + (* it raises: the column stays *)
      rewrite <- (coercible_same df0 df x Hcells) in Hc.
      rewrite (pd_to_numeric_raises df x Hc).
      rewrite (coercible_same df0 df x Hcells) in Hc.
      unfold loop_inv. cbn [fst snd].
      split; [done|]. split; [done|]. split; [by rewrite Hfilt|].
      split; [done|]. split.
      { intros c [Hin| ->%list_elem_of_singleton]%elem_of_app Hcc;
          [by apply Hco|congruence]. }
      split.
      { intros c [Hcase|Hcase]; apply Hun; [left|by right].
        intros Hin. apply Hcase, elem_of_app. by left. }
      intros H. exfalso.
      assert (coercible df0 x = true); [|congruence].
      apply H; [|done]. apply elem_of_app. right. by apply list_elem_of_singleton.
Qed.

Lemma loop_inv_fold (df : DataFrame) (l : list string) :
  loop_inv str_to_numeric df l
    (foldl (validate_step str_to_numeric) (df, ([], [])) l).
Proof.
  induction l as [|x l IH] using rev_ind; [apply loop_inv_start|].
  rewrite foldl_app. cbn [foldl]. by apply loop_inv_step.
Qed.

End ValidationLoops.

Section SecondLoop.

Variable str_to_numeric : string -> option pyval.
Variable abs_median : list pyval -> float.
Variable median_error : list pyval -> exn.

Lemma magnitude_step_status (df : DataFrame) (acc : dict float) (c : string) :
  if median_fails df c
  then exists e, magnitude_step abs_median median_error df acc c = Raise e
  else magnitude_step abs_median median_error df acc c
       = Ok (magnitude_set abs_median df acc c).
Proof.
  unfold median_fails, is_object, magnitude_step, magnitude_set, magnitude_of.
  destruct (column_dtype df c) as [t|]; [|done].
  destruct (filter _ (df_column df c)) as [|v s].
  - by rewrite andb_false_r.
  - destruct (is_numeric_dtype t); cbn; [done|by eexists].
Qed.

Lemma magnitude_loop (df : DataFrame) (l : list string) :
  forall acc,
  if existsb (median_fails df) l
  then exists e, for_each (magnitude_step abs_median median_error df) l acc = Raise e
  else for_each (magnitude_step abs_median median_error df) l acc
       = Ok (foldl (magnitude_set abs_median df) acc l).
Proof.
  induction l as [|c l IH]; intros acc; cbn [existsb for_each foldl]; [done|].
  pose proof (magnitude_step_status df acc c) as Hc.
  destruct (median_fails df c); cbn [orb].
  - destruct Hc as [e ->]. by exists e.
  - rewrite Hc. cbn. apply IH.
Qed.

(** After the first loop the median fails exactly on the required
    columns that could not be coerced. *)
Lemma median_fails_after (df0 : DataFrame) (l : list string)
    (st : DataFrame * (list string * list string)) (c : string) :
  loop_inv str_to_numeric df0 l st -> c ∈ l ->
  median_fails st.1 c = true
  <-> is_object df0 c = true /\ coercible df0 c = false.
Proof.
  intros (_ & _ & _ & Hmem & Hco & Hun & _) Hc. split.
  - intros [Hobj Hval]%andb_true_iff.
    assert (Hcase : c ∉ st.2.2 \/ coercible df0 c = false).
    { destruct (decide (c ∈ st.2.2)) as [Hin|]; [|by left]. right.
      destruct (coercible df0 c) eqn:Hcc; [|done].
      destruct (Hco c Hin Hcc) as [_ (t & Ht & Hn)].
      unfold is_object in Hobj. rewrite Ht, Hn in Hobj. done. }
    destruct (Hun c Hcase) as [_ Hd].
    rewrite (is_object_same _ _ _ Hd) in Hobj. split; [done|].
    destruct Hcase as [Hout|]; [|done]. exfalso. apply Hout, Hmem. by split.
  - intros [Hobj Hcc]. destruct (Hun c (or_intror Hcc)) as [Hcells Hd].
    unfold median_fails. rewrite (is_object_same _ _ _ Hd), Hobj, Hcells.
    cbn [andb]. unfold coercible in Hcc. apply negb_false_iff in Hcc.
    apply existsb_exists in Hcc as (v & Hv & Hov). apply list_elem_of_In in Hv.
    assert (Hin : v ∈ filter (fun v => pd_isna v = false) (df_column df0 c)).
    { apply list_elem_of_filter. split; [|done]. by destruct v. }
    destruct (filter _ (df_column df0 c)); [by apply elem_of_nil in Hin|done].
Qed.

Lemma median_fails_coercible (df0 : DataFrame) (l : list string)
    (st : DataFrame * (list string * list string)) :
  loop_inv str_to_numeric df0 l st ->
  existsb (median_fails st.1) l = false <-> all_coercible df0 l.
Proof.
  intros Hinv. rewrite existsb_false. unfold all_coercible. split.
  - intros H c Hc Hobj. destruct (coercible df0 c) eqn:Hcc; [done|].
    rewrite <- (H c Hc). by apply (median_fails_after df0 l st c Hinv Hc).
  - intros H c Hc. destruct (median_fails st.1 c) eqn:Hf; [|done].
    apply (median_fails_after df0 l st c Hinv Hc) in Hf as [Hobj Hcc].
    rewrite (H c Hc Hobj) in Hcc. done.
Qed.

(** What [validate_dataframe] returns, and when. *)
Lemma validate_dataframe_returns (df : DataFrame) (l : list string) :
  let st := foldl (validate_step str_to_numeric) (df, ([], [])) l in
  let out := validate_dataframe str_to_numeric abs_median median_error df l in
  out.1 = st.1
  /\ (all_coercible df l ->
      out.2 = Ok (bool_decide (length st.2.1 = 0%nat),
                  mkReport st.2.1 st.2.2 (coords_missing st.1) (length (df_rows df))
                    (foldl (magnitude_set abs_median st.1) [] l)))
  /\ (succeeds out.2 <-> all_coercible df l).
Proof.
  intros st out. subst st out. unfold validate_dataframe.
  pose proof (loop_inv_fold str_to_numeric df l) as Hinv.
  destruct (foldl (validate_step str_to_numeric) (df, ([], [])) l)
    as [df' [missing nonnum]].
  pose proof (median_fails_coercible df l _ Hinv) as Hiff.
  pose proof (magnitude_loop df' l []) as Hloop.
  cbn [fst snd] in *.
  split; [done|].
  destruct (existsb (median_fails df') l).
  - destruct Hloop as [e ->]. cbn. split.
    + intros H. apply Hiff in H. done.
    + split; [done|]. intros H. apply Hiff in H. done.
  - rewrite Hloop. cbn. split; [done|]. split; [intros _; by apply Hiff|done].
Qed.

(** A table on which nothing is left to coerce is left alone. *)
Lemma foldl_validate_fixed (df : DataFrame) (l : list string) :
  (forall c, c ∈ l -> is_object df c = true -> coercible df c = false) ->
  forall missing nonnum,
    foldl (validate_step str_to_numeric) (df, (missing, nonnum)) l
    = (df, (missing ++ filter (fun c => c ∉ dict_keys (df_columns df)) l,
            nonnum ++ filter (fun c => is_object df c = true) l)).
Proof.
  induction l as [|x l IH]; intros Hl missing nonnum.
  - by rewrite !filter_nil, !app_nil_r.
  - assert (Hl' : forall c, c ∈ l -> is_object df c = true -> coercible df c = false).
    { intros c Hc. apply Hl. by right. }
    specialize (Hl x (list_elem_of_here x l)).
    cbn [foldl]. unfold validate_step at 2. unfold is_object in Hl |- *.
    destruct (column_dtype df x) as [t|] eqn:Ht.
    + assert (Hx : ~ (x ∉ dict_keys (df_columns df))).
      { intros Hn. apply column_dtype_None in Hn. congruence. }
      rewrite (filter_cons_False _ x l Hx).
      destruct (is_numeric_dtype t) eqn:Hn.
      * rewrite IH by done. rewrite filter_cons_False; [done|].
        unfold is_object. rewrite Ht, Hn. done.
      * rewrite (pd_to_numeric_raises str_to_numeric df x (Hl eq_refl)).
        rewrite IH by done. rewrite (filter_cons_True (fun c => is_object df c = true)).
        2:{ unfold is_object. by rewrite Ht, Hn. }
        by rewrite <- app_assoc.
    + rewrite IH by done. apply column_dtype_None in Ht.
      rewrite (filter_cons_True _ x l Ht).
      rewrite filter_cons_False.
      2:{ unfold is_object. apply column_dtype_None in Ht. by rewrite Ht. }
      by rewrite <- app_assoc.
Qed.

(** After the first loop every required column that is still not
    numeric is one that cannot be coerced. *)
Lemma loop_inv_fixed (df0 : DataFrame) (l : list string)
    (st : DataFrame * (list string * list string)) (c : string) :
  loop_inv str_to_numeric df0 l st -> c ∈ l ->
  is_object st.1 c = true ->
  coercible st.1 c = false /\ median_fails st.1 c = true.
Proof.
  intros Hinv Hc Hobj.
  pose proof Hinv as (_ & _ & _ & Hmem & Hco & Hun & _).
  assert (Hcase : c ∉ st.2.2 \/ coercible df0 c = false).
  { destruct (decide (c ∈ st.2.2)) as [Hin|]; [|by left]. right.
    destruct (coercible df0 c) eqn:Hcc; [|done].
    destruct (Hco c Hin Hcc) as [_ (t & Ht & Hn)].
    unfold is_object in Hobj. rewrite Ht, Hn in Hobj. done. }
  destruct (Hun c Hcase) as [Hcells Hd].
  assert (Hobj0 : is_object df0 c = true) by by rewrite <- (is_object_same _ _ _ Hd).
  assert (Hcc : coercible df0 c = false).
  { destruct Hcase as [Hout|]; [|done]. exfalso. apply Hout, Hmem. by split. }
  split; [by rewrite (coercible_same _ _ _ Hcells)|].
  by apply (median_fails_after df0 l st c Hinv Hc).
Qed.

End SecondLoop.

(** An object column with an integer that no float can hold: the
    coercion raises inside the [try], the column is left as it is (its
    text is not turned into NaN), and the call ends with the
    exception of the median instead of a report. *)
Lemma C10_uncoerced_column_counterexample :
  let out := validate_dataframe Sample.read_numeric Sample.no_median
               Sample2.median_overflow Sample2.df_overflow ["Pb"; "Cd"] in
  column_dtype Sample2.df_overflow "Pb" = Some object_
  /\ df_column Sample2.df_overflow "Pb" = [VInt (10 ^ 400); VStr "n/a"]
  /\ Sample.read_numeric "n/a" = None
  /\ out.1 = Sample2.df_overflow
  /\ column_dtype out.1 "Pb" = Some object_
  /\ df_column out.1 "Pb" = [VInt (10 ^ 400); VStr "n/a"]
  /\ out.2 = Raise OverflowError.
Proof. vm_compute. repeat split. Qed.

(** C10 (amended). [validate_dataframe] changes the caller's table:
    in a table with distinct column labels, every required metal
    column that is present with a non-numeric dtype and that
    [pd.to_numeric] can coerce (it holds no integer beyond the range
    of a float) is overwritten by its numeric coercion, so its
    non-coercible entries are NaN after the call; the column name is
    in the ["non_numeric"] list of the report that is returned, and a
    report is returned when every required column can be coerced. *)
Theorem C10_validate_coerces_in_place
    (str_to_numeric : string -> option pyval) (abs_median : list pyval -> float)
    (median_error : list pyval -> exn)
    (df : DataFrame) (required_metal_columns : list string)
    (col : string) (t : dtype) :
  NoDup (dict_keys (df_columns df)) ->
  col ∈ required_metal_columns ->
  column_dtype df col = Some t ->
  is_numeric_dtype t = false ->
  coercible df col = true ->
  let out := validate_dataframe str_to_numeric abs_median median_error df
               required_metal_columns in
  df_column out.1 col = to_numeric_cell str_to_numeric <$> df_column df col
  /\ (forall i s,
        df_column df col !! i = Some (VStr s) -> str_to_numeric s = None ->
        df_column out.1 col !! i = Some (VFloat F64.nan))
  /\ (forall i, df_column df col !! i = Some VNone ->
                df_column out.1 col !! i = Some (VFloat F64.nan))
  /\ (exists t', column_dtype out.1 col = Some t' /\ is_numeric_dtype t' = true)
  /\ length (df_rows out.1) = length (df_rows df)
  /\ (forall valid report, out.2 = Ok (valid, report) -> col ∈ non_numeric report)
  /\ (all_coercible df required_metal_columns -> succeeds out.2).
Proof.
  intros _ Hcol Ht Hnum Hcc out.
  destruct (validate_dataframe_returns str_to_numeric abs_median median_error
              df required_metal_columns) as (H1 & H2 & H3).
  fold out in H1, H2, H3.
  pose proof (loop_inv_fold str_to_numeric df required_metal_columns)
    as (Hidx & _ & _ & Hmem & Hco & _ & _).
  destruct (foldl (validate_step str_to_numeric) (df, ([], [])) required_metal_columns)
    as [df' [missing nonnum]].
  cbn [fst snd] in *. rewrite H1.
  assert (Hobj : is_object df col = true).
  { apply is_object_dtype. by exists t. }
  assert (Hin : col ∈ nonnum) by by apply Hmem.
  destruct (Hco col Hin Hcc) as [Hcells Hd].
  split; [done|]. split; [|split; [|split; [done|split; [|split]]]].
  - intros i s Hi Hs. rewrite Hcells, list_lookup_fmap, Hi. cbn. by rewrite Hs.
  - intros i Hi. by rewrite Hcells, list_lookup_fmap, Hi.
  - unfold df_index in Hidx.
    by rewrite <- (length_fmap fst (df_rows df')), Hidx, length_fmap.
  - intros valid report Hret.
    assert (Hs : succeeds out.2) by by rewrite Hret.
    apply H3 in Hs. rewrite (H2 Hs) in Hret. by injection Hret as _ <-.
  - apply H3.
Qed.

Lemma C10_validate_coerces_in_place_witness :
  let out := validate_dataframe Sample.read_numeric Sample.no_median
               Sample2.median_overflow Sample.df_text ["Pb"; "Cd"] in
  df_column out.1 "Pb"
  = to_numeric_cell Sample.read_numeric <$> df_column Sample.df_text "Pb"
  /\ (forall i s,
        df_column Sample.df_text "Pb" !! i = Some (VStr s) ->
        Sample.read_numeric s = None ->
        df_column out.1 "Pb" !! i = Some (VFloat F64.nan))
  /\ (forall i, df_column Sample.df_text "Pb" !! i = Some VNone ->
                df_column out.1 "Pb" !! i = Some (VFloat F64.nan))
  /\ (exists t', column_dtype out.1 "Pb" = Some t' /\ is_numeric_dtype t' = true)
  /\ length (df_rows out.1) = length (df_rows Sample.df_text)
  /\ (forall valid report, out.2 = Ok (valid, report) -> "Pb" ∈ non_numeric report)
  /\ (all_coercible Sample.df_text ["Pb"; "Cd"] -> succeeds out.2).
Proof.
  apply (C10_validate_coerces_in_place Sample.read_numeric Sample.no_median
           Sample2.median_overflow Sample.df_text ["Pb"; "Cd"] "Pb" object_).
  - apply (bool_decide_unpack _). vm_compute. exact I.
  - repeat constructor.
  - reflexivity.
  - reflexivity.
  - reflexivity.
Defined.

Example validate_df_text :
  let out := validate_dataframe Sample.read_numeric Sample.no_median
               Sample2.median_overflow Sample.df_text ["Pb"; "Cd"] in
  df_column out.1 "Pb" = [VFloat (F64.dec 2 2); VFloat F64.nan]
  /\ df_column Sample.df_text "Pb" = [VStr "0.02"; VStr "n/a"]
  /\ exists report, out.2 = Ok (true, report)
                    /\ non_numeric report = ["Pb"]
                    /\ missing_columns report = [].
Proof. vm_compute. split; [done|]. split; [done|]. eexists. by split. Qed.

(** X3. When [validate_dataframe] returns, and what it then says of
    the columns, for a table with distinct column labels.  The call
    returns exactly when every required column
    that needs a coercion can be coerced (no integer beyond the range
    of a float in it); otherwise it raises.  The report it returns
    lists as missing exactly the required columns that the table does
    not have, in the order (and with the repetitions) of the required
    list, the verdict is [True] exactly when every required column is
    present, and ["rows"] is the number of rows of the table. *)
Theorem X3_validate_missing_columns
    (str_to_numeric : string -> option pyval) (abs_median : list pyval -> float)
    (median_error : list pyval -> exn)
    (df : DataFrame) (required_metal_columns : list string) :
  NoDup (dict_keys (df_columns df)) ->
  let out := validate_dataframe str_to_numeric abs_median median_error df
               required_metal_columns in
  (succeeds out.2 <-> all_coercible df required_metal_columns)
  /\ forall valid report,
       out.2 = Ok (valid, report) ->
       missing_columns report
       = filter (fun c => c ∉ dict_keys (df_columns df)) required_metal_columns
       /\ (valid = true <->
           forall c, c ∈ required_metal_columns -> c ∈ dict_keys (df_columns df))
       /\ rows report = length (df_rows df).
Proof.
  intros _ out.
  destruct (validate_dataframe_returns str_to_numeric abs_median median_error
              df required_metal_columns) as (_ & H2 & H3).
  fold out in H2, H3. split; [done|].
  intros valid report Hret.
  assert (Hs : succeeds out.2) by by rewrite Hret.
  apply H3 in Hs. rewrite (H2 Hs) in Hret. injection Hret as <- <-.
  pose proof (loop_inv_fold str_to_numeric df required_metal_columns)
    as (_ & _ & Hmiss & _).
  destruct (foldl (validate_step str_to_numeric) (df, ([], [])) required_metal_columns)
    as [df' [missing nonnum]].
  cbn [fst snd missing_columns rows] in *. split; [done|]. split; [|done].
  rewrite bool_decide_eq_true, length_zero_iff_nil, Hmiss, filter_nil_Forall,
    Forall_forall.
  split; intros H c Hc.
  - specialize (H c Hc).
    destruct (decide (c ∈ dict_keys (df_columns df))); [done|]. by destruct H.
  - intros Hn. by apply Hn, H.
Qed.

Lemma X3_validate_missing_columns_witness :
  let out := validate_dataframe Sample.read_numeric Sample.no_median
               Sample2.median_overflow Sample2.df_overflow ["Pb"; "Zn"] in
  (succeeds out.2 <-> all_coercible Sample2.df_overflow ["Pb"; "Zn"])
  /\ forall valid report,
       out.2 = Ok (valid, report) ->
       missing_columns report
       = filter (fun c => c ∉ dict_keys (df_columns Sample2.df_overflow)) ["Pb"; "Zn"]
       /\ (valid = true <->
           forall c, c ∈ ["Pb"; "Zn"] -> c ∈ dict_keys (df_columns Sample2.df_overflow))
       /\ rows report = length (df_rows Sample2.df_overflow).
Proof.
  apply (X3_validate_missing_columns Sample.read_numeric Sample.no_median
           Sample2.median_overflow Sample2.df_overflow ["Pb"; "Zn"]).
  apply (bool_decide_unpack _). vm_compute. exact I.
Defined.

(** X4. In a table with distinct column labels, when every required
    column can be coerced, the
    ["non_numeric"] list of the report has no repetition and holds
    exactly the required columns that the table has with a non-numeric
    dtype: a column that is absent, numeric, or not required is never
    recorded. *)
Theorem X4_validate_non_numeric
    (str_to_numeric : string -> option pyval) (abs_median : list pyval -> float)
    (median_error : list pyval -> exn)
    (df : DataFrame) (required_metal_columns : list string) :
  NoDup (dict_keys (df_columns df)) ->
  all_coercible df required_metal_columns ->
  exists valid report,
    (validate_dataframe str_to_numeric abs_median median_error df
       required_metal_columns).2 = Ok (valid, report)
    /\ NoDup (non_numeric report)
    /\ forall c, c ∈ non_numeric report <->
                 c ∈ required_metal_columns
                 /\ exists t, column_dtype df c = Some t
                              /\ is_numeric_dtype t = false.
Proof.
  intros _ Hall.
  destruct (validate_dataframe_returns str_to_numeric abs_median median_error
              df required_metal_columns) as (_ & H2 & _).
  eexists _, _. split; [by apply H2|].
  pose proof (loop_inv_fold str_to_numeric df required_metal_columns)
    as (_ & _ & _ & Hmem & _ & _ & Hnd).
  destruct (foldl (validate_step str_to_numeric) (df, ([], [])) required_metal_columns)
    as [df' [missing nonnum]].
  cbn [fst snd non_numeric] in *. split; [by apply Hnd|].
  intros c. by rewrite Hmem, is_object_dtype.
Qed.

Lemma X4_validate_non_numeric_witness :
  exists valid report,
    (validate_dataframe Sample.read_numeric Sample.no_median Sample2.median_overflow
       Sample.df_text ["Pb"; "Cd"]).2 = Ok (valid, report)
    /\ NoDup (non_numeric report)
    /\ forall c, c ∈ non_numeric report <->
                 c ∈ ["Pb"; "Cd"]
                 /\ exists t, column_dtype Sample.df_text c = Some t
                              /\ is_numeric_dtype t = false.
Proof.
  apply (X4_validate_non_numeric Sample.read_numeric Sample.no_median
           Sample2.median_overflow Sample.df_text ["Pb"; "Cd"]).
  { apply (bool_decide_unpack _). vm_compute. exact I. }
  intros c Hc _.
  apply elem_of_cons in Hc as [->|Hc]; [reflexivity|].
  apply elem_of_cons in Hc as [->|Hc]; [reflexivity|].
  by apply elem_of_nil in Hc.
Defined.

(** X5. Apart from the coerced columns, [validate_dataframe] leaves the
    caller's table as it was: the index and the column names (and
    their order) are unchanged, and every column that is not required,
    or whose dtype is already numeric, keeps its cells and its dtype. *)
Theorem X5_validate_frame
    (str_to_numeric : string -> option pyval) (abs_median : list pyval -> float)
    (median_error : list pyval -> exn)
    (df : DataFrame) (required_metal_columns : list string) :
  let out := validate_dataframe str_to_numeric abs_median median_error df
               required_metal_columns in
  df_index out.1 = df_index df
  /\ dict_keys (df_columns out.1) = dict_keys (df_columns df)
  /\ forall c,
       (c ∉ required_metal_columns
        \/ forall t, column_dtype df c = Some t -> is_numeric_dtype t = true) ->
       df_column out.1 c = df_column df c
       /\ column_dtype out.1 c = column_dtype df c.
Proof.
  intros out.
  destruct (validate_dataframe_returns str_to_numeric abs_median median_error
              df required_metal_columns) as (H1 & _ & _).
  fold out in H1. rewrite H1.
  pose proof (loop_inv_fold str_to_numeric df required_metal_columns)
    as (Hidx & Hkeys & _ & Hmem & _ & Hun & _).
  destruct (foldl (validate_step str_to_numeric) (df, ([], [])) required_metal_columns)
    as [df' [missing nonnum]].
  cbn [fst snd] in *.
  split; [done|]. split; [done|]. intros c Hc. apply Hun. left.
  intros Hin. apply Hmem in Hin as [Hreq (t & Ht & Hn)%is_object_dtype].
  destruct Hc as [Hc|Hc]; [done|]. specialize (Hc t Ht). congruence.
Qed.

(** X6. Validating a second time changes nothing, in a table with
    distinct column labels: the table stays as the first call left
    it, the second call returns exactly when the
    first did, and then no column is reported as non-numeric any more
    while the verdict and every other entry of the report are those of
    the first call. *)
Theorem X6_validate_twice
    (str_to_numeric : string -> option pyval) (abs_median : list pyval -> float)
    (median_error : list pyval -> exn)
    (df : DataFrame) (required_metal_columns : list string) :
  NoDup (dict_keys (df_columns df)) ->
  let out := validate_dataframe str_to_numeric abs_median median_error df
               required_metal_columns in
  let again := validate_dataframe str_to_numeric abs_median median_error out.1
                 required_metal_columns in
  again.1 = out.1
  /\ (succeeds again.2 <-> succeeds out.2)
  /\ forall valid report valid' report',
       out.2 = Ok (valid, report) -> again.2 = Ok (valid', report') ->
       non_numeric report' = []
       /\ valid' = valid
       /\ missing_columns report' = missing_columns report
       /\ missing_coords report' = missing_coords report
       /\ rows report' = rows report
       /\ median_magnitude report' = median_magnitude report.
Proof.
  intros _ out again. subst again out. unfold validate_dataframe.
  pose proof (loop_inv_fold str_to_numeric df required_metal_columns) as Hinv.
  destruct (foldl (validate_step str_to_numeric) (df, ([], [])) required_metal_columns)
    as [df' [missing nonnum]].
  assert (Hfix : forall c, c ∈ required_metal_columns -> is_object df' c = true ->
                           coercible df' c = false).
  { intros c Hc Hobj.
    by destruct (loop_inv_fixed str_to_numeric df required_metal_columns _ c
                   Hinv Hc Hobj). }
  pose proof (fun c => loop_inv_fixed str_to_numeric df required_metal_columns
                         (df', (missing, nonnum)) c Hinv) as Hfails.
  cbn [fst snd] in Hfails.
  destruct Hinv as (Hidx & Hkeys & Hmiss & _). cbn [fst snd] in *.
  rewrite (foldl_validate_fixed str_to_numeric df' _ Hfix [] []).
  cbn [app fst snd]. rewrite Hkeys, <- Hmiss.
  pose proof (magnitude_loop abs_median median_error df' required_metal_columns [])
    as Hloop.
  assert (Hrows : length (df_rows df') = length (df_rows df)).
  { unfold df_index in Hidx.
    by rewrite <- (length_fmap fst (df_rows df')), Hidx, length_fmap. }
  split; [done|].
  destruct (existsb (median_fails df') required_metal_columns) eqn:Hex.
  - destruct Hloop as [e ->]. cbn. split; [done|]. by intros ? ? ? ? [=].
  - rewrite Hloop. cbn. split; [done|].
    intros valid report valid' report' [= <- <-] [= <- <-].
    cbn [non_numeric missing_columns missing_coords rows median_magnitude].
    split; [|by rewrite Hrows].
    apply filter_nil_Forall, Forall_forall. intros c Hc Hobj.
    destruct (Hfails c Hc Hobj) as [_ Hf].
    rewrite existsb_false in Hex. rewrite (Hex c Hc) in Hf. done.
Qed.

Lemma X6_validate_twice_witness :
  let out := validate_dataframe Sample.read_numeric Sample.no_median
               Sample2.median_overflow Sample.df_text ["Pb"; "Cd"] in
  let again := validate_dataframe Sample.read_numeric Sample.no_median
                 Sample2.median_overflow out.1 ["Pb"; "Cd"] in
  again.1 = out.1
  /\ (succeeds again.2 <-> succeeds out.2)
  /\ forall valid report valid' report',
       out.2 = Ok (valid, report) -> again.2 = Ok (valid', report') ->
       non_numeric report' = []
       /\ valid' = valid
       /\ missing_columns report' = missing_columns report
       /\ missing_coords report' = missing_coords report
       /\ rows report' = rows report
       /\ median_magnitude report' = median_magnitude report.
Proof.
  apply (X6_validate_twice Sample.read_numeric Sample.no_median
           Sample2.median_overflow Sample.df_text ["Pb"; "Cd"]).
  apply (bool_decide_unpack _). vm_compute. exact I.
Defined.

Section ValidateThenCompute.

Variable str_to_float : string -> option float.
Variable str_to_numeric : string -> option pyval.

(** A coerced cell is read by [_safe_get] as the original one when
    the two parsers agree on its text. *)
Lemma safe_get_coerced (row row' : Row) (m : string) :
  default VNone (row' !! m)
  = to_numeric_cell str_to_numeric (default VNone (row !! m)) ->
  (forall s, row !! m = Some (VStr s) ->
             parsers_agree_on str_to_float str_to_numeric s) ->
  _safe_get str_to_float row' m = _safe_get str_to_float row m.
Proof.
  intros Hcell Hagree. unfold _safe_get. rewrite Hcell.
  destruct (row !! m) as [[| | | |s]|] eqn:Hm; try done.
  specialize (Hagree s eq_refl). unfold parsers_agree_on in Hagree.
  cbn [from_option id to_numeric_cell pd_isna py_float].
  destruct (str_to_float s) as [f|].
  - destruct Hagree as (v & -> & Hna & Hf). by rewrite Hna, Hf.
  - destruct (str_to_numeric s) as [v|]; [|done].
    by rewrite (Hagree v eq_refl).
Qed.

Lemma df_column_lookup (df : DataFrame) (c : string) (i : nat) (r : Label * Row) :
  df_rows df !! i = Some r ->
  df_column df c !! i = Some (default VNone (r.2 !! c)).
Proof. intros Hr. unfold df_column. by rewrite list_lookup_fmap, Hr. Qed.

End ValidateThenCompute.

Section ValidateThenCompute2.

Variable str_to_float : string -> option float.
Variable str_to_numeric : string -> option pyval.

Lemma validated_rows_read_alike (df : DataFrame) (l : list string)
    (st : DataFrame * (list string * list string)) (limits : dict pyval) :
  loop_inv str_to_numeric df l st ->
  (forall (r : Label * Row) m s,
     r ∈ df_rows df -> m ∈ dict_keys limits -> r.2 !! m = Some (VStr s) ->
     parsers_agree_on str_to_float str_to_numeric s) ->
  Forall2 (fun r' r : Label * Row =>
             r'.1 = r.1 /\ same_reads str_to_float limits r'.2 r.2)
    (df_rows st.1) (df_rows df).
Proof.
  intros (Hidx & _ & _ & _ & Hco & Hun & _) Hagree.
  apply Forall2_same_length_lookup_2.
  { unfold df_index in Hidx.
    by rewrite <- (length_fmap fst (df_rows st.1)), Hidx, length_fmap. }
  intros i r' r Hr' Hr. split.
  - assert (Hi : df_index st.1 !! i = df_index df !! i) by by rewrite Hidx.
    unfold df_index in Hi. rewrite !list_lookup_fmap, Hr, Hr' in Hi.
    by injection Hi.
  - intros m Hm.
    destruct (decide (m ∈ st.2.2 /\ coercible df m = true)) as [[Hin Hcc]|Hout].
    + destruct (Hco m Hin Hcc) as [Hcells _].
      apply (safe_get_coerced str_to_float str_to_numeric).
      * assert (Hi : df_column st.1 m !! i
                     = (to_numeric_cell str_to_numeric <$> df_column df m) !! i)
          by by rewrite Hcells.
        rewrite list_lookup_fmap, (df_column_lookup _ _ _ _ Hr),
          (df_column_lookup _ _ _ _ Hr') in Hi.
        by injection Hi.
      * intros s Hs. apply (Hagree r m s); [|done..].
        by eapply list_elem_of_lookup_2.
    + assert (Hcase : m ∉ st.2.2 \/ coercible df m = false).
      { destruct (decide (m ∈ st.2.2)) as [Hin|]; [|by left]. right.
        destruct (coercible df m); [|done]. exfalso. by apply Hout. }
      destruct (Hun m Hcase) as [Hcells _].
      assert (Hi : df_column st.1 m !! i = df_column df m !! i) by by rewrite Hcells.
      rewrite (df_column_lookup _ _ _ _ Hr), (df_column_lookup _ _ _ _ Hr') in Hi.
      unfold _safe_get. injection Hi as Hi. by rewrite Hi.
Qed.

End ValidateThenCompute2.

(** X7. Validation does not change the indices.  If, on every text
    cell of a metal column, pandas' numeric parser and the builtin
    [float] agree (both reject the text, or both read the same number
    other than NaN), then the three index functions give on the table
    coerced by [validate_dataframe] what they give on the table as it
    was uploaded. *)
Theorem X7_validation_preserves_indices
    (str_to_float : string -> option float)
    (str_to_numeric : string -> option pyval) (abs_median : list pyval -> float)
    (median_error : list pyval -> exn)
    (df : DataFrame) (required_metal_columns : list string)
    (limits : dict pyval) (weight_scheme : string) :
  (forall (r : Label * Row) m s,
     r ∈ df_rows df -> m ∈ dict_keys limits -> r.2 !! m = Some (VStr s) ->
     parsers_agree_on str_to_float str_to_numeric s) ->
  let out := validate_dataframe str_to_numeric abs_median median_error df
               required_metal_columns in
  calculate_hmpi str_to_float out.1 limits weight_scheme
  = calculate_hmpi str_to_float df limits weight_scheme
  /\ calculate_mci str_to_float out.1 limits = calculate_mci str_to_float df limits
  /\ calculate_pi_table str_to_float out.1 limits
     = calculate_pi_table str_to_float df limits.
Proof.
  intros Hagree out. apply calculate_reads.
  unfold out, validate_dataframe.
  pose proof (loop_inv_fold str_to_numeric df required_metal_columns) as H.
  destruct (foldl (validate_step str_to_numeric) (df, ([], [])) required_metal_columns)
    as [df' [missing nonnum]].
  cbn [fst].
  by apply (validated_rows_read_alike str_to_float str_to_numeric df
              required_metal_columns (df', (missing, nonnum)) limits).
Qed.

Lemma X7_validation_preserves_indices_witness :
  let out := validate_dataframe Sample.read_numeric Sample.no_median
               Sample2.median_overflow Sample.df_text ["Pb"; "Cd"] in
  calculate_hmpi Sample.read_text out.1 Sample.limits "1/Si"
  = calculate_hmpi Sample.read_text Sample.df_text Sample.limits "1/Si"
  /\ calculate_mci Sample.read_text out.1 Sample.limits
     = calculate_mci Sample.read_text Sample.df_text Sample.limits
  /\ calculate_pi_table Sample.read_text out.1 Sample.limits
     = calculate_pi_table Sample.read_text Sample.df_text Sample.limits.
Proof.
  apply (X7_validation_preserves_indices Sample.read_text Sample.read_numeric
           Sample.no_median Sample2.median_overflow Sample.df_text ["Pb"; "Cd"] Sample.limits "1/Si").
  intros r m s _ _ _. unfold parsers_agree_on, Sample.read_numeric.
  destruct (Sample.read_text s) as [f|] eqn:Hs; simpl.
  - exists (VFloat f). split; [done|]. split; [|done].
    unfold Sample.read_text in Hs. destruct (String.eqb s "0.02"); [|done].
    by injection Hs as <-.
  - done.
Defined.

(** The two parsers do not agree on the text ["nan"]: [float] reads a
    NaN, which the loops use, and the coerced cell is a missing value,
    which they skip.  On the row [Pb="nan", Cd=0.006] the HMPI is NaN
    before the validation and a number after it. *)
Example validation_changes_nan_text :
  let df := mkDataFrame [("Pb", object_); ("Cd", float64)] [(0, Sample2.row_nan)] in
  let out := validate_dataframe (fun s => VFloat <$> Sample2.read_nan s)
               Sample.no_median Sample2.median_overflow df ["Pb"; "Cd"] in
  calculate_hmpi Sample2.read_nan df Sample.limits "1/Si"
  = Ok (mkSeries "HMPI" [0] [F64.nan])
  /\ exists v, calculate_hmpi Sample2.read_nan out.1 Sample.limits "1/Si"
               = Ok (mkSeries "HMPI" [0] [v])
               /\ F64.is_nan v = false.
Proof. vm_compute. split; [reflexivity|]. eexists. split; reflexivity. Qed.


(** ** Thresholds: classes, colours and counts *)

Section Thresholds.

(** A threshold [c], positive and finite. *)
Variables (M : positive) (E : Z).
Let c : float := S754_finite false M E.

Lemma leb_threshold (v : float) :
  F64.leb c v = negb (F64.is_nan v) && negb (F64.ltb v c).
Proof.
  unfold c. destruct v as [[]|[]| |[] m e]; try reflexivity.
  rewrite leb_finite_pos, ltb_finite_pos. cbn [F64.is_nan negb andb].
  decide_orders; reflexivity.
Qed.

Lemma le_lt_threshold (a b : float) :
  F64.leb a b = true -> F64.ltb b c = true -> F64.ltb a c = true.
Proof.
  unfold c.
  destruct a as [[]|[]| |[] m e]; try reflexivity; try discriminate;
    destruct b as [[]|[]| |[] m' e']; try reflexivity; try discriminate.
  rewrite leb_finite_pos, !ltb_finite_pos.
  decide_orders; cbn; try done; lia.
Qed.

Lemma leb_not_nan (a b : float) :
  F64.leb a b = true -> F64.is_nan a = false /\ F64.is_nan b = false.
Proof.
  destruct a as [[]|[]| |[] m e]; try discriminate;
    destruct b as [[]|[]| |[] m' e']; try discriminate; done.
Qed.

Lemma ltb_threshold_up (E' : Z) (v : float) :
  E <= E' -> F64.ltb v c = true -> F64.ltb v (S754_finite false M E') = true.
Proof.
  unfold c. intros HE.
  destruct v as [[]|[]| |[] m e]; try reflexivity; try discriminate.
  rewrite !ltb_finite_pos. decide_orders; cbn; try done; lia.
Qed.

End Thresholds.

Ltac label_cases :=
  rewrite ?elem_of_cons, ?elem_of_nil;
  intuition (try discriminate; try congruence).

Lemma categorize_hmpi_cascade (v : float) :
  categorize_hmpi v
  = if F64.is_nan v then "Unknown"
    else if F64.ltb v (F64.of_Z 50) then "Safe"
    else if F64.ltb v (F64.of_Z 100) then "Low Pollution"
    else if F64.ltb v (F64.of_Z 200) then "High Pollution"
    else "Very High Pollution".
Proof.
  unfold categorize_hmpi. cbn [pd_isna].
  destruct of_Z_thresholds as (-> & -> & -> & _).
  rewrite !leb_threshold.
  destruct (F64.is_nan v); [done|].
  repeat match goal with
         | |- context [F64.ltb v ?c] => destruct (F64.ltb v c) eqn:?; cbn; try done
         end.
Qed.

Lemma categorize_mci_cascade (v : float) :
  categorize_mci v
  = if F64.is_nan v then "Unknown"
    else if F64.ltb v (F64.of_Z 1) then "Safe"
    else if F64.ltb v (F64.of_Z 2) then "Alert"
    else if F64.ltb v (F64.of_Z 6) then "Moderately Affected"
    else "Seriously Affected".
Proof.
  unfold categorize_mci. cbn [pd_isna].
  destruct of_Z_thresholds as (_ & _ & _ & -> & -> & ->).
  rewrite !leb_threshold.
  destruct (F64.is_nan v); [done|].
  repeat match goal with
         | |- context [F64.ltb v ?c] => destruct (F64.ltb v c) eqn:?; cbn; try done
         end.
Qed.

(** X8. The colour of a sample on the map follows its HMPI category:
    [palette] gives gray exactly on ["Unknown"], green on ["Safe"],
    orange on ["Low Pollution"], red on ["High Pollution"] and darkred
    on ["Very High Pollution"]. *)
Theorem X8_palette_matches_category (v : float) :
  (palette v = "gray" <-> categorize_hmpi v = "Unknown")
  /\ (palette v = "green" <-> categorize_hmpi v = "Safe")
  /\ (palette v = "orange" <-> categorize_hmpi v = "Low Pollution")
  /\ (palette v = "red" <-> categorize_hmpi v = "High Pollution")
  /\ (palette v = "darkred" <-> categorize_hmpi v = "Very High Pollution").
Proof.
  rewrite categorize_hmpi_cascade. unfold palette. cbn [pd_isna].
  destruct (F64.is_nan v); [by repeat split|].
  destruct (F64.ltb v (F64.of_Z 50)); [by repeat split|].
  destruct (F64.ltb v (F64.of_Z 100)); [by repeat split|].
  destruct (F64.ltb v (F64.of_Z 200)); by repeat split.
Qed.

Lemma polluted_iff (v : float) :
  F64.leb (F64.of_Z 100) v = true
  <-> categorize_hmpi v ∈ ["High Pollution"; "Very High Pollution"].
Proof.
  rewrite categorize_hmpi_cascade.
  destruct of_Z_thresholds as (H50 & H100 & _).
  rewrite H100, leb_threshold, <- H100.
  destruct (F64.is_nan v); cbn [negb andb]; [label_cases|].
  destruct (F64.ltb v (F64.of_Z 50)) eqn:H1.
  - assert (F64.ltb v (F64.of_Z 100) = true) as ->.
    { rewrite H50 in H1. rewrite H100.
      by apply (ltb_threshold_up _ (-47) (-46)). }
    cbn [negb]. label_cases.
  - destruct (F64.ltb v (F64.of_Z 100)); cbn [negb]; [label_cases|].
    destruct (F64.ltb v (F64.of_Z 200)); label_cases.
Qed.

(** X9. The two figures of the dashboard: [polluted_count] is the
    number of samples classified ["High Pollution"] or ["Very High
    Pollution"]; [safe_count] is the number of all the others, that
    is of the samples classified ["Safe"], ["Low Pollution"] and also
    ["Unknown"] (no HMPI); the two add up to the number of samples. *)
Theorem X9_dashboard_counts (hmpi : list float) :
  polluted_count hmpi
  = length (filter (fun v => categorize_hmpi v
                             ∈ ["High Pollution"; "Very High Pollution"]) hmpi)
  /\ safe_count hmpi
     = length (filter (fun v => categorize_hmpi v
                                ∈ ["Unknown"; "Safe"; "Low Pollution"]) hmpi)
  /\ (polluted_count hmpi + safe_count hmpi = length hmpi)%nat.
Proof.
  unfold safe_count, polluted_count.
  induction hmpi as [|v l (IH1 & IH2 & IH3)]; [done|].
  pose proof (length_filter (fun v => F64.leb (F64.of_Z 100) v = true) l) as Hle.
  destruct (decide (F64.leb (F64.of_Z 100) v = true)) as [Hv|Hv].
  - rewrite (filter_cons_True (fun v => F64.leb (F64.of_Z 100) v = true)) by done.
    pose proof (proj1 (polluted_iff v) Hv) as Hc.
    rewrite (filter_cons_True _ v l Hc).
    rewrite filter_cons_False.
    2:{ intros Hs. revert Hc Hs. generalize (categorize_hmpi v). intros s.
        rewrite !elem_of_cons, !elem_of_nil.
        intros [->|[->|[]]] [Hs|[Hs|[Hs|[]]]]; discriminate. }
    cbn [length]. rewrite <- IH1, <- IH2. lia.
  - rewrite (filter_cons_False (fun v => F64.leb (F64.of_Z 100) v = true)) by done.
    assert (Hc : categorize_hmpi v ∉ ["High Pollution"; "Very High Pollution"]).
    { intros Hc. by apply Hv, polluted_iff. }
    rewrite (filter_cons_False _ v l Hc).
    rewrite filter_cons_True.
    2:{ clear -Hc. rewrite categorize_hmpi_cascade in *.
        repeat match goal with
               | |- context [if ?b then _ else _] => destruct b
               end; revert Hc; label_cases. }
    cbn [length]. rewrite <- IH1, <- IH2. lia.
Qed.

Lemma hmpi_level_cascade (v : float) :
  hmpi_level (categorize_hmpi v)
  = if F64.is_nan v then 0%nat
    else if F64.ltb v (F64.of_Z 50) then 0%nat
    else if F64.ltb v (F64.of_Z 100) then 1%nat
    else if F64.ltb v (F64.of_Z 200) then 2%nat else 3%nat.
Proof.
  rewrite categorize_hmpi_cascade.
  repeat match goal with
         | |- context [if ?b then _ else _] => destruct b; try reflexivity
         end.
Qed.

Lemma mci_level_cascade (v : float) :
  mci_level (categorize_mci v)
  = if F64.is_nan v then 0%nat
    else if F64.ltb v (F64.of_Z 1) then 0%nat
    else if F64.ltb v (F64.of_Z 2) then 1%nat
    else if F64.ltb v (F64.of_Z 6) then 2%nat else 3%nat.
Proof.
  rewrite categorize_mci_cascade.
  repeat match goal with
         | |- context [if ?b then _ else _] => destruct b; try reflexivity
         end.
Qed.

(** X10. The classifiers are monotone: a larger index value never
    gets a lower class.  With the classes numbered in the order
    Safe, Low/Alert, High/Moderately, Very High/Seriously, [a <= b]
    implies that the class of [a] is at most the class of [b], for
    HMPI and for MCI. *)
Theorem X10_classifiers_monotone (a b : float) :
  F64.leb a b = true ->
  (hmpi_level (categorize_hmpi a) <= hmpi_level (categorize_hmpi b))%nat
  /\ (mci_level (categorize_mci a) <= mci_level (categorize_mci b))%nat.
Proof.
  intros Hab. rewrite !hmpi_level_cascade, !mci_level_cascade.
  destruct (leb_not_nan a b Hab) as [-> ->].
  destruct of_Z_thresholds as (-> & -> & -> & -> & -> & ->).
  split.
  - repeat match goal with
           | |- context [F64.ltb b (S754_finite false ?M ?E)] =>
               let H := fresh in
               destruct (F64.ltb b (S754_finite false M E)) eqn:H;
               [rewrite (le_lt_threshold M E a b Hab H)|]
           end; try lia;
    repeat match goal with
           | |- context [if ?x then _ else _] => destruct x
           end; lia.
  - repeat match goal with
           | |- context [F64.ltb b (S754_finite false ?M ?E)] =>
               let H := fresh in
               destruct (F64.ltb b (S754_finite false M E)) eqn:H;
               [rewrite (le_lt_threshold M E a b Hab H)|]
           end; try lia;
    repeat match goal with
           | |- context [if ?x then _ else _] => destruct x
           end; lia.
Qed.

Lemma X10_classifiers_monotone_witness :
  (hmpi_level (categorize_hmpi (F64.of_Z 60))
   <= hmpi_level (categorize_hmpi (F64.of_Z 150)))%nat
  /\ (mci_level (categorize_mci (F64.of_Z 60))
      <= mci_level (categorize_mci (F64.of_Z 150)))%nat.
Proof.
  apply (X10_classifiers_monotone (F64.of_Z 60) (F64.of_Z 150)).
  vm_compute. reflexivity.
Defined.

(** ** When the index functions raise *)

Section Status.

Context {A B S : Type}.
Variable bad : A -> bool.
Variable P : exn -> Prop.

Lemma for_each_status (step : S -> A -> result S) (l : list A) :
  (forall x, x ∈ l -> forall a,
     if bad x then exists e, step a x = Raise e /\ P e
     else exists a', step a x = Ok a') ->
  forall a,
    if existsb bad l then exists e, for_each step l a = Raise e /\ P e
    else exists a', for_each step l a = Ok a'.
Proof.
  induction l as [|x l IH]; intros Hl a; cbn [existsb for_each]; [by eexists|].
  pose proof (Hl x (list_elem_of_here x l) a) as Hx.
  assert (Hl' : forall y, y ∈ l -> forall a,
             if bad y then exists e, step a y = Raise e /\ P e
             else exists a', step a y = Ok a').
  { intros y Hy. apply Hl. by right. }
  destruct (bad x); cbn [orb].
  - destruct Hx as (e & -> & He). by exists e.
  - destruct Hx as (a' & ->). apply (IH Hl' a').
Qed.

Lemma mapM_status (f : A -> result B) (l : list A) :
  (forall x, x ∈ l ->
     if bad x then exists e, f x = Raise e /\ P e else exists y, f x = Ok y) ->
  if existsb bad l then exists e, mapM f l = Raise e /\ P e
  else exists ys, mapM f l = Ok ys.
Proof.
  induction l as [|x l IH]; intros Hl; cbn [existsb mapM]; [by eexists|].
  pose proof (Hl x (list_elem_of_here x l)) as Hx.
  assert (Hl' : forall y, y ∈ l ->
             if bad y then exists e, f y = Raise e /\ P e else exists z, f y = Ok z).
  { intros y Hy. apply Hl. by right. }
  specialize (IH Hl').
  destruct (bad x); cbn [orb].
  - destruct Hx as (e & -> & He). by exists e.
  - destruct Hx as (y & ->). cbn.
    destruct (existsb bad l).
    + destruct IH as (e & -> & He). by exists e.
    + destruct IH as (ys & ->). by eexists.
Qed.

End Status.

Lemma status_succeeds {A} (P : exn -> Prop) (b : bool) (r : result A) :
  (if b then exists e, r = Raise e /\ P e else exists a, r = Ok a) ->
  (succeeds r <-> b = false) /\ (forall e, r = Raise e -> P e).
Proof.
  destruct b.
  - intros (e & -> & He). split; [done|]. by intros e' [= <-].
  - intros (a & ->). split; [done|]. done.
Qed.

(** A standard that is neither a number nor [None] passes the guard, and
    dividing by it raises. *)
Lemma unusable_standard (v : pyval) :
  number_or_none v = false ->
  skip_standard v = false
  /\ exists e, (forall x, float_truediv x v = Raise e) /\ type_or_overflow e.
Proof.
  unfold number_or_none, skip_standard, type_or_overflow.
  destruct v as [|b|z|f|s]; cbn; try discriminate.
  - unfold int_to_float. destruct (F64.is_inf (F64.of_Z z)) eqn:Hinf; [|done].
    intros _. split.
    + destruct (Z.eqb_spec z 0) as [->|]; [|done]. by vm_compute in Hinf.
    + exists OverflowError. split; [|by right]. done.
  - intros _. split; [done|]. exists TypeError. split; [done|by left].
Qed.

Section Failures.

Variable str_to_float : string -> option float.
Variable limits : dict pyval.

Lemma hmpi_step_status (ws : string) (row : Row) (acc : float * float)
    (m : string) (v : pyval) :
  dict_lookup limits m = Some v ->
  if fails_on str_to_float v row m
  then exists e, hmpi_step str_to_float limits ws row acc m = Raise e
                 /\ type_or_overflow e
  else exists a', hmpi_step str_to_float limits ws row acc m = Ok a'.
Proof.
  intros Hl. unfold fails_on.
  destruct (_safe_get str_to_float row m) as [Ci|] eqn:HCi.
  - destruct (number_or_none v) eqn:Hn; cbn [negb].
    + eexists. by eapply hmpi_step_ok.
    + destruct (unusable_standard v Hn) as (Hskip & e & He & HP).
      exists e. split; [|done].
      unfold hmpi_step, dict_get. rewrite Hl, HCi. cbn. rewrite Hskip. by rewrite (He Ci).
  - unfold hmpi_step, dict_get. rewrite Hl, HCi. cbn. by eexists.
Qed.

Lemma mci_step_status (row : Row) (acc : float * bool) (m : string) (v : pyval) :
  dict_lookup limits m = Some v ->
  if fails_on str_to_float v row m
  then exists e, mci_step str_to_float limits row acc m = Raise e
                 /\ type_or_overflow e
  else exists a', mci_step str_to_float limits row acc m = Ok a'.
Proof.
  intros Hl. unfold fails_on.
  destruct (_safe_get str_to_float row m) as [Ci|] eqn:HCi.
  - destruct (number_or_none v) eqn:Hn; cbn [negb].
    + eexists. by eapply mci_step_ok.
    + destruct (unusable_standard v Hn) as (Hskip & e & He & HP).
      exists e. split; [|done].
      unfold mci_step, dict_get. rewrite Hl, HCi. cbn. rewrite Hskip, He. done.
  - unfold mci_step, dict_get. rewrite Hl, HCi. cbn. by eexists.
Qed.

Lemma pi_cell_status (m : string) (Si : pyval) (row : Row) :
  if fails_on str_to_float Si row m
  then exists e, pi_cell str_to_float m Si row = Raise e /\ type_or_overflow e
  else exists y, pi_cell str_to_float m Si row = Ok y.
Proof.
  unfold fails_on, pi_cell.
  destruct (_safe_get str_to_float row m) as [Ci|] eqn:HCi; [|by eexists].
  destruct (number_or_none Si) eqn:Hn; cbn [negb].
  - pose proof (pi_cell_ok str_to_float row m Si Hn) as H.
    unfold pi_cell in H. rewrite HCi in H. by eexists.
  - destruct (unusable_standard Si Hn) as (Hskip & e & He & HP).
    rewrite Hskip, He. by exists e.
Qed.

Lemma hmpi_row_status (ws : string) (row : Row) :
  if existsb (row_fails str_to_float limits row) (dict_keys limits)
  then exists e, hmpi_row str_to_float limits ws row = Raise e /\ type_or_overflow e
  else exists y, hmpi_row str_to_float limits ws row = Ok y.
Proof.
  unfold hmpi_row.
  pose proof (for_each_status (row_fails str_to_float limits row) type_or_overflow
                (hmpi_step str_to_float limits ws row) (dict_keys limits)) as H.
  lapply H.
  2:{ intros m Hm a. unfold row_fails.
      destruct (dict_lookup_keys limits m Hm) as [v Hv]. rewrite Hv.
      by apply hmpi_step_status. }
  clear H. intros H. specialize (H (F64.zero, F64.zero)).
  destruct (existsb _ _).
  - destruct H as (e & -> & He). by exists e.
  - destruct H as ([q w] & ->). cbn.
    destruct (F64.ltb F64.zero w) eqn:Hw; [|by eexists].
    unfold float_div. rewrite (gt_zero_nonzero _ Hw). by eexists.
Qed.

Lemma row_mci_status (row : Row) :
  if existsb (row_fails str_to_float limits row) (dict_keys limits)
  then exists e, _row_mci str_to_float limits row = Raise e /\ type_or_overflow e
  else exists y, _row_mci str_to_float limits row = Ok y.
Proof.
  unfold _row_mci.
  pose proof (for_each_status (row_fails str_to_float limits row) type_or_overflow
                (mci_step str_to_float limits row) (dict_keys limits)) as H.
  lapply H.
  2:{ intros m Hm a. unfold row_fails.
      destruct (dict_lookup_keys limits m Hm) as [v Hv]. rewrite Hv.
      by apply mci_step_status. }
  clear H. intros H. specialize (H (F64.zero, false)).
  destruct (existsb _ _).
  - destruct H as (e & -> & He). by exists e.
  - destruct H as ([s any] & ->). cbn. by eexists.
Qed.


Lemma calculate_hmpi_status (df : DataFrame) (ws : string) :
  if existsb (fun ir : Label * Row =>
                existsb (row_fails str_to_float limits ir.2) (dict_keys limits))
       (df_rows df)
  then exists e, calculate_hmpi str_to_float df limits ws = Raise e
                 /\ type_or_overflow e
  else exists y, calculate_hmpi str_to_float df limits ws = Ok y.
Proof.
  unfold calculate_hmpi.
  pose proof (mapM_status
                (fun ir : Label * Row =>
                   existsb (row_fails str_to_float limits ir.2) (dict_keys limits))
                type_or_overflow
                (fun ir : Label * Row => hmpi_row str_to_float limits ws ir.2)
                (df_rows df)) as H.
  lapply H; [|intros ir _; apply hmpi_row_status].
  clear H. intros H. destruct (existsb _ _).
  - destruct H as (e & -> & He). by exists e.
  - destruct H as (ys & ->). by eexists.
Qed.

Lemma calculate_mci_status (df : DataFrame) :
  if existsb (fun ir : Label * Row =>
                existsb (row_fails str_to_float limits ir.2) (dict_keys limits))
       (df_rows df)
  then exists e, calculate_mci str_to_float df limits = Raise e
                 /\ type_or_overflow e
  else exists y, calculate_mci str_to_float df limits = Ok y.
Proof.
  unfold calculate_mci.
  pose proof (mapM_status
                (fun ir : Label * Row =>
                   existsb (row_fails str_to_float limits ir.2) (dict_keys limits))
                type_or_overflow
                (fun ir : Label * Row => _row_mci str_to_float limits ir.2)
                (df_rows df)) as H.
  lapply H; [|intros ir _; apply row_mci_status].
  clear H. intros H. destruct (existsb _ _).
  - destruct H as (e & -> & He). by exists e.
  - destruct H as (ys & ->). by eexists.
Qed.

Lemma calculate_pi_table_status (df : DataFrame) :
  if existsb (fun item : string * pyval =>
                existsb (fun ir : Label * Row =>
                           fails_on str_to_float item.2 ir.2 item.1) (df_rows df))
       limits
  then exists e, calculate_pi_table str_to_float df limits = Raise e
                 /\ type_or_overflow e
  else exists y, calculate_pi_table str_to_float df limits = Ok y.
Proof.
  unfold calculate_pi_table.
  pose proof (for_each_status
                (fun item : string * pyval =>
                   existsb (fun ir : Label * Row =>
                              fails_on str_to_float item.2 ir.2 item.1) (df_rows df))
                type_or_overflow (pi_step str_to_float df) limits) as H.
  lapply H.
  2:{ intros [m Si] _ pi. unfold pi_step. cbn [fst snd].
      pose proof (mapM_status
                    (fun ir : Label * Row => fails_on str_to_float Si ir.2 m)
                    type_or_overflow
                    (fun ir : Label * Row => pi_cell str_to_float m Si ir.2)
                    (df_rows df)) as Hc.
      lapply Hc; [|intros ir _; apply pi_cell_status].
      clear Hc. intros Hc. cbv beta. cbn [fst snd].
      destruct (existsb _ (df_rows df)).
      - destruct Hc as (e & -> & He). by exists e.
      - destruct Hc as (col & ->). by eexists. }
  clear H. intros H. specialize (H []). destruct (existsb _ _).
  - destruct H as (e & -> & He). by exists e.
  - destruct H as (pi & ->). by eexists.
Qed.

Lemma fails_on_false (v : pyval) (row : Row) (m : string) :
  fails_on str_to_float v row m = false
  <-> (number_or_none v = false -> _safe_get str_to_float row m = None).
Proof.
  unfold fails_on.
  destruct (_safe_get str_to_float row m) as [Ci|];
    destruct (number_or_none v); cbn [negb]; split; intros H; try done.
  by specialize (H eq_refl).
Qed.

Lemma row_fails_false (row : Row) :
  NoDup (dict_keys limits) ->
  (forall m, m ∈ dict_keys limits -> row_fails str_to_float limits row m = false)
  <-> (forall m v, (m, v) ∈ limits -> number_or_none v = false ->
                   _safe_get str_to_float row m = None).
Proof.
  intros Hnd. split.
  - intros H m v Hin. apply fails_on_false.
    assert (Hm : m ∈ dict_keys limits).
    { unfold dict_keys. apply list_elem_of_fmap. by exists (m, v). }
    specialize (H m Hm). unfold row_fails in H.
    by rewrite (dict_lookup_nodup limits m v Hnd Hin) in H.
  - intros H m Hm. unfold row_fails.
    destruct (dict_lookup limits m) as [v|] eqn:Hv; [|done].
    apply fails_on_false, (H m v). by apply dict_lookup_elem.
Qed.

End Failures.

(** ** Cells that are not scalars *)

Section WideFacts.

Variable str_to_float : string -> option float.

Lemma narrow_lookup (row : WRow) (m : string) :
  Wide.narrow row !! m
  = match row !! m with Some (Scalar v) => Some v | _ => None end.
Proof.
  unfold Wide.narrow. rewrite lookup_omap.
  by destruct (row !! m) as [[v|]|].
Qed.

Lemma narrow_widen (row : gmap string pyval) : Wide.narrow (Scalar <$> row) = row.
Proof.
  apply map_eq. intros m. rewrite narrow_lookup, lookup_fmap.
  by destruct (row !! m).
Qed.

(** On a scalar cell the two readers agree; on a cell with several
    elements the reader raises. *)
Lemma safe_get_scalar (row : WRow) (m : string) :
  Wide.array_at row m = false ->
  Wide._safe_get str_to_float row m
  = Ok (_safe_get str_to_float (Wide.narrow row) m).
Proof.
  unfold Wide.array_at, Wide._safe_get, _safe_get. rewrite narrow_lookup.
  destruct (row !! m) as [[v|]|]; try done.
  intros _. cbn. destruct (pd_isna v); [done|].
  by destruct (py_float str_to_float v).
Qed.

Lemma safe_get_array (row : WRow) (m : string) :
  Wide.array_at row m = true ->
  Wide._safe_get str_to_float row m = Raise ValueError.
Proof.
  unfold Wide.array_at, Wide._safe_get.
  by destruct (row !! m) as [[v|]|].
Qed.

Lemma hmpi_step_scalar (limits : dict pyval) (ws : string) (row : WRow)
    (acc : float * float) (m : string) :
  Wide.array_at row m = false ->
  Wide.hmpi_step str_to_float limits ws row acc m
  = hmpi_step str_to_float limits ws (Wide.narrow row) acc m.
Proof.
  intros H. unfold Wide.hmpi_step, hmpi_step. by rewrite (safe_get_scalar _ _ H).
Qed.

Lemma mci_step_scalar (limits : dict pyval) (row : WRow)
    (acc : float * bool) (m : string) :
  Wide.array_at row m = false ->
  Wide.mci_step str_to_float limits row acc m
  = mci_step str_to_float limits (Wide.narrow row) acc m.
Proof.
  intros H. unfold Wide.mci_step, mci_step. by rewrite (safe_get_scalar _ _ H).
Qed.

Lemma pi_cell_scalar (m : string) (Si : pyval) (row : WRow) :
  Wide.array_at row m = false ->
  Wide.pi_cell str_to_float m Si row = pi_cell str_to_float m Si (Wide.narrow row).
Proof.
  intros H. unfold Wide.pi_cell, pi_cell. by rewrite (safe_get_scalar _ _ H).
Qed.

(** A table of scalars gives what the scalar functions give. *)
Lemma hmpi_row_scalar (limits : dict pyval) (ws : string) (row : WRow) :
  (forall m, m ∈ dict_keys limits -> Wide.array_at row m = false) ->
  Wide.hmpi_row str_to_float limits ws row
  = hmpi_row str_to_float limits ws (Wide.narrow row).
Proof.
  intros H. unfold Wide.hmpi_row, hmpi_row.
  rewrite (for_each_ext _ (hmpi_step str_to_float limits ws (Wide.narrow row)));
    [done|].
  apply Forall_forall. intros m Hm acc. by apply hmpi_step_scalar, H.
Qed.

Lemma row_mci_scalar (limits : dict pyval) (row : WRow) :
  (forall m, m ∈ dict_keys limits -> Wide.array_at row m = false) ->
  Wide._row_mci str_to_float limits row
  = _row_mci str_to_float limits (Wide.narrow row).
Proof.
  intros H. unfold Wide._row_mci, _row_mci.
  rewrite (for_each_ext _ (mci_step str_to_float limits (Wide.narrow row)));
    [done|].
  apply Forall_forall. intros m Hm acc. by apply mci_step_scalar, H.
Qed.

Lemma widen_array_at (row : gmap string pyval) (m : string) :
  Wide.array_at (Scalar <$> row) m = false.
Proof. unfold Wide.array_at. rewrite lookup_fmap. by destruct (row !! m). Qed.

Lemma widen_index (df : DataFrame) : (Wide.widen df).*1 = df_index df.
Proof.
  unfold Wide.widen, df_index. rewrite <- list_fmap_compose.
  by apply list_fmap_ext.
Qed.

Lemma calculate_widen (df : DataFrame) (limits : dict pyval) (ws : string) :
  Wide.calculate_hmpi str_to_float (Wide.widen df) limits ws
  = calculate_hmpi str_to_float df limits ws
  /\ Wide.calculate_mci str_to_float (Wide.widen df) limits
     = calculate_mci str_to_float df limits
  /\ Wide.calculate_pi_table str_to_float (Wide.widen df) limits
     = calculate_pi_table str_to_float df limits.
Proof.
  unfold Wide.calculate_hmpi, calculate_hmpi, Wide.calculate_mci, calculate_mci,
    Wide.calculate_pi_table, calculate_pi_table.
  rewrite widen_index.
  assert (Hrows : forall (A : Type) (f : WRow -> result A)
                    (g : gmap string pyval -> result A),
             (forall row, f (Scalar <$> row) = g row) ->
             mapM (fun ir : Label * WRow => f ir.2) (Wide.widen df)
             = mapM (fun ir : Label * gmap string pyval => g ir.2) (df_rows df)).
  { intros A f g Hfg. apply mapM_ext2. unfold Wide.widen.
    apply Forall2_fmap_l, Forall_Forall2_diag, Forall_forall.
    intros ir _. cbn. apply Hfg. }
  split; [|split].
  - rewrite (Hrows _ _ (hmpi_row str_to_float limits ws)); [done|].
    intros row. rewrite hmpi_row_scalar, narrow_widen; [done|].
    intros m _. apply widen_array_at.
  - rewrite (Hrows _ _ (_row_mci str_to_float limits)); [done|].
    intros row. rewrite row_mci_scalar, narrow_widen; [done|].
    intros m _. apply widen_array_at.
  - f_equal. apply for_each_ext. apply Forall_forall. intros [m Si] _ pi.
    unfold Wide.pi_step, pi_step.
    rewrite (Hrows _ _ (pi_cell str_to_float m Si)); [done|].
    intros row. rewrite pi_cell_scalar, narrow_widen; [done|].
    apply widen_array_at.
Qed.

End WideFacts.

(** ** When the index functions raise, on any cells *)

Lemma type_or_overflow_engine (e : exn) : type_or_overflow e -> engine_error e.
Proof. intros [->| ->]; [right; by left|right; by right]. Qed.

Section WideFailures.

Variable str_to_float : string -> option float.
Variable limits : dict pyval.

Lemma wide_hmpi_step_status (ws : string) (row : WRow) (acc : float * float)
    (m : string) (v : pyval) :
  dict_lookup limits m = Some v ->
  if wide_fails_on str_to_float v row m
  then exists e, Wide.hmpi_step str_to_float limits ws row acc m = Raise e
                 /\ engine_error e
  else exists a', Wide.hmpi_step str_to_float limits ws row acc m = Ok a'.
Proof.
  intros Hl. unfold wide_fails_on.
  destruct (Wide.array_at row m) eqn:Ha; cbn [orb].
  - exists ValueError. split; [|by left].
    unfold Wide.hmpi_step. by rewrite (safe_get_array _ _ _ Ha).
  - rewrite (hmpi_step_scalar _ _ _ _ _ _ Ha).
    pose proof (hmpi_step_status str_to_float limits ws (Wide.narrow row) acc m v Hl)
      as H.
    destruct (fails_on _ _ _ _); [|done].
    destruct H as (e & He & HP). exists e. split; [done|].
    by apply type_or_overflow_engine.
Qed.

Lemma wide_mci_step_status (row : WRow) (acc : float * bool)
    (m : string) (v : pyval) :
  dict_lookup limits m = Some v ->
  if wide_fails_on str_to_float v row m
  then exists e, Wide.mci_step str_to_float limits row acc m = Raise e
                 /\ engine_error e
  else exists a', Wide.mci_step str_to_float limits row acc m = Ok a'.
Proof.
  intros Hl. unfold wide_fails_on.
  destruct (Wide.array_at row m) eqn:Ha; cbn [orb].
  - exists ValueError. split; [|by left].
    unfold Wide.mci_step. by rewrite (safe_get_array _ _ _ Ha).
  - rewrite (mci_step_scalar _ _ _ _ _ Ha).
    pose proof (mci_step_status str_to_float limits (Wide.narrow row) acc m v Hl)
      as H.
    destruct (fails_on _ _ _ _); [|done].
    destruct H as (e & He & HP). exists e. split; [done|].
    by apply type_or_overflow_engine.
Qed.

Lemma wide_pi_cell_status (m : string) (Si : pyval) (row : WRow) :
  if wide_fails_on str_to_float Si row m
  then exists e, Wide.pi_cell str_to_float m Si row = Raise e /\ engine_error e
  else exists y, Wide.pi_cell str_to_float m Si row = Ok y.
Proof.
  unfold wide_fails_on.
  destruct (Wide.array_at row m) eqn:Ha; cbn [orb].
  - exists ValueError. split; [|by left].
    unfold Wide.pi_cell. by rewrite (safe_get_array _ _ _ Ha).
  - rewrite (pi_cell_scalar _ _ _ _ Ha).
    pose proof (pi_cell_status str_to_float m Si (Wide.narrow row)) as H.
    destruct (fails_on _ _ _ _); [|done].
    destruct H as (e & He & HP). exists e. split; [done|].
    by apply type_or_overflow_engine.
Qed.

Lemma wide_row_fails_lookup (row : WRow) (m : string) (v : pyval) :
  dict_lookup limits m = Some v ->
  wide_row_fails str_to_float limits row m = wide_fails_on str_to_float v row m.
Proof. intros Hv. unfold wide_row_fails, wide_fails_on, row_fails. by rewrite Hv. Qed.

Lemma wide_hmpi_row_status (ws : string) (row : WRow) :
  if existsb (wide_row_fails str_to_float limits row) (dict_keys limits)
  then exists e, Wide.hmpi_row str_to_float limits ws row = Raise e
                 /\ engine_error e
  else exists y, Wide.hmpi_row str_to_float limits ws row = Ok y.
Proof.
  unfold Wide.hmpi_row.
  pose proof (for_each_status (wide_row_fails str_to_float limits row) engine_error
                (Wide.hmpi_step str_to_float limits ws row) (dict_keys limits)) as H.
  lapply H.
  2:{ intros m Hm a.
      destruct (dict_lookup_keys limits m Hm) as [v Hv].
      rewrite (wide_row_fails_lookup row m v Hv).
      by apply wide_hmpi_step_status. }
  clear H. intros H. specialize (H (F64.zero, F64.zero)).
  destruct (existsb _ _).
  - destruct H as (e & -> & He). by exists e.
  - destruct H as ([q w] & ->). cbn.
    destruct (F64.ltb F64.zero w) eqn:Hw; [|by eexists].
    unfold float_div. rewrite (gt_zero_nonzero _ Hw). by eexists.
Qed.

Lemma wide_row_mci_status (row : WRow) :
  if existsb (wide_row_fails str_to_float limits row) (dict_keys limits)
  then exists e, Wide._row_mci str_to_float limits row = Raise e
                 /\ engine_error e
  else exists y, Wide._row_mci str_to_float limits row = Ok y.
Proof.
  unfold Wide._row_mci.
  pose proof (for_each_status (wide_row_fails str_to_float limits row) engine_error
                (Wide.mci_step str_to_float limits row) (dict_keys limits)) as H.
  lapply H.
  2:{ intros m Hm a.
      destruct (dict_lookup_keys limits m Hm) as [v Hv].
      rewrite (wide_row_fails_lookup row m v Hv).
      by apply wide_mci_step_status. }
  clear H. intros H. specialize (H (F64.zero, false)).
  destruct (existsb _ _).
  - destruct H as (e & -> & He). by exists e.
  - destruct H as ([s any] & ->). cbn. by eexists.
Qed.

Lemma wide_calculate_hmpi_status (df : Wide.Frame) (ws : string) :
  if existsb (fun ir : Label * WRow =>
                existsb (wide_row_fails str_to_float limits ir.2) (dict_keys limits))
       df
  then exists e, Wide.calculate_hmpi str_to_float df limits ws = Raise e
                 /\ engine_error e
  else exists y, Wide.calculate_hmpi str_to_float df limits ws = Ok y.
Proof.
  unfold Wide.calculate_hmpi.
  pose proof (mapM_status
                (fun ir : Label * WRow =>
                   existsb (wide_row_fails str_to_float limits ir.2) (dict_keys limits))
                engine_error
                (fun ir : Label * WRow => Wide.hmpi_row str_to_float limits ws ir.2)
                df) as H.
  lapply H; [|intros ir _; apply wide_hmpi_row_status].
  clear H. intros H. destruct (existsb _ _).
  - destruct H as (e & -> & He). by exists e.
  - destruct H as (ys & ->). by eexists.
Qed.

Lemma wide_calculate_mci_status (df : Wide.Frame) :
  if existsb (fun ir : Label * WRow =>
                existsb (wide_row_fails str_to_float limits ir.2) (dict_keys limits))
       df
  then exists e, Wide.calculate_mci str_to_float df limits = Raise e
                 /\ engine_error e
  else exists y, Wide.calculate_mci str_to_float df limits = Ok y.
Proof.
  unfold Wide.calculate_mci.
  pose proof (mapM_status
                (fun ir : Label * WRow =>
                   existsb (wide_row_fails str_to_float limits ir.2) (dict_keys limits))
                engine_error
                (fun ir : Label * WRow => Wide._row_mci str_to_float limits ir.2)
                df) as H.
  lapply H; [|intros ir _; apply wide_row_mci_status].
  clear H. intros H. destruct (existsb _ _).
  - destruct H as (e & -> & He). by exists e.
  - destruct H as (ys & ->). by eexists.
Qed.

Lemma wide_calculate_pi_table_status (df : Wide.Frame) :
  if existsb (fun item : string * pyval =>
                existsb (fun ir : Label * WRow =>
                           wide_fails_on str_to_float item.2 ir.2 item.1) df)
       limits
  then exists e, Wide.calculate_pi_table str_to_float df limits = Raise e
                 /\ engine_error e
  else exists y, Wide.calculate_pi_table str_to_float df limits = Ok y.
Proof.
  unfold Wide.calculate_pi_table.
  pose proof (for_each_status
                (fun item : string * pyval =>
                   existsb (fun ir : Label * WRow =>
                              wide_fails_on str_to_float item.2 ir.2 item.1) df)
                engine_error (Wide.pi_step str_to_float df) limits) as H.
  lapply H.
  2:{ intros [m Si] _ pi. unfold Wide.pi_step. cbn [fst snd].
      pose proof (mapM_status
                    (fun ir : Label * WRow => wide_fails_on str_to_float Si ir.2 m)
                    engine_error
                    (fun ir : Label * WRow => Wide.pi_cell str_to_float m Si ir.2)
                    df) as Hc.
      lapply Hc; [|intros ir _; apply wide_pi_cell_status].
      clear Hc. intros Hc. cbv beta. cbn [fst snd].
      destruct (existsb _ df).
      - destruct Hc as (e & -> & He). by exists e.
      - destruct Hc as (col & ->). by eexists. }
  clear H. intros H. specialize (H []). destruct (existsb _ _).
  - destruct H as (e & -> & He). by exists e.
  - destruct H as (pi & ->). by eexists.
Qed.

(** A cell that is read without error and meets no unusable standard. *)
Lemma wide_fails_on_false (v : pyval) (row : WRow) (m : string) :
  wide_fails_on str_to_float v row m = false
  <-> exists Ci, Wide._safe_get str_to_float row m = Ok Ci
                 /\ (number_or_none v = false -> Ci = None).
Proof.
  unfold wide_fails_on. destruct (Wide.array_at row m) eqn:Ha; cbn [orb].
  - rewrite (safe_get_array _ _ _ Ha). split; [done|]. by intros (Ci & H & _).
  - rewrite (safe_get_scalar _ _ _ Ha), fails_on_false. split.
    + intros H. eexists. by split.
    + intros (Ci & [= <-] & H). done.
Qed.

Lemma wide_row_fails_false (row : WRow) :
  NoDup (dict_keys limits) ->
  (forall m, m ∈ dict_keys limits ->
             wide_row_fails str_to_float limits row m = false)
  <-> (forall m v, (m, v) ∈ limits ->
                   exists Ci, Wide._safe_get str_to_float row m = Ok Ci
                              /\ (number_or_none v = false -> Ci = None)).
Proof.
  intros Hnd. split.
  - intros H m v Hin. apply wide_fails_on_false.
    assert (Hm : m ∈ dict_keys limits).
    { unfold dict_keys. apply list_elem_of_fmap. by exists (m, v). }
    rewrite <- (wide_row_fails_lookup row m v); [by apply H|].
    by apply dict_lookup_nodup.
  - intros H m Hm. destruct (dict_lookup_keys limits m Hm) as [v Hv].
    rewrite (wide_row_fails_lookup row m v Hv).
    apply wide_fails_on_false, (H m v). by apply dict_lookup_elem.
Qed.

End WideFailures.

(** X11. When the index functions raise.  On any table (scalar cells,
    lists or arrays in cells, repeated column labels) and with
    distinct metals in the limits, each of [calculate_hmpi],
    [calculate_mci] and [calculate_pi_table] returns exactly when
    every metal cell of every row is read without error (it does not
    have several elements) and no row holds a value for a metal whose
    standard is neither a number nor [None] (a text, or an integer too
    large for a float).  Otherwise it raises a [ValueError], a
    [TypeError] or an [OverflowError]: a [ZeroDivisionError] or a
    [KeyError] never leaves these functions. *)
Theorem X11_when_the_indices_raise
    (str_to_float : string -> option float) (df : Wide.Frame)
    (limits : dict pyval) (weight_scheme : string) :
  NoDup (dict_keys limits) ->
  let clean :=
    forall (r : Label * WRow) m v,
      r ∈ df -> (m, v) ∈ limits ->
      exists Ci, Wide._safe_get str_to_float r.2 m = Ok Ci
                 /\ (number_or_none v = false -> Ci = None) in
  (succeeds (Wide.calculate_hmpi str_to_float df limits weight_scheme) <-> clean)
  /\ (succeeds (Wide.calculate_mci str_to_float df limits) <-> clean)
  /\ (succeeds (Wide.calculate_pi_table str_to_float df limits) <-> clean)
  /\ forall e,
       Wide.calculate_hmpi str_to_float df limits weight_scheme = Raise e
       \/ Wide.calculate_mci str_to_float df limits = Raise e
       \/ Wide.calculate_pi_table str_to_float df limits = Raise e ->
       e = ValueError \/ e = TypeError \/ e = OverflowError.
Proof.
  intros Hnd clean.
  destruct (status_succeeds engine_error _ _
              (wide_calculate_hmpi_status str_to_float limits df weight_scheme))
    as [Hh Hhe].
  destruct (status_succeeds engine_error _ _
              (wide_calculate_mci_status str_to_float limits df)) as [Hm Hme].
  destruct (status_succeeds engine_error _ _
              (wide_calculate_pi_table_status str_to_float limits df)) as [Hp Hpe].
  assert (Hrows :
    existsb (fun ir : Label * WRow =>
               existsb (wide_row_fails str_to_float limits ir.2) (dict_keys limits))
      df = false <-> clean).
  { rewrite existsb_false. unfold clean. split.
    - intros H r m v Hr. specialize (H r Hr). cbn beta in H.
      rewrite existsb_false in H.
      by apply (proj1 (wide_row_fails_false str_to_float limits r.2 Hnd) H).
    - intros H r Hr. apply existsb_false.
      apply (wide_row_fails_false str_to_float limits r.2 Hnd).
      intros m v. by apply H. }
  assert (Hitems :
    existsb (fun item : string * pyval =>
               existsb (fun ir : Label * WRow =>
                          wide_fails_on str_to_float item.2 ir.2 item.1) df)
      limits = false <-> clean).
  { rewrite existsb_false. unfold clean. split.
    - intros H r m v Hr Hin. specialize (H (m, v) Hin). cbn beta in H.
      rewrite existsb_false in H. by apply wide_fails_on_false, (H r Hr).
    - intros H [m v] Hin. apply existsb_false. intros r Hr.
      apply wide_fails_on_false. by apply (H r m v). }
  split; [by rewrite Hh|]. split; [by rewrite Hm|]. split; [by rewrite Hp|].
  intros e [He|[He|He]]; [by apply Hhe|by apply Hme|by apply Hpe].
Qed.

Lemma X11_when_the_indices_raise_witness :
  let clean :=
    forall (r : Label * WRow) m v,
      r ∈ wide_sample -> (m, v) ∈ Sample2.limits_text ->
      exists Ci, Wide._safe_get Sample.read_text r.2 m = Ok Ci
                 /\ (number_or_none v = false -> Ci = None) in
  (succeeds (Wide.calculate_hmpi Sample.read_text wide_sample Sample2.limits_text "1/Si")
   <-> clean)
  /\ (succeeds (Wide.calculate_mci Sample.read_text wide_sample Sample2.limits_text)
      <-> clean)
  /\ (succeeds (Wide.calculate_pi_table Sample.read_text wide_sample Sample2.limits_text)
      <-> clean)
  /\ forall e,
       Wide.calculate_hmpi Sample.read_text wide_sample Sample2.limits_text "1/Si"
       = Raise e
       \/ Wide.calculate_mci Sample.read_text wide_sample Sample2.limits_text = Raise e
       \/ Wide.calculate_pi_table Sample.read_text wide_sample Sample2.limits_text
          = Raise e ->
       e = ValueError \/ e = TypeError \/ e = OverflowError.
Proof.
  apply (X11_when_the_indices_raise Sample.read_text wide_sample
           Sample2.limits_text "1/Si").
  apply (bool_decide_unpack _). vm_compute. exact I.
Defined.

(** ** Totality on scalar cells *)

Section WideTotal.

Variable str_to_float : string -> option float.

Lemma array_at_false (row : WRow) (m : string) :
  row !! m <> Some ArrayLike -> Wide.array_at row m = false.
Proof. unfold Wide.array_at. by destruct (row !! m) as [[v|]|]. Qed.

Lemma fails_on_number (v : pyval) (row : gmap string pyval) (m : string) :
  number_or_none v = true -> fails_on str_to_float v row m = false.
Proof. intros H. unfold fails_on. rewrite H. by destruct (_safe_get _ _ _). Qed.

Lemma wide_fails_on_scalar_number (v : pyval) (row : WRow) (m : string) :
  row !! m <> Some ArrayLike -> number_or_none v = true ->
  wide_fails_on str_to_float v row m = false.
Proof.
  intros Ha Hn. unfold wide_fails_on.
  by rewrite (array_at_false _ _ Ha), (fails_on_number _ _ _ Hn).
Qed.

Lemma wide_safe_get_missing (row : WRow) (col : string) :
  row !! col = None
  \/ (exists v, row !! col = Some (Scalar v)
                /\ (pd_isna v = true \/ exists e, py_float str_to_float v = Raise e)) ->
  Wide._safe_get str_to_float row col = Ok None.
Proof.
  unfold Wide._safe_get. intros [->|(v & -> & [H|[e H]])]; cbn.
  - done.
  - by rewrite H.
  - rewrite H. by destruct (pd_isna v).
Qed.

End WideTotal.




Example text_standard_raises :
  calculate_hmpi Sample.read_text Sample.df Sample2.limits_text "1/Si"
  = Raise TypeError
  /\ calculate_mci Sample.read_text Sample.df Sample2.limits_text = Raise TypeError
  /\ calculate_pi_table Sample.read_text Sample.df Sample2.limits_text
     = Raise TypeError
  /\ succeeds (calculate_hmpi Sample.read_text Sample.df_missing
                 [("Pb", VStr "0.01")] "1/Si").
Proof. vm_compute. repeat split. Qed.

(** ** The weighting scheme *)

(** X12. The weighting scheme is compared with the text ["1/Si"] only:
    [calculate_hmpi] gives for every other name, misspelt or unknown,
    what it gives for equal weights, without any error. *)
Theorem X12_unknown_scheme_is_equal
    (str_to_float : string -> option float) (df : DataFrame)
    (limits : dict pyval) (weight_scheme : string) :
  weight_scheme <> "1/Si" ->
  calculate_hmpi str_to_float df limits weight_scheme
  = calculate_hmpi str_to_float df limits "equal".
Proof.
  intros Hne. unfold calculate_hmpi.
  assert (Hrow : forall row, hmpi_row str_to_float limits weight_scheme row
                             = hmpi_row str_to_float limits "equal" row).
  { intros row. unfold hmpi_row. f_equal. apply for_each_ext.
    apply Forall_forall. intros m _ acc. unfold hmpi_step.
    apply String.eqb_neq in Hne. rewrite Hne. reflexivity. }
  rewrite (mapM_ext2 _ (fun ir : Label * Row =>
                          hmpi_row str_to_float limits "equal" ir.2)
             (df_rows df) (df_rows df)); [done|].
  apply Forall2_same_length_lookup_2; [done|].
  intros i x y Hx Hy. rewrite Hx in Hy. injection Hy as <-. apply Hrow.
Qed.

Lemma X12_unknown_scheme_is_equal_witness :
  calculate_hmpi Sample.read_text Sample.df_mixed Sample.limits "1/si"
  = calculate_hmpi Sample.read_text Sample.df_mixed Sample.limits "equal".
Proof.
  apply (X12_unknown_scheme_is_equal Sample.read_text Sample.df_mixed
           Sample.limits "1/si").
  discriminate.
Defined.

(** ** NaN *)

Module F64NaN.

Lemma add_nan_l (x : float) : F64.add F64.nan x = F64.nan.
Proof. by destruct x as [[]|[]| |[] m e]. Qed.

Lemma add_nan_r (x : float) : F64.add x F64.nan = F64.nan.
Proof. by destruct x as [[]|[]| |[] m e]. Qed.

Lemma mul_nan_l (x : float) : F64.mul F64.nan x = F64.nan.
Proof. by destruct x as [[]|[]| |[] m e]. Qed.

Lemma div_nan_l (x : float) : F64.div F64.nan x = F64.nan.
Proof. by destruct x as [[]|[]| |[] m e]. Qed.

Lemma foldl_add_nan (l : list float) : foldl F64.add F64.nan l = F64.nan.
Proof. induction l as [|x l IH]; cbn [foldl]; [done|]. by rewrite add_nan_l. Qed.

Lemma foldl_add_has_nan (l : list float) :
  F64.nan ∈ l -> forall acc, foldl F64.add acc l = F64.nan.
Proof.
  induction l as [|x l IH]; intros Hin acc; [by apply elem_of_nil in Hin|].
  cbn [foldl]. apply elem_of_cons in Hin as [<-|Hin].
  - by rewrite add_nan_r, foldl_add_nan.
  - by apply IH.
Qed.

Lemma sum_has_nan (l : list float) : F64.nan ∈ l -> F64.sum l = F64.nan.
Proof. intros H. by apply foldl_add_has_nan. Qed.

Lemma is_nan_eq (x : float) : F64.is_nan x = true -> x = F64.nan.
Proof. by destruct x as [[]|[]| |[] m e]. Qed.

End F64NaN.

Section Poison.

Variable str_to_float : string -> option float.

Lemma hmpi_value_nan (ws : string) (cs : list (float * float)) (s : float) :
  (F64.nan, s) ∈ cs -> hmpi_value ws cs = F64.nan.
Proof.
  intros Hin. unfold hmpi_value.
  rewrite (F64NaN.sum_has_nan
             ((fun c : float * float =>
                 F64.mul (F64.mul (F64.div c.1 c.2) F64.hundred)
                   (weight_of ws c.2)) <$> cs)).
  - rewrite F64NaN.div_nan_l. by destruct (F64.ltb _ _).
  - apply list_elem_of_fmap. exists (F64.nan, s). split; [|done].
    cbn [fst snd]. by rewrite F64NaN.div_nan_l, !F64NaN.mul_nan_l.
Qed.

Lemma mci_value_nan (cs : list (float * float)) (s : float) :
  (F64.nan, s) ∈ cs -> mci_value cs = F64.nan.
Proof.
  intros Hin. unfold mci_value. destruct cs as [|c cs]; [done|].
  apply F64NaN.sum_has_nan, list_elem_of_fmap. exists (F64.nan, s).
  split; [|done]. cbn [fst snd]. by rewrite F64NaN.div_nan_l.
Qed.

End Poison.


(** X14. [_safe_get] hands a NaN to the index loops only for text: a
    cell that is a number, a boolean, [None] or NaN is never read as
    NaN, and a text cell is only if the builtin [float] reads its
    text as NaN. *)
Theorem X14_safe_get_nan_only_from_text
    (str_to_float : string -> option float) (row : Row) (m : string) :
  _safe_get str_to_float row m = Some F64.nan ->
  exists t, row !! m = Some (VStr t) /\ str_to_float t = Some F64.nan.
Proof.
  unfold _safe_get.
  destruct (row !! m) as [[|b|z|f|t]|]; cbn; try done.
  - by destruct b.
  - unfold int_to_float. destruct (F64.is_inf (F64.of_Z z)) eqn:Hinf; [done|].
    intros [= H]. exfalso. revert H Hinf. unfold F64.of_Z.
    destruct z as [|p|p]; [done| |].
    + pose proof (F64Signs.binary_round_aux_sign false (Z.pos p) 0 loc_Exact
                    ltac:(lia)) as Hs.
      unfold binary_normalize, binary_round. simpl.
      unfold binary_round in *.
      destruct (shl_align _ _ _) as [mz ez].
      pose proof (F64Signs.binary_round_aux_sign false (Z.pos mz) ez loc_Exact
                    ltac:(lia)) as Hs'.
      intros H. by rewrite H in Hs'.
    + unfold binary_normalize, binary_round. simpl.
      destruct (shl_align _ _ _) as [mz ez].
      pose proof (F64Signs.binary_round_aux_sign true (Z.pos mz) ez loc_Exact
                    ltac:(lia)) as Hs'.
      intros H. by rewrite H in Hs'.
  - destruct (F64.is_nan f) eqn:Hn; [done|]. intros [= ->]. done.
  - destruct (str_to_float t) as [f|] eqn:Ht; [|done].
    intros [= ->]. by exists t.
Qed.


Lemma X14_safe_get_nan_only_from_text_witness :
  exists t, Sample2.row_nan !! "Pb" = Some (VStr t)
            /\ Sample2.read_nan t = Some F64.nan.
Proof.
  apply (X14_safe_get_nan_only_from_text Sample2.read_nan Sample2.row_nan "Pb").
  reflexivity.
Defined.

(** X13. Text that the builtin [float] reads as NaN (["nan"]) is not a
    missing value for the index functions, unlike a NaN cell: when
    such a cell meets a standard that passes the guard, the HMPI of
    the row (under any scheme) and its MCI are NaN, whatever the
    other metals of the row hold. *)
Theorem X13_nan_text_poisons_row
    (str_to_float : string -> option float) (df : DataFrame)
    (limits : dict pyval) (weight_scheme : string)
    (i : nat) (lbl : Label) (row : Row) (m t : string) (v : pyval) :
  limits_ok limits ->
  df_rows df !! i = Some (lbl, row) ->
  row !! m = Some (VStr t) ->
  str_to_float t = Some F64.nan ->
  dict_lookup limits m = Some v ->
  skip_standard v = false ->
  exists hmpi mci,
    calculate_hmpi str_to_float df limits weight_scheme = Ok hmpi
    /\ calculate_mci str_to_float df limits = Ok mci
    /\ s_values hmpi !! i = Some F64.nan
    /\ s_values mci !! i = Some F64.nan.
Proof.
  intros Hok Hrow Hcell Ht Hv Hskip.
  assert (Hn : number_or_none v = true).
  { by apply (dict_lookup_Forall (fun kv => number_or_none kv.2 = true)
                limits m v Hok Hv). }
  destruct (number_or_none_std v Hn Hskip) as [s Hs].
  assert (Hin : (F64.nan, s) ∈ contributions str_to_float limits row).
  { unfold contributions. apply list_elem_of_omap. exists m. split.
    - by apply dict_lookup_elem, (list_elem_of_fmap_2 fst) in Hv.
    - apply contribution_Some. simpl. split; [|by exists v].
      unfold _safe_get. rewrite Hcell. cbn. by rewrite Ht. }
  eexists _, _.
  split; [by apply calculate_hmpi_ok|].
  split; [by apply calculate_mci_ok|]. simpl.
  rewrite !list_lookup_fmap, Hrow. simpl.
  by rewrite (hmpi_value_nan _ _ s Hin), (mci_value_nan _ s Hin).
Qed.

Lemma X13_nan_text_poisons_row_witness :
  exists hmpi mci,
    calculate_hmpi Sample2.read_nan
      (mkDataFrame [("Pb", object_); ("Cd", float64)] [(0, Sample2.row_nan)])
      Sample.limits "1/Si" = Ok hmpi
    /\ calculate_mci Sample2.read_nan
         (mkDataFrame [("Pb", object_); ("Cd", float64)] [(0, Sample2.row_nan)])
         Sample.limits = Ok mci
    /\ s_values hmpi !! 0%nat = Some F64.nan
    /\ s_values mci !! 0%nat = Some F64.nan.
Proof.
  apply (X13_nan_text_poisons_row Sample2.read_nan
           (mkDataFrame [("Pb", object_); ("Cd", float64)] [(0, Sample2.row_nan)])
           Sample.limits "1/Si" 0%nat 0 Sample2.row_nan "Pb" "nan"
           (VFloat (F64.dec 1 2))).
  - repeat constructor.
  - reflexivity.
  - reflexivity.
  - reflexivity.
  - reflexivity.
  - reflexivity.
Defined.

(** ** Standards that are not above zero *)

Module F64NotPositive.

Lemma not_positive_ltb (f : float) : not_positive f <-> F64.ltb F64.zero f = false.
Proof. destruct f as [[]|[]| |[] m e]; cbv; intuition congruence. Qed.

Lemma binary_round_aux_not_positive (m e : Z) (l : location) :
  0 <= m -> not_positive (binary_round_aux F64.prec F64.emax true m e l).
Proof.
  intros Hm. pose proof (F64Signs.binary_round_aux_sign true m e l Hm) as H.
  destruct (binary_round_aux F64.prec F64.emax true m e l) as [?|?| |? ? ?];
    simpl in *; by subst.
Qed.

Lemma add_not_positive (x y : float) :
  not_positive x -> not_positive y -> not_positive (F64.add x y).
Proof.
  destruct x as [[]|[]| |[] mx ex], y as [[]|[]| |[] my ey]; simpl; try done.
  intros _ _.
  change (Z.neg ?a + Z.neg ?b) with (Z.neg (a + b)).
  unfold binary_normalize, binary_round.
  destruct (shl_align _ _ _) as [mz ez].
  by apply binary_round_aux_not_positive.
Qed.

(** The inverse of a number that is neither zero nor above zero. *)
Lemma div_one_not_positive (s : float) :
  F64.ltb F64.zero s = false -> F64.eqb s F64.zero = false ->
  not_positive (F64.div F64.one s).
Proof.
  destruct s as [[]|[]| |[] ms es]; try done.
  intros _ _. change F64.one with (S754_finite false 4503599627370496 (-52)).
  unfold F64.div, SFdiv. cbn [xorb]. unfold SFdiv_core_binary.
  set (s := -52 - es - _).
  set (m' := match s with Z.pos _ => _ | Z0 => _ | Z.neg _ => _ end).
  assert (Hm' : 0 <= m').
  { unfold m'. destruct s; try lia. apply Z.shiftl_nonneg. lia. }
  pose proof (F64Signs.div_eucl_nonneg m' (Z.pos ms) Hm' ltac:(lia)) as Hq.
  destruct (Z.div_eucl m' (Z.pos ms)) as [q r]. simpl in Hq.
  by apply binary_round_aux_not_positive.
Qed.

Lemma foldl_add_not_positive (l : list float) :
  Forall not_positive l ->
  forall acc, not_positive acc -> not_positive (foldl F64.add acc l).
Proof.
  induction 1 as [|x l Hx _ IH]; intros acc Hacc; cbn [foldl]; [done|].
  apply IH. by apply add_not_positive.
Qed.

End F64NotPositive.

(** X15. When no standard of the limits is above zero, the default
    scheme has no positive weight to divide by: [calculate_hmpi] with
    ["1/Si"] returns NaN for every row, whatever the table holds.
    (Negative standards pass the guard, and their weights [1/Si] are
    negative.) *)
Theorem X15_no_positive_standard_no_hmpi
    (str_to_float : string -> option float) (df : DataFrame)
    (limits : dict pyval) :
  limits_ok limits ->
  (forall m v s, (m, v) ∈ limits -> std_float v = Some s ->
                 F64.ltb F64.zero s = false) ->
  exists hmpi,
    calculate_hmpi str_to_float df limits "1/Si" = Ok hmpi
    /\ s_index hmpi = df_index df
    /\ s_values hmpi = replicate (length (df_rows df)) F64.nan.
Proof.
  intros Hok Hneg. eexists. split; [by apply calculate_hmpi_ok|].
  split; [done|]. cbn [s_values].
  induction (df_rows df) as [|[lbl row] rows IH]; [done|].
  rewrite fmap_cons, IH. cbn [length replicate]. f_equal. cbn [snd].
  unfold hmpi_value.
  assert (Hw : not_positive
                 (F64.sum ((fun c : float * float => weight_of "1/Si" c.2)
                             <$> contributions str_to_float limits row))).
  { apply F64NotPositive.foldl_add_not_positive; [|done].
    apply Forall_fmap, Forall_forall. intros c Hc. cbn.
    apply contributions_elem in Hc as (m & Hm & Hc).
    apply contribution_Some in Hc as [_ (v & Hv & Hskip & Hs)].
    apply F64NotPositive.div_one_not_positive.
    - apply (Hneg m v); [by apply dict_lookup_elem|done].
    - by apply (std_float_nonzero v). }
  apply F64NotPositive.not_positive_ltb in Hw. by rewrite Hw.
Qed.

Lemma X15_no_positive_standard_no_hmpi_witness :
  exists hmpi,
    calculate_hmpi Sample.read_text Sample.df Sample2.limits_all_neg "1/Si" = Ok hmpi
    /\ s_index hmpi = df_index Sample.df
    /\ s_values hmpi = replicate (length (df_rows Sample.df)) F64.nan.
Proof.
  apply (X15_no_positive_standard_no_hmpi Sample.read_text Sample.df
           Sample2.limits_all_neg).
  - repeat constructor.
  - intros m v s Hin Hs.
    apply elem_of_cons in Hin as [Hin|Hin].
    + injection Hin as -> ->. by injection Hs as <-.
    + apply elem_of_cons in Hin as [Hin|Hin].
      * injection Hin as -> ->. by injection Hs as <-.
      * by apply elem_of_nil in Hin.
Defined.

(** ** The compute step of the application *)

Section ComputeStep.

Variable str_to_float : string -> option float.

Lemma df_set_column_reads (df : DataFrame) (limits : dict pyval)
    (col : string) (t : dtype) (values : list pyval) :
  length values = length (df_rows df) ->
  col ∉ dict_keys limits ->
  Forall2 (fun r r' : Label * Row =>
             r.1 = r'.1 /\ same_reads str_to_float limits r.2 r'.2)
    (df_rows (df_set_column df col t values)) (df_rows df).
Proof.
  intros Hlen Hcol. unfold df_set_column. cbn [df_rows].
  revert values Hlen. induction (df_rows df) as [|[lbl row] rows IH];
    intros [|v values] Hlen; simpl in Hlen; try discriminate; [constructor|].
  injection Hlen as Hlen. cbn [zip_with]. constructor; [|by apply IH].
  cbn [fst snd]. split; [done|]. intros m Hm. unfold _safe_get.
  rewrite lookup_insert_ne; [done|]. by intros ->.
Qed.

Lemma set_column_same_indices (df : DataFrame) (limits : dict pyval)
    (col : string) (t : dtype) (values : list pyval) (ws : string) :
  length values = length (df_rows df) ->
  col ∉ dict_keys limits ->
  calculate_hmpi str_to_float (df_set_column df col t values) limits ws
  = calculate_hmpi str_to_float df limits ws
  /\ calculate_mci str_to_float (df_set_column df col t values) limits
     = calculate_mci str_to_float df limits
  /\ calculate_pi_table str_to_float (df_set_column df col t values) limits
     = calculate_pi_table str_to_float df limits.
Proof. intros Hlen Hcol. by apply calculate_reads, df_set_column_reads. Qed.

End ComputeStep.



(** ** The unit heuristic of the validation *)

Section Magnitude.

Variable abs_median : list pyval -> float.

Lemma foldl_magnitude_lookup (df : DataFrame) (l : list string) (c : string) :
  forall acc,
  dict_lookup (foldl (magnitude_set abs_median df) acc l) c
  = if decide (c ∈ l /\ c ∈ dict_keys (df_columns df))
    then Some (magnitude_of abs_median df c)
    else dict_lookup acc c.
Proof.
  induction l as [|x l IH]; intros acc; cbn [foldl].
  - rewrite decide_False; [done|]. intros [H _]. by apply elem_of_nil in H.
  - rewrite IH. unfold magnitude_set at 1.
    destruct (decide (c ∈ l /\ c ∈ dict_keys (df_columns df))) as [[Hl Hk]|Hn].
    + rewrite decide_True; [done|]. split; [by right|done].
    + destruct (column_dtype df x) as [t|] eqn:Ht.
      * rewrite dict_lookup_set.
        destruct (String.eqb_spec x c) as [->|Hne].
        -- rewrite decide_True; [done|]. split; [by left|].
           destruct (decide (c ∈ dict_keys (df_columns df))) as [|Hk]; [done|].
           apply column_dtype_None in Hk. congruence.
        -- rewrite decide_False; [done|].
           intros [[->|Hl]%elem_of_cons Hk]; [done|]. by apply Hn.
      * rewrite decide_False; [done|].
        intros [[->|Hl]%elem_of_cons Hk]; [|by apply Hn].
        apply column_dtype_None in Ht. done.
Qed.

End Magnitude.

(** X17. The unit heuristic of the report.  In a table with distinct
    column labels, when every required column can be coerced, the
    report is returned and its
    ["median_magnitude"] has an entry exactly for the required columns
    that the table has; the entry is computed on the column as the
    validation leaves it, that is after the coercion: it is NaN when
    the column holds no value (every cell missing or not numeric), and
    otherwise what the median call of pandas returns on the
    non-missing cells (that call is a parameter here: its value is
    not computed). *)
Theorem X17_median_magnitude
    (str_to_numeric : string -> option pyval) (abs_median : list pyval -> float)
    (median_error : list pyval -> exn)
    (df : DataFrame) (required_metal_columns : list string) (c : string) :
  NoDup (dict_keys (df_columns df)) ->
  all_coercible df required_metal_columns ->
  let out := validate_dataframe str_to_numeric abs_median median_error df
               required_metal_columns in
  exists valid report,
    out.2 = Ok (valid, report)
    /\ dict_lookup (median_magnitude report) c
       = if decide (c ∈ required_metal_columns /\ c ∈ dict_keys (df_columns df))
         then Some (match filter (fun v => pd_isna v = false) (df_column out.1 c) with
                    | [] => F64.nan
                    | s => abs_median s
                    end)
         else None.
Proof.
  intros _ Hall out.
  destruct (validate_dataframe_returns str_to_numeric abs_median median_error
              df required_metal_columns) as (H1 & H2 & _).
  fold out in H1, H2. eexists _, _. split; [by apply H2|]. rewrite H1.
  pose proof (loop_inv_fold str_to_numeric df required_metal_columns)
    as (_ & Hkeys & _).
  destruct (foldl (validate_step str_to_numeric) (df, ([], [])) required_metal_columns)
    as [df' [missing nonnum]].
  cbn [fst snd median_magnitude] in *.
  rewrite foldl_magnitude_lookup, Hkeys. unfold magnitude_of.
  by destruct (decide _).
Qed.

Lemma X17_median_magnitude_witness :
  let out := validate_dataframe Sample.read_numeric Sample.no_median
               Sample2.median_overflow Sample.df_text ["Pb"; "Cd"] in
  exists valid report,
    out.2 = Ok (valid, report)
    /\ dict_lookup (median_magnitude report) "Pb"
       = if decide ("Pb" ∈ ["Pb"; "Cd"] /\ "Pb" ∈ dict_keys (df_columns Sample.df_text))
         then Some (match filter (fun v => pd_isna v = false) (df_column out.1 "Pb") with
                    | [] => F64.nan
                    | s => Sample.no_median s
                    end)
         else None.
Proof.
  apply (X17_median_magnitude Sample.read_numeric Sample.no_median
           Sample2.median_overflow Sample.df_text ["Pb"; "Cd"] "Pb").
  { apply (bool_decide_unpack _). vm_compute. exact I. }
  intros c Hc _.
  apply elem_of_cons in Hc as [->|Hc]; [reflexivity|].
  apply elem_of_cons in Hc as [->|Hc]; [reflexivity|].
  by apply elem_of_nil in Hc.
Defined.

(** ** The shape of the PI frame *)

Lemma dict_set_absent {V} (d : dict V) (k : string) (v : V) :
  k ∉ dict_keys d -> dict_set d k v = d ++ [(k, v)].
Proof.
  unfold dict_keys. induction d as [|[k' v'] d IH]; intros Hk; [done|].
  rewrite fmap_cons in Hk. apply not_elem_of_cons in Hk as [Hne Hk].
  cbn [dict_set fst]. destruct (String.eqb_spec k' k) as [->|_]; [done|].
  by rewrite IH.
Qed.

Lemma pi_fold_columns (str_to_float : string -> option float)
    (df : DataFrame) (limits : dict pyval) :
  NoDup (dict_keys limits) ->
  forall acc : dict (list float),
  (forall m, m ∈ dict_keys limits -> "PI_" +:+ m ∉ dict_keys acc) ->
  foldl (pi_set str_to_float df) acc limits
  = acc ++ ((fun kv : string * pyval =>
               ("PI_" +:+ kv.1, pi_column str_to_float df kv.1 kv.2)) <$> limits).
Proof.
  unfold dict_keys at 1 2.
  induction limits as [|[m Si] limits IH]; intros Hnd acc Hacc.
  - by rewrite app_nil_r.
  - rewrite fmap_cons in Hnd. apply NoDup_cons in Hnd as [Hm Hnd].
    cbn [foldl]. unfold pi_set at 2. cbn [fst snd].
    rewrite dict_set_absent.
    2:{ apply Hacc. rewrite fmap_cons. by left. }
    rewrite IH; [by rewrite fmap_cons, <- app_assoc|done|].
    intros m' Hm'. unfold dict_keys. rewrite fmap_app.
    apply not_elem_of_app. split.
    + apply Hacc. rewrite fmap_cons. by right.
    + cbn. intros [Heq|Hnil]%elem_of_cons; [|by apply elem_of_nil in Hnil].
      apply PI_name_inj in Heq as ->. done.
Qed.

(** X18. The PI frame as a whole.  With numeric standards and distinct
    metals, [calculate_pi_table] returns a frame on the index of the
    table with exactly one column per metal of the limits, in the
    order of the limits and named [PI_<metal>], each holding one cell
    per row. *)
Theorem X18_pi_frame_shape
    (str_to_float : string -> option float) (df : DataFrame)
    (limits : dict pyval) :
  limits_ok limits ->
  NoDup (dict_keys limits) ->
  calculate_pi_table str_to_float df limits
  = Ok (mkPiFrame (df_index df)
          ((fun kv : string * pyval =>
              ("PI_" +:+ kv.1,
               (fun ir : Label * Row => pi_value str_to_float kv.1 kv.2 ir.2)
                 <$> df_rows df)) <$> limits)).
Proof.
  intros Hok Hnd. rewrite calculate_pi_table_ok by done.
  rewrite (pi_fold_columns str_to_float df limits Hnd []); [done|].
  intros m _ H. by apply elem_of_nil in H.
Qed.

Lemma X18_pi_frame_shape_witness :
  calculate_pi_table Sample.read_text Sample.df Sample.limits
  = Ok (mkPiFrame (df_index Sample.df)
          ((fun kv : string * pyval =>
              ("PI_" +:+ kv.1,
               (fun ir : Label * Row => pi_value Sample.read_text kv.1 kv.2 ir.2)
                 <$> df_rows Sample.df)) <$> Sample.limits)).
Proof.
  apply (X18_pi_frame_shape Sample.read_text Sample.df Sample.limits).
  - repeat constructor.
  - apply (bool_decide_unpack _). vm_compute. exact I.
Defined.
